(** * mfcauto: the chat client's protocol engine (mfcauto/client.py)

    A shallow embedding of the wire codec ([MFCProtocol.data_received],
    [Client.tx_cmd]), of the packet handler ([Client._process_packet]), of
    the list decoder ([Client._process_list]), of the query machinery
    ([Client.query_user]), of the teardown ([Client.handle_disconnected])
    and of the id conversions ([Client.touserid], [Client.toroomid]),
    followed by the properties of the design document that concern them.

    Python values are modelled as follows:
    - [int] is [Z] (unbounded); the 32-bit fields of the wire format are
      written out with their range checks and two's complement;
    - [bytes] is [list byte];
    - [str] is a list of code points ([pystr]); [len] counts code points
      and [encode]/[decode] are UTF-8;
    - [None], [bool], [int], [float], [str], [list] and [dict] values that
      travel in payloads are the inductive [pyval]; a [dict] is an
      association list in insertion order with at most one binding per key;
    - exceptions are the [Raise] outcome of a small state-and-error monad;
    - [json.loads] is its grammar together with the two limits of the
      interpreter that make it raise something else than
      [JSONDecodeError]; the limits are parameters ([Limits]). *)

From Stdlib Require Import String Ascii.
From Stdlib Require Import ZArith List Lia Bool.
From Stdlib Require Import Strings.Byte.
From Stdlib Require Import Floats.SpecFloat.
Import ListNotations.
Open Scope Z_scope.

Set Implicit Arguments.

(* ================================================================== *)
(** * Identifier conversions *)
(* ================================================================== *)

Module Ids.

(** [Client.touserid]: strips the room/channel offset of an id. *)
Definition touserid (uid : Z) : Z :=
  if uid >=? 1000000000 then uid - 1000000000
  else if uid >=? 400000000 then uid - 400000000
  else if uid >=? 300000000 then uid - 300000000
  else if uid >=? 200000000 then uid - 200000000
  else if uid >=? 100000000 then uid - 100000000
  else uid.

(** [Client.toroomid]: adds the room offset to a bare user id. *)
Definition toroomid (the_id : Z) : Z :=
  if the_id <? 100000000 then the_id + 100000000 else the_id.

End Ids.

(* ================================================================== *)
(** * Python values, exceptions and outcomes *)
(* ================================================================== *)

(** A Python [str]: its code points, in order.  [len] is [length]. *)
Definition pystr := list Z.

(** The code points of an ASCII literal of this file. *)
Fixpoint str_of (s : string) : pystr :=
  match s with
  | EmptyString => []
  | String a r => Z.of_N (N_of_ascii a) :: str_of r
  end.

Fixpoint pystr_eqb (a b : pystr) : bool :=
  match a, b with
  | [], [] => true
  | x :: a', y :: b' => (x =? y) && pystr_eqb a' b'
  | _, _ => false
  end.

(** The values a payload can hold: what [json.loads] builds, and the
    raw text kept when it fails.  A [dict] lists its items in insertion
    order, one per key. *)
#[warnings="-register-all"]
Inductive pyval : Type :=
| PNone
| PBool (b : bool)
| PInt (z : Z)
| PFloat (f : spec_float)
| PStr (s : pystr)
| PList (l : list pyval)
| PDict (d : list (pyval * pyval)).

(** The exceptions the modelled code can raise. *)
Inductive exn : Type :=
| StructError          (* struct.error *)
| AssertionError
| UnicodeDecodeError
| UnicodeEncodeError
| TypeError
| KeyError
| IndexError
| AttributeError
| ValueError
| InvalidStateError    (* asyncio: result set on a finished future *)
| RecursionError
| Exception (msg : string).

Inductive outcome (A : Type) : Type :=
| Ret (a : A)
| Raise (e : exn).
Arguments Ret {A} a.
Arguments Raise {A} e.

Definition obind {A B} (o : outcome A) (k : A -> outcome B) : outcome B :=
  match o with
  | Ret a => k a
  | Raise e => Raise e
  end.

Declare Scope outcome_scope.
Delimit Scope outcome_scope with out.
Notation "'let!' x ':=' o 'in' k" := (obind o (fun x => k))
  (at level 10, x pattern, o at level 100, k at level 200) : outcome_scope.

Definition is_ret {A} (o : outcome A) : bool :=
  match o with Ret _ => true | Raise _ => false end.

(* ================================================================== *)
(** * The wire format: [struct] and UTF-8 *)
(* ================================================================== *)

Module Wire.

Definition byte_of_Z (z : Z) : byte :=
  match Byte.of_N (Z.to_N (z mod 256)) with
  | Some b => b
  | None => x00
  end.

Definition Z_of_byte (b : byte) : Z := Z.of_N (Byte.to_N b).

(** [MAGIC], as the constants generator writes it. *)
Definition MAGIC : Z := -2027771214.

Definition int32_min : Z := -2147483648.
Definition int32_max : Z := 2147483647.
Definition in_int32 (x : Z) : bool := (int32_min <=? x) && (x <=? int32_max).

(** The four bytes of [x], most significant first, two's complement. *)
Definition be32 (x : Z) : list byte :=
  [byte_of_Z (Z.shiftr x 24); byte_of_Z (Z.shiftr x 16);
   byte_of_Z (Z.shiftr x 8); byte_of_Z x].

(** [struct.pack(">i", x)]; [struct.error] out of range. *)
Definition pack_i (x : Z) : outcome (list byte) :=
  if in_int32 x then Ret (be32 x) else Raise StructError.

(** [struct.unpack(">i", b)] on exactly four bytes. *)
Definition unpack_i (b0 b1 b2 b3 : byte) : Z :=
  let u := Z.lor (Z.shiftl (Z_of_byte b0) 24)
            (Z.lor (Z.shiftl (Z_of_byte b1) 16)
              (Z.lor (Z.shiftl (Z_of_byte b2) 8) (Z_of_byte b3))) in
  if u >=? 2147483648 then u - 4294967296 else u.

(** [struct.pack("{n}s", b)]: [b] cut to [n] bytes, or padded with zero
    bytes up to [n]. *)
Definition pack_s (n : nat) (b : list byte) : list byte :=
  firstn n b ++ repeat x00 (n - length b).

Fixpoint pack_ints (xs : list Z) : outcome (list byte) :=
  match xs with
  | [] => Ret []
  | x :: r =>
      (let! hd := pack_i x in
       let! tl := pack_ints r in
       Ret (hd ++ tl))%out
  end.

(** [struct.unpack(">iiiiiii", b)] on exactly 28 bytes; [None] stands
    for a buffer of another length (never the case at the call site). *)
Fixpoint unpack_ints (n : nat) (b : list byte) : option (list Z) :=
  match n, b with
  | O, [] => Some []
  | S n', b0 :: b1 :: b2 :: b3 :: r =>
      match unpack_ints n' r with
      | Some xs => Some (unpack_i b0 b1 b2 b3 :: xs)
      | None => None
      end
  | _, _ => None
  end.

(** ** UTF-8 *)

Definition is_cont (b : Z) : bool := (128 <=? b) && (b <=? 191).
Definition is_surrogate (c : Z) : bool := (55296 <=? c) && (c <=? 57343).

(** [str.encode()] of one code point; surrogates cannot be encoded. *)
Definition utf8_encode_cp (c : Z) : outcome (list byte) :=
  if (c <? 0) || (1114111 <? c) || is_surrogate c then Raise UnicodeEncodeError
  else if c <? 128 then Ret [byte_of_Z c]
  else if c <? 2048 then
    Ret [byte_of_Z (Z.lor 192 (Z.shiftr c 6));
         byte_of_Z (Z.lor 128 (Z.land c 63))]
  else if c <? 65536 then
    Ret [byte_of_Z (Z.lor 224 (Z.shiftr c 12));
         byte_of_Z (Z.lor 128 (Z.land (Z.shiftr c 6) 63));
         byte_of_Z (Z.lor 128 (Z.land c 63))]
  else
    Ret [byte_of_Z (Z.lor 240 (Z.shiftr c 18));
         byte_of_Z (Z.lor 128 (Z.land (Z.shiftr c 12) 63));
         byte_of_Z (Z.lor 128 (Z.land (Z.shiftr c 6) 63));
         byte_of_Z (Z.lor 128 (Z.land c 63))].

Fixpoint utf8_encode (s : pystr) : outcome (list byte) :=
  match s with
  | [] => Ret []
  | c :: r =>
      (let! hd := utf8_encode_cp c in
       let! tl := utf8_encode r in
       Ret (hd ++ tl))%out
  end.

(** [bytes.decode('utf-8')], strict: shortest form only, no surrogates,
    nothing above U+10FFFF.  [None] is [UnicodeDecodeError].  The fuel
    is the number of bytes, one code point taking at least one. *)
Fixpoint utf8_decode_aux (fuel : nat) (b : list Z) : option pystr :=
  match fuel with
  | O => match b with [] => Some [] | _ => None end
  | S fuel' =>
      match b with
      | [] => Some []
      | b0 :: r =>
          if b0 <? 128 then option_map (cons b0) (utf8_decode_aux fuel' r)
          else if (194 <=? b0) && (b0 <=? 223) then
            match r with
            | b1 :: r' =>
                if is_cont b1 then
                  option_map (cons (Z.lor (Z.shiftl (Z.land b0 31) 6) (Z.land b1 63)))
                             (utf8_decode_aux fuel' r')
                else None
            | _ => None
            end
          else if (224 <=? b0) && (b0 <=? 239) then
            match r with
            | b1 :: b2 :: r' =>
                let c := Z.lor (Z.shiftl (Z.land b0 15) 12)
                          (Z.lor (Z.shiftl (Z.land b1 63) 6) (Z.land b2 63)) in
                if is_cont b1 && is_cont b2 && (2048 <=? c) && negb (is_surrogate c)
                then option_map (cons c) (utf8_decode_aux fuel' r')
                else None
            | _ => None
            end
          else if (240 <=? b0) && (b0 <=? 244) then
            match r with
            | b1 :: b2 :: b3 :: r' =>
                let c := Z.lor (Z.shiftl (Z.land b0 7) 18)
                          (Z.lor (Z.shiftl (Z.land b1 63) 12)
                            (Z.lor (Z.shiftl (Z.land b2 63) 6) (Z.land b3 63))) in
                if is_cont b1 && is_cont b2 && is_cont b3
                   && (65536 <=? c) && (c <=? 1114111)
                then option_map (cons c) (utf8_decode_aux fuel' r')
                else None
            | _ => None
            end
          else None
      end
  end.

Definition utf8_decode (b : list byte) : option pystr :=
  utf8_decode_aux (length b) (map Z_of_byte b).

(** Text made of ASCII characters only. *)
Definition ascii_text (s : pystr) : Prop := Forall (fun c => 0 <= c < 128) s.

End Wire.

(* ================================================================== *)
(** * Operations on Python values *)
(* ================================================================== *)

Module Py.

(** [f == z] for a float and an int: exact comparison of the values. *)
Definition float_eq_Z (f : spec_float) (z : Z) : bool :=
  match f with
  | S754_zero _ => z =? 0
  | S754_finite s m e =>
      let v := if s then Z.neg m else Z.pos m in
      if 0 <=? e then z =? v * 2 ^ e else z * 2 ^ (- e) =? v
  | _ => false
  end.

Definition is_nan (f : spec_float) : bool :=
  match f with S754_nan => true | _ => false end.

(** [v == z] for an int [z] ([True == 1], [4.0 == 4]). *)
Definition eq_int (v : pyval) (z : Z) : bool :=
  match v with
  | PBool b => (if b then 1 else 0) =? z
  | PInt x => x =? z
  | PFloat f => float_eq_Z f z
  | _ => false
  end.

(** [v == s] for a str [s]. *)
Definition eq_str (v : pyval) (s : pystr) : bool :=
  match v with
  | PStr t => pystr_eqb t s
  | _ => false
  end.

(** Lists and dicts cannot be keys. *)
Definition hashable (v : pyval) : bool :=
  match v with
  | PList _ | PDict _ => false
  | _ => true
  end.

(** Equality of two keys of a dict: numbers by value across [bool],
    [int] and [float], strings by their code points.  The decoder has
    one [NaN] object, which as a key is found again by identity. *)
Definition key_eqb (a b : pyval) : bool :=
  match a, b with
  | PNone, PNone => true
  | PStr s, PStr t => pystr_eqb s t
  | PFloat f, PFloat g => SFeqb f g || (is_nan f && is_nan g)
  | PFloat f, (PBool _ | PInt _) =>
      match b with
      | PBool c => float_eq_Z f (if c then 1 else 0)
      | PInt z => float_eq_Z f z
      | _ => false
      end
  | (PBool _ | PInt _), _ =>
      let z := match a with PBool c => if c then 1 else 0 | PInt x => x | _ => 0 end in
      eq_int b z
  | _, _ => false
  end.

Definition dict := list (pyval * pyval).

(** [d.get(k)] for a hashable [k]. *)
Fixpoint dict_get (d : dict) (k : pyval) : option pyval :=
  match d with
  | [] => None
  | (k', v) :: r => if key_eqb k' k then Some v else dict_get r k
  end.

(** [d[k] = v]: the value of an existing key is replaced in place, a new
    key goes last. *)
Fixpoint dict_set (d : dict) (k v : pyval) : dict :=
  match d with
  | [] => [(k, v)]
  | (k', v') :: r =>
      if key_eqb k' k then (k', v) :: r else (k', v') :: dict_set r k v
  end.

Definition dict_mem (d : dict) (k : pyval) : bool :=
  match dict_get d k with Some _ => true | None => false end.

(** [d.setdefault(k, v)]: the value now under [k], and the dict. *)
Definition dict_setdefault (d : dict) (k v : pyval) : pyval * dict :=
  match dict_get d k with
  | Some v' => (v', d)
  | None => (v, dict_set d k v)
  end.

(** [dict(pairs)]. *)
Definition dict_of_pairs (ps : list (pyval * pyval)) : dict :=
  fold_left (fun d kv => dict_set d (fst kv) (snd kv)) ps [].

(** [t in s] for two strs: [t] occurs in [s]. *)
Fixpoint is_prefix (t s : pystr) : bool :=
  match t, s with
  | [], _ => true
  | a :: t', c :: s' => (a =? c) && is_prefix t' s'
  | _ :: _, [] => false
  end.

Fixpoint is_substring (t s : pystr) : bool :=
  is_prefix t s ||
  match s with
  | [] => false
  | _ :: s' => is_substring t s'
  end.

(** [key in v] for a str [key]: keys of a dict, elements of a list,
    substrings of a str; the other values are not containers. *)
Definition contains_str (key : pystr) (v : pyval) : outcome bool :=
  match v with
  | PDict d => Ret (dict_mem d (PStr key))
  | PList l => Ret (existsb (fun x => eq_str x key) l)
  | PStr s => Ret (is_substring key s)
  | _ => Raise TypeError
  end.

(** [v[key]] for a str [key]. *)
Definition getitem_str (v : pyval) (key : pystr) : outcome pyval :=
  match v with
  | PDict d =>
      match dict_get d (PStr key) with
      | Some x => Ret x
      | None => Raise KeyError
      end
  | _ => Raise TypeError
  end.

Definition is_dict (v : pyval) : bool :=
  match v with PDict _ => true | _ => false end.
Definition is_list (v : pyval) : bool :=
  match v with PList _ => true | _ => false end.
Definition is_str (v : pyval) : bool :=
  match v with PStr _ => true | _ => false end.
Definition is_none (v : pyval) : bool :=
  match v with PNone => true | _ => false end.

End Py.

(* ================================================================== *)
(** * [json.loads] *)
(* ================================================================== *)

(** The limits of the interpreter that [json.loads] runs into:
    [json_depth], how many arrays and objects, one inside the other,
    the scanner may enter at this call before [RecursionError] (what is
    left of the recursion limit where the call is made), and
    [max_str_digits], [sys.get_int_max_str_digits()], the longest
    integer literal, in digits, that [int] converts (0: no limit). *)
Class Limits : Type := {
  json_depth : nat;
  max_str_digits : Z
}.

(** The grammar the standard decoder accepts (strict mode, including its
    [NaN], [Infinity] and [-Infinity] extensions), building [pyval]s,
    and the two exceptions other than [json.decoder.JSONDecodeError]
    that it raises: [RecursionError] and [ValueError]. *)
Module Json.

(** What scanning comes to: a value, [json.decoder.JSONDecodeError], or
    another exception. *)
Inductive parse (A : Type) : Type :=
| Parsed (a : A)
| Invalid
| Refused (e : exn).
Arguments Parsed {A} a.
Arguments Invalid {A}.
Arguments Refused {A} e.

Definition and_then {A B : Type} (p : parse A) (k : A -> parse B) : parse B :=
  match p with
  | Parsed a => k a
  | Invalid => Invalid
  | Refused e => Refused e
  end.

(** ** Numbers *)

Definition prec : Z := 53.
Definition emax : Z := 1024.

(** [float(literal)] for the literal [(-1)^neg * m * 10^e10] whose
    mantissa was written with [nd] digits: the nearest binary64 value,
    ties to even.  Literals far outside the range of binary64 are
    decided without computing the power of ten. *)
Definition float_of_decimal (neg : bool) (m : Z) (nd : Z) (e10 : Z) : spec_float :=
  if m =? 0 then S754_zero neg
  else if 400 <? e10 then S754_infinity neg
  else if e10 + nd <? -400 then S754_zero neg
  else if 0 <=? e10 then
    binary_round prec emax neg (Z.to_pos (m * 10 ^ e10)) 0
  else
    let '(q, e', l) := SFdiv_core_binary prec emax m 0 (10 ^ (- e10)) 0 in
    binary_round_aux prec emax neg q e' l.

(** ** Lexical helpers *)

Definition is_ws (c : Z) : bool :=
  (c =? 32) || (c =? 9) || (c =? 10) || (c =? 13).

Fixpoint skip_ws (s : pystr) : pystr :=
  match s with
  | c :: r => if is_ws c then skip_ws r else s
  | [] => []
  end.

Definition is_digit (c : Z) : bool := (48 <=? c) && (c <=? 57).

(** The longest run of ASCII digits at the head of [s], and what
    follows it. *)
Fixpoint take_digits (s : pystr) : list Z * pystr :=
  match s with
  | c :: r =>
      if is_digit c then
        let '(ds, r') := take_digits r in (c - 48 :: ds, r')
      else ([], s)
  | [] => ([], [])
  end.

Definition digits_value (ds : list Z) : Z :=
  fold_left (fun acc d => acc * 10 + d) ds 0.

Definition hex_val (c : Z) : option Z :=
  if is_digit c then Some (c - 48)
  else if (97 <=? c) && (c <=? 102) then Some (c - 87)
  else if (65 <=? c) && (c <=? 70) then Some (c - 55)
  else None.

(** Four hexadecimal digits. *)
Definition scan_u4 (s : pystr) : option (Z * pystr) :=
  match s with
  | a :: b :: c :: d :: r =>
      match hex_val a, hex_val b, hex_val c, hex_val d with
      | Some x, Some y, Some z, Some w =>
          Some (((x * 16 + y) * 16 + z) * 16 + w, r)
      | _, _, _, _ => None
      end
  | _ => None
  end.

Definition simple_escape (e : Z) : option Z :=
  if e =? 34 then Some 34            (* quote *)
  else if e =? 92 then Some 92       (* backslash *)
  else if e =? 47 then Some 47       (* slash *)
  else if e =? 98 then Some 8        (* b: backspace *)
  else if e =? 102 then Some 12      (* f: form feed *)
  else if e =? 110 then Some 10      (* n: line feed *)
  else if e =? 114 then Some 13      (* r: carriage return *)
  else if e =? 116 then Some 9       (* t: tab *)
  else None.

Definition is_high (u : Z) : bool := (55296 <=? u) && (u <=? 56319).
Definition is_low (u : Z) : bool := (56320 <=? u) && (u <=? 57343).

(** The escape that may complete a high surrogate into one code point. *)
Definition low_half (s : pystr) : option (Z * pystr) :=
  match s with
  | b :: u :: r =>
      if (b =? 92) && (u =? 117) then
        match scan_u4 r with
        | Some (u2, r') => if is_low u2 then Some (u2, r') else None
        | None => None
        end
      else None
  | _ => None
  end.

(** [scanstring]: the text after an opening quote, up to the closing
    one.  Control characters are refused. *)
Fixpoint scanstring (fuel : nat) (s : pystr) : option (pystr * pystr) :=
  match fuel with
  | O => None
  | S fuel' =>
      let more c r :=
        match scanstring fuel' r with
        | Some (t, r') => Some (c :: t, r')
        | None => None
        end in
      match s with
      | [] => None
      | c :: r =>
          if c =? 34 then Some ([], r)
          else if c =? 92 then
            match r with
            | [] => None
            | e :: r1 =>
                if e =? 117 then
                  match scan_u4 r1 with
                  | None => None
                  | Some (u, r2) =>
                      match (if is_high u then low_half r2 else None) with
                      | Some (u2, r3) =>
                          more (65536 + Z.lor (Z.shiftl (u - 55296) 10) (u2 - 56320)) r3
                      | None => more u r2
                      end
                  end
                else
                  match simple_escape e with
                  | Some c' => more c' r1
                  | None => None
                  end
            end
          else if c <? 32 then None
          else more c r
      end
  end.

Section Limited.
Context {L : Limits}.

(** [int(literal)] refuses a literal of more digits than the limit,
    when there is one; up to 640 digits the limit is not looked at. *)
Definition too_long (ds : list Z) : bool :=
  let n := Z.of_nat (length ds) in
  (640 <? n) && (0 <? max_str_digits) && (max_str_digits <? n).

(** A number at the head of [s]: integer part without leading zeros,
    optional fraction, optional exponent (dropped when it has no digit).
    An integer literal is converted by [int], a literal with a fraction
    or an exponent by [float]. *)
Definition scan_number (s : pystr) : parse (pyval * pystr) :=
  let '(neg, s1) :=
    match s with
    | c :: r => if c =? 45 then (true, r) else (false, s)
    | [] => (false, s)
    end in
  let int_part :=
    match s1 with
    | c :: r =>
        if c =? 48 then Some ([0], r)
        else if is_digit c then Some (take_digits s1)
        else None
    | [] => None
    end in
  match int_part with
  | None => Invalid
  | Some (ids, s2) =>
      let '(fds, s3) :=
        match s2 with
        | c :: r =>
            if c =? 46 then
              match take_digits r with
              | ([], _) => ([], s2)
              | (ds, r') => (ds, r')
              end
            else ([], s2)
        | [] => ([], s2)
        end in
      let '(ex, s4) :=
        match s3 with
        | c :: r =>
            if (c =? 101) || (c =? 69) then
              let '(eneg, r1) :=
                match r with
                | g :: r' =>
                    if g =? 45 then (true, r')
                    else if g =? 43 then (false, r')
                    else (false, r)
                | [] => (false, r)
                end in
              match take_digits r1 with
              | ([], _) => (None, s3)
              | (ds, r2) =>
                  (Some (if eneg then - digits_value ds else digits_value ds), r2)
              end
            else (None, s3)
        | [] => (None, s3)
        end in
      match fds, ex with
      | [], None =>
          if too_long ids then Refused ValueError
          else
            Parsed (PInt (if neg then - digits_value ids else digits_value ids),
                    s4)
      | _, _ =>
          let e := match ex with Some e => e | None => 0 end in
          Parsed (PFloat (float_of_decimal neg (digits_value (ids ++ fds))
                            (Z.of_nat (length (ids ++ fds)))
                            (e - Z.of_nat (length fds))), s4)
      end
  end.

(** [s] starts with the ASCII literal [lit]: what follows it. *)
Fixpoint strip_prefix (lit s : pystr) : option pystr :=
  match lit, s with
  | [], _ => Some s
  | a :: lit', c :: r => if a =? c then strip_prefix lit' r else None
  | _ :: _, [] => None
  end.

(** ** Values *)

Section Containers.
(** The value scanner one nesting level down. *)
Variable scan : pystr -> parse (pyval * pystr).

(** The elements of an array after the first, [s] standing after an
    element and its white space. *)
Fixpoint array_tail (fuel : nat) (s : pystr) : parse (list pyval * pystr) :=
  match fuel with
  | O => Invalid
  | S fuel' =>
      match s with
      | c :: r =>
          if c =? 93 then Parsed ([], r)
          else if c =? 44 then
            and_then (scan (skip_ws r)) (fun '(v, r1) =>
            and_then (array_tail fuel' (skip_ws r1)) (fun '(vs, r2) =>
            Parsed (v :: vs, r2)))
          else Invalid
      | [] => Invalid
      end
  end.

(** [JSONArray], [s] standing after the bracket. *)
Definition parse_array (s : pystr) : parse (pyval * pystr) :=
  match skip_ws s with
  | c :: r =>
      if c =? 93 then Parsed (PList [], r)
      else
        and_then (scan (c :: r)) (fun '(v, r1) =>
        and_then (array_tail (length r1) (skip_ws r1)) (fun '(vs, r2) =>
        Parsed (PList (v :: vs), r2)))
  | [] => Invalid
  end.

(** One [key : value] item, [s] standing at the opening quote. *)
Definition parse_item (s : pystr) : parse ((pyval * pyval) * pystr) :=
  match s with
  | q :: r =>
      if q =? 34 then
        match scanstring (length r) r with
        | Some (key, r1) =>
            match skip_ws r1 with
            | c :: r2 =>
                if c =? 58 then
                  and_then (scan (skip_ws r2)) (fun '(v, r3) =>
                  Parsed ((PStr key, v), r3))
                else Invalid
            | [] => Invalid
            end
        | None => Invalid
        end
      else Invalid
  | [] => Invalid
  end.

Fixpoint object_tail (fuel : nat) (s : pystr)
  : parse (list (pyval * pyval) * pystr) :=
  match fuel with
  | O => Invalid
  | S fuel' =>
      match s with
      | c :: r =>
          if c =? 125 then Parsed ([], r)
          else if c =? 44 then
            and_then (parse_item (skip_ws r)) (fun '(kv, r1) =>
            and_then (object_tail fuel' (skip_ws r1)) (fun '(kvs, r2) =>
            Parsed (kv :: kvs, r2)))
          else Invalid
      | [] => Invalid
      end
  end.

(** [JSONObject], [s] standing after the brace; a repeated key keeps
    its first place and its last value. *)
Definition parse_object (s : pystr) : parse (pyval * pystr) :=
  match skip_ws s with
  | c :: r =>
      if c =? 125 then Parsed (PDict [], r)
      else
        and_then (parse_item (c :: r)) (fun '(kv, r1) =>
        and_then (object_tail (length r1) (skip_ws r1)) (fun '(kvs, r2) =>
        Parsed (PDict (Py.dict_of_pairs (kv :: kvs)), r2)))
  | [] => Invalid
  end.
End Containers.

(** [scan_once]: one value at the head of [s].  [depth] is the number
    of arrays and objects the scanner may still enter: entering one
    beyond that is [RecursionError], raised at the bracket, before
    anything after it is looked at. *)
Fixpoint scan_once (depth : nat) (s : pystr) : parse (pyval * pystr) :=
  match s with
  | [] => Invalid
  | c :: r =>
      let lit (text : string) (v : pyval) :=
        match strip_prefix (str_of text) s with
        | Some r' => Parsed (v, r')
        | None => Invalid
        end in
      if c =? 34 then
        match scanstring (length r) r with
        | Some (t, r') => Parsed (PStr t, r')
        | None => Invalid
        end
      else if c =? 123 then
        match depth with
        | O => Refused RecursionError
        | S depth' => parse_object (scan_once depth') r
        end
      else if c =? 91 then
        match depth with
        | O => Refused RecursionError
        | S depth' => parse_array (scan_once depth') r
        end
      else if c =? 110 then lit "null"%string PNone
      else if c =? 116 then lit "true"%string (PBool true)
      else if c =? 102 then lit "false"%string (PBool false)
      else if c =? 78 then lit "NaN"%string (PFloat S754_nan)
      else if c =? 73 then lit "Infinity"%string (PFloat (S754_infinity false))
      else
        match (if c =? 45 then strip_prefix (str_of "-Infinity") s else None) with
        | Some r' => Parsed (PFloat (S754_infinity true), r')
        | None => scan_number s
        end
  end.

(** [json.loads(s)]: one value between optional white space, and
    nothing else.  A leading byte-order mark is refused. *)
Definition loads (s : pystr) : parse pyval :=
  match s with
  | 65279 :: _ => Invalid
  | _ =>
      let s1 := skip_ws s in
      and_then (scan_once json_depth s1) (fun '(v, r) =>
      match skip_ws r with
      | [] => Parsed v
      | _ :: _ => Invalid
      end)
  end.

End Limited.

End Json.

(* ================================================================== *)
(** * Packets and the protocol handler *)
(* ================================================================== *)

(** Modelled from the spec: the [Packet] class (packet.py is not among
    the sources) as the message record of the design document,
    [{kind, from, to, arg1, arg2, payload}], in the order in which
    [data_received] passes the fields to its constructor. *)
Record Packet : Type := mkPacket {
  fctype : Z;
  nfrom : Z;
  nto : Z;
  narg1 : Z;
  narg2 : Z;
  smessage : pyval
}.

(** [l[k:]], with Python's reading of a negative or too large [k]. *)
Definition slice_from {A : Type} (k : Z) (l : list A) : list A :=
  let n := Z.of_nat (length l) in
  let start := if k <? 0 then Z.max 0 (k + n) else k in
  skipn (Z.to_nat start) l.

Module Protocol.
Import Wire.

(** [struct.calcsize(">iiiiiii")]. *)
Definition packet_size : Z := 28.

Section Limited.
Context {L : Limits}.

Section Decoder.
(** The client the protocol object was built for: its state, its
    [handle_packet_received] and the [stop] of its event loop. *)
Variable C : Type.
Variable handle_packet_received : Packet -> C -> outcome unit * C.
Variable loop_stop : C -> C.

(** [MFCProtocol]: [self.buffer] and [self.client] (whose loop is
    [self.loop]). *)
Record MFCProtocol : Type := mkProtocol {
  buffer : list byte;
  client : C
}.

(** What one call of [data_received] did: the packets it handed to the
    client, in order; the exception its [except] clause caught, if it
    ended there; the protocol object afterwards. *)
Record received : Type := mkReceived {
  delivered : list Packet;
  caught : option exn;
  after : MFCProtocol
}.

(** The [except] clause: the failure is logged, the loop is stopped,
    the [while] is left. *)
Definition on_except (e : exn) (self : MFCProtocol) : received :=
  {| delivered := [];
     caught := Some e;
     after := {| buffer := buffer self; client := loop_stop (client self) |} |}.

(** The body of [while True], iterated.  [None]: the fuel ran out
    before the loop was left. *)
Fixpoint receive_loop (fuel : nat) (self : MFCProtocol) : option received :=
  match fuel with
  | O => None
  | S fuel' =>
      let buf := buffer self in
      if Z.of_nat (length buf) <? packet_size then
        Some {| delivered := []; caught := None; after := self |}
      else
        match unpack_ints 7 (firstn (Z.to_nat packet_size) buf) with
        | Some [magic; ftype; from; to; arg1; arg2; spayload] =>
            if negb (magic =? MAGIC) then Some (on_except AssertionError self)
            else
              let deliver (smsg : pyval) :=
                let rest := slice_from (packet_size + spayload) buf in
                let p := mkPacket ftype from to arg1 arg2 smsg in
                match handle_packet_received p (client self) with
                | (Ret _, c') =>
                    match receive_loop fuel' {| buffer := rest; client := c' |} with
                    | Some r =>
                        Some {| delivered := p :: delivered r;
                                caught := caught r;
                                after := after r |}
                    | None => None
                    end
                | (Raise e, c') =>
                    Some {| delivered := [p];
                            caught := Some e;
                            after := {| buffer := rest; client := loop_stop c' |} |}
                end in
              if 0 <? spayload then
                if Z.of_nat (length buf) <? packet_size + spayload then
                  Some {| delivered := []; caught := None; after := self |}
                else
                  let raw := firstn (Z.to_nat spayload)
                               (skipn (Z.to_nat packet_size) buf) in
                  match utf8_decode raw with
                  | None => Some (on_except UnicodeDecodeError self)
                  | Some text =>
                      match Json.loads text with
                      | Json.Parsed v => deliver v
                      | Json.Invalid => deliver (PStr text)
                      | Json.Refused e => Some (on_except e self)
                      end
                  end
              else deliver PNone
        | _ => Some (on_except StructError self)
        end
  end.

(** [MFCProtocol.data_received]. *)
Definition data_received (fuel : nat) (data : list byte) (self : MFCProtocol)
  : option received :=
  receive_loop fuel {| buffer := buffer self ++ data; client := client self |}.

(** The event loop handing the chunks read from the socket to
    [data_received], one call per chunk, each on the object the previous
    call left.  The loop that makes these calls is [self.loop]: once a
    call has stopped it, it makes no further call. *)
Fixpoint feed (fuel : nat) (chunks : list (list byte)) (self : MFCProtocol)
  : option received :=
  match chunks with
  | [] => Some {| delivered := []; caught := None; after := self |}
  | d :: rest =>
      match data_received fuel d self with
      | Some r1 =>
          match caught r1 with
          | Some _ => Some r1
          | None =>
              match feed fuel rest (after r1) with
              | Some r2 =>
                  Some {| delivered := delivered r1 ++ delivered r2;
                          caught := caught r2;
                          after := after r2 |}
              | None => None
              end
          end
      | None => None
      end
  end.
End Decoder.

(** A client that only keeps what it is handed, as a test double would. *)
Definition recorder_handle (p : Packet) (log : list Packet)
  : outcome unit * list Packet := (Ret tt, log ++ [p]).

(** ** Frames, for the statements about the decoder *)

(** One frame of the envelope: the six integers after [magic], and the
    payload bytes whose count is the seventh. *)
Record Frame : Type := mkFrame {
  f_kind : Z;
  f_from : Z;
  f_to : Z;
  f_arg1 : Z;
  f_arg2 : Z;
  f_payload : list byte
}.

(** The bytes of a frame on the wire. *)
Definition frame_bytes (f : Frame) : list byte :=
  flat_map be32 [MAGIC; f_kind f; f_from f; f_to f; f_arg1 f; f_arg2 f;
                 Z.of_nat (length (f_payload f))]
  ++ f_payload f.

(** A frame is valid when its integers fit 32 bits and its payload is
    UTF-8 text. *)
Definition valid_frame (f : Frame) : bool :=
  forallb in_int32 [f_kind f; f_from f; f_to f; f_arg1 f; f_arg2 f;
                    Z.of_nat (length (f_payload f))]
  && match utf8_decode (f_payload f) with Some _ => true | None => false end.

(** The exception other than [JSONDecodeError] that [json.loads]
    raises on the text of a payload, if it raises one: no message is
    built then. *)
Definition refusal (b : list byte) : option exn :=
  match b with
  | [] => None
  | _ :: _ =>
      match utf8_decode b with
      | Some text =>
          match Json.loads text with
          | Json.Refused e => Some e
          | _ => None
          end
      | None => None
      end
  end.

(** The payload of the message a frame carries: nothing for an empty
    payload, else the JSON value of its text, else the text. *)
Definition payload_value (b : list byte) : pyval :=
  match b with
  | [] => PNone
  | _ :: _ =>
      match utf8_decode b with
      | Some text =>
          match Json.loads text with
          | Json.Parsed v => v
          | Json.Invalid => PStr text
          | Json.Refused _ => PNone
          end
      | None => PNone
      end
  end.

(** The message a frame carries. *)
Definition packet_of (f : Frame) : Packet :=
  mkPacket (f_kind f) (f_from f) (f_to f) (f_arg1 f) (f_arg2 f)
           (payload_value (f_payload f)).

(** The integers of the header of [f]. *)
Definition header_ints (f : Frame) : list Z :=
  [MAGIC; f_kind f; f_from f; f_to f; f_arg1 f; f_arg2 f;
   Z.of_nat (length (f_payload f))].

(** The bytes of a sequence of frames. *)
Definition stream (fs : list Frame) : list byte := concat (map frame_bytes fs).

(** [b] is nothing, or the beginning of the first frame of [fs] and not
    all of it. *)
Definition pending (b : list byte) (fs : list Frame) : Prop :=
  b = [] \/
  exists f fs', fs = f :: fs'
                /\ (length b < length (frame_bytes f))%nat
                /\ b = firstn (length b) (frame_bytes f).

(** The payload the decoder gives back for the text [tx_cmd] was given. *)
Definition echoed (text : pystr) : pyval :=
  match text with
  | [] => PNone
  | _ :: _ =>
      match Json.loads text with
      | Json.Parsed v => v
      | Json.Invalid => PStr text
      | Json.Refused _ => PNone
      end
  end.

(** The exception other than [JSONDecodeError] that [json.loads]
    raises on the text [tx_cmd] was given, if it raises one. *)
Definition unechoed (text : pystr) : option exn :=
  match text with
  | [] => None
  | _ :: _ =>
      match Json.loads text with
      | Json.Refused e => Some e
      | _ => None
      end
  end.

(** ** Notions used to state and prove the properties of the decoder *)

Section Notions.
Variable C : Type.
Variable handle_packet_received : Packet -> C -> outcome unit * C.
Variable loop_stop : C -> C.

(** What the loop does with the packet of a complete frame. *)
Definition hand_over (fuel : nat) (p : Packet) (rest : list byte) (c : C)
  : option (received C) :=
  match handle_packet_received p c with
  | (Ret _, c') =>
      match receive_loop handle_packet_received loop_stop fuel
              {| buffer := rest; client := c' |} with
      | Some r =>
          Some {| delivered := p :: delivered r;
                  caught := caught r;
                  after := after r |}
      | None => None
      end
  | (Raise e, c') =>
      Some {| delivered := [p];
              caught := Some e;
              after := {| buffer := rest; client := loop_stop c' |} |}
  end.

(** The loop leaves [b] as it found it and hands nothing over. *)
Definition stalls (b : list byte) : Prop :=
  forall (c : C) (fuel : nat),
    receive_loop handle_packet_received loop_stop (S fuel)
      {| buffer := b; client := c |} =
    Some {| delivered := []; caught := None;
            after := {| buffer := b; client := c |} |}.

(** What handing the messages of [fs] to the client, one after the
    other and up to the first that it refuses or whose payload
    [json.loads] refuses, comes to: the packets handed over, the
    exception if any, the client afterwards. *)
Fixpoint handed (fs : list Frame) (c : C) : list Packet * option exn * C :=
  match fs with
  | [] => ([], None, c)
  | f :: fs' =>
      match refusal (f_payload f) with
      | Some e => ([], Some e, loop_stop c)
      | None =>
          match handle_packet_received (packet_of f) c with
          | (Ret _, c') =>
              let '(ps, e, c'') := handed fs' c' in (packet_of f :: ps, e, c'')
          | (Raise e, c') => ([packet_of f], Some e, loop_stop c')
          end
      end
  end.

Definition agrees (r : received C) (h : list Packet * option exn * C) : Prop :=
  delivered r = fst (fst h) /\ caught r = snd (fst h) /\ client (after r) = snd h.

End Notions.

End Limited.

End Protocol.

(* ================================================================== *)
(** * The list decoder *)
(* ================================================================== *)

Module ListSchema.
Import Py.

(** One entry of [schema_map]: [[path1]] or [[key, path2]]. *)
Inductive path : Type :=
| Path1 (path1 : pyval)
| Path2 (key path2 : pyval).

(** [iter(v)] as a [for] loop walks it: the elements of a list, the
    keys of a dict, the characters of a str. *)
Definition py_iter (v : pyval) : outcome (list pyval) :=
  match v with
  | PList l => Ret l
  | PDict d => Ret (map fst d)
  | PStr s => Ret (map (fun c => PStr [c]) s)
  | _ => Raise TypeError
  end.

(** [target[k] = v]: a dict takes any hashable key, a list an index in
    range, nothing else supports item assignment. *)
Definition setitem (target k v : pyval) : outcome pyval :=
  match target with
  | PDict d => if hashable k then Ret (PDict (dict_set d k v)) else Raise TypeError
  | PList l =>
      let at_index (i : Z) :=
        let n := Z.of_nat (length l) in
        let j := if i <? 0 then i + n else i in
        if (0 <=? j) && (j <? n) then
          Ret (PList (firstn (Z.to_nat j) l ++ v :: skipn (S (Z.to_nat j)) l))
        else Raise IndexError in
      match k with
      | PInt i => at_index i
      | PBool b => at_index (if b then 1 else 0)
      | _ => Raise TypeError
      end
  | _ => Raise TypeError
  end.

(** The inner loops over one dict entry of the schema:
    [for key in path1: for path2 in path1[key]: append([key, path2])]. *)
Fixpoint group_paths (items : list (pyval * pyval)) : outcome (list path) :=
  match items with
  | [] => Ret []
  | (key, subs) :: rest =>
      (let! fields := py_iter subs in
       let! more := group_paths rest in
       Ret (map (Path2 key) fields ++ more))%out
  end.

(** The first loop: [schema_map] from the entries of the schema. *)
Fixpoint build_schema_map (entries : list pyval) : outcome (list path) :=
  match entries with
  | [] => Ret []
  | path1 :: rest =>
      (let! here :=
         match path1 with
         | PDict d => group_paths d
         | PStr _ => Ret [Path1 path1]
         | _ => Ret []
         end in
       let! more := build_schema_map rest in
       Ret (here ++ more))%out
  end.

(** One step of [for i, item in enumerate(record)], [schema_map[i:]]
    being what is left of the map.  A value already in [msg] that a
    later group entry updates in place is updated in [msg]; the same
    object inside the input row is not tracked. *)
Fixpoint fill_record (slots : list path) (record : list pyval) (msg : dict)
  : outcome dict :=
  match record with
  | [] => Ret msg
  | item :: record' =>
      match slots with
      | [] => Raise IndexError
      | Path1 p0 :: slots' => fill_record slots' record' (dict_set msg p0 item)
      | Path2 p0 p1 :: slots' =>
          let '(target, msg1) := dict_setdefault msg p0 (PDict []) in
          match setitem target p1 item with
          | Ret target' => fill_record slots' record' (dict_set msg1 p0 target')
          | Raise e => Raise e
          end
      end
  end.

(** The second loop: [for record in data[1:]]. *)
Fixpoint process_records (slots : list path) (records : list pyval)
  : outcome (list pyval) :=
  match records with
  | [] => Ret []
  | record :: rest =>
      (let! here :=
         match record with
         | PList items =>
             let! msg := fill_record slots items [] in Ret [PDict msg]
         | PDict _ => Ret [record]
         | _ => Ret []
         end in
       let! more := process_records slots rest in
       Ret (here ++ more))%out
  end.

(** [Client._process_list]. *)
Definition _process_list (data : pyval) : outcome pyval :=
  match data with
  | PList (schema :: records) =>
      (let! entries := py_iter schema in
       let! schema_map := build_schema_map entries in
       let! result := process_records schema_map records in
       Ret (PList result))%out
  | _ => Ret data
  end.

(** ** Notions used to state and prove the properties of the decoder *)














End ListSchema.

(* ================================================================== *)
(** * The client *)
(* ================================================================== *)

(** The protocol constants of constants.py that the client reads.  The
    file is generated from the site's script and is not among the
    sources, so their values are parameters; the generator's own
    constants are below. *)
Class Constants : Type := {
  FCTYPE_NULL : Z;
  FCTYPE_LOGIN : Z;
  FCTYPE_ADDFRIEND : Z;
  FCTYPE_PMESG : Z;
  FCTYPE_ADDIGNORE : Z;
  FCTYPE_USERNAMELOOKUP : Z;
  FCTYPE_TOKENINC : Z;
  FCTYPE_ROOMHELPER : Z;
  FCTYPE_SESSIONSTATE : Z;
  FCTYPE_TXPROFILE : Z;
  FCTYPE_DETAILS : Z;
  FCTYPE_CMESG : Z;
  FCTYPE_JOINCHAN : Z;
  FCTYPE_MYCAMSTATE : Z;
  FCTYPE_MYWEBCAM : Z;
  FCTYPE_TAGS : Z;
  FCTYPE_BOOKMARKS : Z;
  FCTYPE_METRICS : Z;
  FCTYPE_EXTDATA : Z;
  FCTYPE_MANAGELIST : Z;
  FCTYPE_TKX : Z;
  FCCHAN_JOIN : Z;
  FCCHAN_PART : Z;
  FCWOPT_REDIS_JSON : Z;
  FCL_ROOMMATES : Z;
  FCL_CAMS : Z;
  FCL_FRIENDS : Z;
  FCL_IGNORES : Z;
  FCL_TAGS : Z;
  FCLEVEL_MODEL : Z
}.

(** The synthetic kinds that gen_constants.py adds to [FCTYPE]. *)
Definition FCTYPE_CLIENT_TAGSLOADED : Z := -6.
Definition FCTYPE_CLIENT_DISCONNECTED : Z := -5.
Definition FCTYPE_CLIENT_MODELSLOADED : Z := -4.
Definition FCTYPE_CLIENT_CONNECTED : Z := -3.
Definition FCTYPE_ANY : Z := -2.
Definition FCTYPE_UNKNOWN : Z := -1.

(** What the client calls and does not define: the [Model] registry of
    model.py, the [aboutmodel] property of packet.py, the builtin [int]
    and the HTTP fetch of [_handle_extdata].  Each may raise. *)
Class Environment : Type := {
  (** [Model.All], the table of entity records. *)
  registry : Type;
  (** A [Model] object. *)
  model : Type;
  (** [Model.get_model(uid)] or [Model.get_model(uid, create)]. *)
  get_model : pyval -> option bool -> registry -> outcome (option model) * registry;
  (** [model.merge(payload)]. *)
  merge : model -> pyval -> registry -> outcome unit * registry;
  (** [model.merge_tags(tags)]. *)
  merge_tags : model -> pyval -> registry -> outcome unit * registry;
  (** [Model.All.reset()]. *)
  reset : registry -> outcome unit * registry;
  (** [packet.aboutmodel.uid]. *)
  aboutmodel_uid : Packet -> registry -> outcome pyval * registry;
  (** [int(key)]. *)
  py_int : pyval -> outcome pyval;
  (** [json.loads(urlopen(url).read().decode('utf-8'))], the url
      carrying the listed parameters. *)
  fetch_extresp : list (pystr * pyval) -> outcome pyval
}.

Module Client.
Import Py.

(** ** The objects around the client *)

(** What [loop.call_later] is given in this file. *)
Inductive callback : Type :=
| CbPingLoop      (* self._ping_loop *)
| CbReconnect.    (* lambda: asyncio.ensure_future(self.connect(self._logged_in)) *)

Record timer : Type := mkTimer {
  delay : Z;
  action : callback;
  cancelled : bool
}.

(** The event loop, as far as the client drives it: [stop()] and the
    callbacks handed to [call_later], oldest first. *)
Record EventLoop : Type := mkLoop {
  stopped : bool;
  timers : list timer
}.

(** The transport: what was written to it and whether it was closed. *)
Record Transport : Type := mkTransport {
  written : list (list byte);
  closing : bool
}.

(** An [asyncio.Future]. *)
Inductive future : Type :=
| Pending
| Done (result : pyval)
| Failed (e : exn).

(** The listeners this file registers: the [handler] closure of
    [query_user], which holds its [query_id] and its [future] (an index
    in the table of futures). *)
Record listener : Type := mkListener {
  query_id : Z;
  future_ix : nat
}.

(** The first argument of [tx_cmd]: a member of [FCTYPE], by its value,
    or any other object. *)
Inductive kind_arg : Type :=
| Member (value : Z)
| NotMember.

Section WithEnvironment.
Context {L : Limits} {K : Constants} {E : Environment}.

(** [Client], together with what it shares: the class attribute
    [userQueryId], the futures it handed out, the registry, and the
    state of the [EventEmitter] it inherits from.

    Modelled from the spec: [EventEmitter] (event_emitter.py is not
    among the sources): handlers are kept per kind in subscription
    order, [emit] delivers to the handlers of exactly that kind.
    Handlers registered by callers are outside the model; [emitted]
    records every [emit] for them, in order. *)
Record Client : Type := mkClient {
  username : pyval;
  password : pyval;
  transport : option Transport;
  session_id : Z;
  loop : EventLoop;
  keepalive : option nat;            (* index of the timer in [timers loop] *)
  _completed_models : bool;
  _completed_tags : bool;
  uid : option Z;
  _manual_disconnect : bool;
  _logged_in : bool;
  stream_cxid : pyval;
  stream_password : pyval;
  stream_vidctx : pyval;
  listeners : list (Z * listener);
  emitted : list (Z * option Packet);
  userQueryId : Z;
  futures : list future;
  printed : list string;
  models : registry
}.

(** [Client.__init__] (with [Client.userQueryId = 20] of the class). *)
Definition init (user pass : pyval) (all : registry) : Client :=
  {| username := user; password := pass; transport := None;
     session_id := 0; loop := mkLoop false []; keepalive := None;
     _completed_models := false; _completed_tags := false; uid := None;
     _manual_disconnect := false; _logged_in := false;
     stream_cxid := PNone; stream_password := PNone; stream_vidctx := PNone;
     listeners := []; emitted := []; userQueryId := 20; futures := [];
     printed := []; models := all |}.

(** ** Assignments to one attribute *)

Definition set_username (v : pyval) (c : Client) : Client :=
  {| username := v; password := password c; transport := transport c;
     session_id := session_id c; loop := loop c; keepalive := keepalive c;
     _completed_models := _completed_models c;
     _completed_tags := _completed_tags c; uid := uid c;
     _manual_disconnect := _manual_disconnect c;
     _logged_in := _logged_in c; stream_cxid := stream_cxid c;
     stream_password := stream_password c;
     stream_vidctx := stream_vidctx c; listeners := listeners c;
     emitted := emitted c; userQueryId := userQueryId c;
     futures := futures c; printed := printed c; models := models c |}.

Definition set_transport (v : option Transport) (c : Client) : Client :=
  {| username := username c; password := password c; transport := v;
     session_id := session_id c; loop := loop c; keepalive := keepalive c;
     _completed_models := _completed_models c;
     _completed_tags := _completed_tags c; uid := uid c;
     _manual_disconnect := _manual_disconnect c;
     _logged_in := _logged_in c; stream_cxid := stream_cxid c;
     stream_password := stream_password c;
     stream_vidctx := stream_vidctx c; listeners := listeners c;
     emitted := emitted c; userQueryId := userQueryId c;
     futures := futures c; printed := printed c; models := models c |}.

Definition set_session_id (v : Z) (c : Client) : Client :=
  {| username := username c; password := password c;
     transport := transport c; session_id := v; loop := loop c;
     keepalive := keepalive c; _completed_models := _completed_models c;
     _completed_tags := _completed_tags c; uid := uid c;
     _manual_disconnect := _manual_disconnect c;
     _logged_in := _logged_in c; stream_cxid := stream_cxid c;
     stream_password := stream_password c;
     stream_vidctx := stream_vidctx c; listeners := listeners c;
     emitted := emitted c; userQueryId := userQueryId c;
     futures := futures c; printed := printed c; models := models c |}.

Definition set_loop (v : EventLoop) (c : Client) : Client :=
  {| username := username c; password := password c;
     transport := transport c; session_id := session_id c; loop := v;
     keepalive := keepalive c; _completed_models := _completed_models c;
     _completed_tags := _completed_tags c; uid := uid c;
     _manual_disconnect := _manual_disconnect c;
     _logged_in := _logged_in c; stream_cxid := stream_cxid c;
     stream_password := stream_password c;
     stream_vidctx := stream_vidctx c; listeners := listeners c;
     emitted := emitted c; userQueryId := userQueryId c;
     futures := futures c; printed := printed c; models := models c |}.

Definition set_keepalive (v : option nat) (c : Client) : Client :=
  {| username := username c; password := password c;
     transport := transport c; session_id := session_id c; loop := loop c;
     keepalive := v; _completed_models := _completed_models c;
     _completed_tags := _completed_tags c; uid := uid c;
     _manual_disconnect := _manual_disconnect c;
     _logged_in := _logged_in c; stream_cxid := stream_cxid c;
     stream_password := stream_password c;
     stream_vidctx := stream_vidctx c; listeners := listeners c;
     emitted := emitted c; userQueryId := userQueryId c;
     futures := futures c; printed := printed c; models := models c |}.

Definition set__completed_models (v : bool) (c : Client) : Client :=
  {| username := username c; password := password c;
     transport := transport c; session_id := session_id c; loop := loop c;
     keepalive := keepalive c; _completed_models := v;
     _completed_tags := _completed_tags c; uid := uid c;
     _manual_disconnect := _manual_disconnect c;
     _logged_in := _logged_in c; stream_cxid := stream_cxid c;
     stream_password := stream_password c;
     stream_vidctx := stream_vidctx c; listeners := listeners c;
     emitted := emitted c; userQueryId := userQueryId c;
     futures := futures c; printed := printed c; models := models c |}.

Definition set__completed_tags (v : bool) (c : Client) : Client :=
  {| username := username c; password := password c;
     transport := transport c; session_id := session_id c; loop := loop c;
     keepalive := keepalive c; _completed_models := _completed_models c;
     _completed_tags := v; uid := uid c;
     _manual_disconnect := _manual_disconnect c;
     _logged_in := _logged_in c; stream_cxid := stream_cxid c;
     stream_password := stream_password c;
     stream_vidctx := stream_vidctx c; listeners := listeners c;
     emitted := emitted c; userQueryId := userQueryId c;
     futures := futures c; printed := printed c; models := models c |}.

Definition set_uid (v : option Z) (c : Client) : Client :=
  {| username := username c; password := password c;
     transport := transport c; session_id := session_id c; loop := loop c;
     keepalive := keepalive c; _completed_models := _completed_models c;
     _completed_tags := _completed_tags c; uid := v;
     _manual_disconnect := _manual_disconnect c;
     _logged_in := _logged_in c; stream_cxid := stream_cxid c;
     stream_password := stream_password c;
     stream_vidctx := stream_vidctx c; listeners := listeners c;
     emitted := emitted c; userQueryId := userQueryId c;
     futures := futures c; printed := printed c; models := models c |}.

Definition set__manual_disconnect (v : bool) (c : Client) : Client :=
  {| username := username c; password := password c;
     transport := transport c; session_id := session_id c; loop := loop c;
     keepalive := keepalive c; _completed_models := _completed_models c;
     _completed_tags := _completed_tags c; uid := uid c;
     _manual_disconnect := v; _logged_in := _logged_in c;
     stream_cxid := stream_cxid c; stream_password := stream_password c;
     stream_vidctx := stream_vidctx c; listeners := listeners c;
     emitted := emitted c; userQueryId := userQueryId c;
     futures := futures c; printed := printed c; models := models c |}.

Definition set_stream_cxid (v : pyval) (c : Client) : Client :=
  {| username := username c; password := password c;
     transport := transport c; session_id := session_id c; loop := loop c;
     keepalive := keepalive c; _completed_models := _completed_models c;
     _completed_tags := _completed_tags c; uid := uid c;
     _manual_disconnect := _manual_disconnect c;
     _logged_in := _logged_in c; stream_cxid := v;
     stream_password := stream_password c;
     stream_vidctx := stream_vidctx c; listeners := listeners c;
     emitted := emitted c; userQueryId := userQueryId c;
     futures := futures c; printed := printed c; models := models c |}.

Definition set_stream_password (v : pyval) (c : Client) : Client :=
  {| username := username c; password := password c;
     transport := transport c; session_id := session_id c; loop := loop c;
     keepalive := keepalive c; _completed_models := _completed_models c;
     _completed_tags := _completed_tags c; uid := uid c;
     _manual_disconnect := _manual_disconnect c;
     _logged_in := _logged_in c; stream_cxid := stream_cxid c;
     stream_password := v; stream_vidctx := stream_vidctx c;
     listeners := listeners c; emitted := emitted c;
     userQueryId := userQueryId c; futures := futures c;
     printed := printed c; models := models c |}.

Definition set_stream_vidctx (v : pyval) (c : Client) : Client :=
  {| username := username c; password := password c;
     transport := transport c; session_id := session_id c; loop := loop c;
     keepalive := keepalive c; _completed_models := _completed_models c;
     _completed_tags := _completed_tags c; uid := uid c;
     _manual_disconnect := _manual_disconnect c;
     _logged_in := _logged_in c; stream_cxid := stream_cxid c;
     stream_password := stream_password c; stream_vidctx := v;
     listeners := listeners c; emitted := emitted c;
     userQueryId := userQueryId c; futures := futures c;
     printed := printed c; models := models c |}.

Definition set_listeners (v : list (Z * listener)) (c : Client) : Client :=
  {| username := username c; password := password c;
     transport := transport c; session_id := session_id c; loop := loop c;
     keepalive := keepalive c; _completed_models := _completed_models c;
     _completed_tags := _completed_tags c; uid := uid c;
     _manual_disconnect := _manual_disconnect c;
     _logged_in := _logged_in c; stream_cxid := stream_cxid c;
     stream_password := stream_password c;
     stream_vidctx := stream_vidctx c; listeners := v;
     emitted := emitted c; userQueryId := userQueryId c;
     futures := futures c; printed := printed c; models := models c |}.

Definition set_emitted (v : list (Z * option Packet)) (c : Client) : Client :=
  {| username := username c; password := password c;
     transport := transport c; session_id := session_id c; loop := loop c;
     keepalive := keepalive c; _completed_models := _completed_models c;
     _completed_tags := _completed_tags c; uid := uid c;
     _manual_disconnect := _manual_disconnect c;
     _logged_in := _logged_in c; stream_cxid := stream_cxid c;
     stream_password := stream_password c;
     stream_vidctx := stream_vidctx c; listeners := listeners c;
     emitted := v; userQueryId := userQueryId c; futures := futures c;
     printed := printed c; models := models c |}.

Definition set_userQueryId (v : Z) (c : Client) : Client :=
  {| username := username c; password := password c;
     transport := transport c; session_id := session_id c; loop := loop c;
     keepalive := keepalive c; _completed_models := _completed_models c;
     _completed_tags := _completed_tags c; uid := uid c;
     _manual_disconnect := _manual_disconnect c;
     _logged_in := _logged_in c; stream_cxid := stream_cxid c;
     stream_password := stream_password c;
     stream_vidctx := stream_vidctx c; listeners := listeners c;
     emitted := emitted c; userQueryId := v; futures := futures c;
     printed := printed c; models := models c |}.

Definition set_futures (v : list future) (c : Client) : Client :=
  {| username := username c; password := password c;
     transport := transport c; session_id := session_id c; loop := loop c;
     keepalive := keepalive c; _completed_models := _completed_models c;
     _completed_tags := _completed_tags c; uid := uid c;
     _manual_disconnect := _manual_disconnect c;
     _logged_in := _logged_in c; stream_cxid := stream_cxid c;
     stream_password := stream_password c;
     stream_vidctx := stream_vidctx c; listeners := listeners c;
     emitted := emitted c; userQueryId := userQueryId c; futures := v;
     printed := printed c; models := models c |}.

Definition set_printed (v : list string) (c : Client) : Client :=
  {| username := username c; password := password c;
     transport := transport c; session_id := session_id c; loop := loop c;
     keepalive := keepalive c; _completed_models := _completed_models c;
     _completed_tags := _completed_tags c; uid := uid c;
     _manual_disconnect := _manual_disconnect c;
     _logged_in := _logged_in c; stream_cxid := stream_cxid c;
     stream_password := stream_password c;
     stream_vidctx := stream_vidctx c; listeners := listeners c;
     emitted := emitted c; userQueryId := userQueryId c;
     futures := futures c; printed := v; models := models c |}.

Definition set_models (v : registry) (c : Client) : Client :=
  {| username := username c; password := password c;
     transport := transport c; session_id := session_id c; loop := loop c;
     keepalive := keepalive c; _completed_models := _completed_models c;
     _completed_tags := _completed_tags c; uid := uid c;
     _manual_disconnect := _manual_disconnect c;
     _logged_in := _logged_in c; stream_cxid := stream_cxid c;
     stream_password := stream_password c;
     stream_vidctx := stream_vidctx c; listeners := listeners c;
     emitted := emitted c; userQueryId := userQueryId c;
     futures := futures c; printed := printed c; models := v |}.

(** ** Methods: computations on the client that may raise *)

Definition M (A : Type) : Type := Client -> outcome A * Client.

Definition ret {A} (a : A) : M A := fun c => (Ret a, c).
Definition raise {A} (e : exn) : M A := fun c => (Raise e, c).
Definition bind {A B} (m : M A) (k : A -> M B) : M B :=
  fun c =>
    match m c with
    | (Ret a, c') => k a c'
    | (Raise e, c') => (Raise e, c')
    end.
Definition get : M Client := fun c => (Ret c, c).
Definition modify (f : Client -> Client) : M unit := fun c => (Ret tt, f c).
Definition lift {A} (o : outcome A) : M A := fun c => (o, c).

Notation "x <- m ;; k" := (bind m (fun x => k))
  (at level 61, m at next level, right associativity).
Notation "m ;; k" := (bind m (fun _ => k))
  (at level 61, right associativity).

(** A loop body run over a list, in order, until one run raises. *)
Fixpoint for_each {A} (body : A -> M unit) (l : list A) : M unit :=
  match l with
  | [] => ret tt
  | x :: r => body x ;; for_each body r
  end.

(** A call into the registry. *)
Definition on_models {A} (f : registry -> outcome A * registry) : M A :=
  fun c => let '(o, r) := f (models c) in (o, set_models r c).

(** ** The inherited [EventEmitter] *)

(** [future.set_result(v)]. *)
Definition set_result (ix : nat) (v : pyval) : M unit :=
  c <- get ;;
  match nth_error (futures c) ix with
  | Some Pending =>
      modify (set_futures (firstn ix (futures c) ++ Done v
                             :: skipn (S ix) (futures c)))
  | _ => raise InvalidStateError
  end.

Definition same_listener (a b : listener) : bool :=
  (query_id a =? query_id b) && Nat.eqb (future_ix a) (future_ix b).

Fixpoint remove_first (kind : Z) (l : listener) (ls : list (Z * listener))
  : list (Z * listener) :=
  match ls with
  | [] => []
  | (k, h) :: r =>
      if (k =? kind) && same_listener h l then r
      else (k, h) :: remove_first kind l r
  end.

(** [self.on(kind, handler)]. *)
Definition on (kind : Z) (l : listener) : M unit :=
  modify (fun c => set_listeners (listeners c ++ [(kind, l)]) c).

(** [self.remove_listener(kind, handler)]. *)
Definition remove_listener (kind : Z) (l : listener) : M unit :=
  modify (fun c => set_listeners (remove_first kind l (listeners c)) c).

(** The closure [handler] of [query_user], called with what [emit]
    was given: it takes exactly one packet. *)
Definition handler (l : listener) (arg : option Packet) : M unit :=
  match arg with
  | None => raise TypeError
  | Some packet =>
      if narg1 packet =? query_id l then
        remove_listener FCTYPE_USERNAMELOOKUP l ;;
        if negb (is_dict (smessage packet))
        then set_result (future_ix l) PNone
        else set_result (future_ix l) (smessage packet)
      else ret tt
  end.

(** [self.emit(kind)] and [self.emit(kind, packet)]: the handlers
    registered for [kind] when the call starts, in subscription
    order. *)
Definition emit (kind : Z) (arg : option Packet) : M unit :=
  modify (fun c => set_emitted (emitted c ++ [(kind, arg)]) c) ;;
  c <- get ;;
  for_each (fun h => handler h arg)
           (map snd (filter (fun kl => fst kl =? kind) (listeners c))).

(** ** [_process_packet] *)

(** [possible_model = Model.get_model(uid, ...)] followed by
    [if possible_model != None: possible_model.merge(payload)]. *)
Definition merge_model (uid : pyval) (create : option bool) (payload : pyval)
  : M unit :=
  pm <- on_models (get_model uid create) ;;
  match pm with
  | Some m => on_models (merge m payload)
  | None => ret tt
  end.

Definition merge_model_tags (uid : pyval) (tags : pyval) : M unit :=
  pm <- on_models (get_model uid None) ;;
  match pm with
  | Some m => on_models (merge_tags m tags)
  | None => ret tt
  end.

Definition with_smessage (v : pyval) (p : Packet) : Packet :=
  mkPacket (fctype p) (nfrom p) (nto p) (narg1 p) (narg2 p) v.

(** [s.split(sep)] for a one-character separator. *)
Fixpoint split_on (sep : Z) (s : pystr) : list pystr :=
  match s with
  | [] => [[]]
  | c :: r =>
      if c =? sep then [] :: split_on sep r
      else
        match split_on sep r with
        | w :: ws => (c :: w) :: ws
        | [] => [[c]]
        end
  end.

(** [v.split("/")]. *)
Definition py_split_slash (v : pyval) : outcome (list pystr) :=
  match v with
  | PStr s => Ret (split_on 47 s)
  | _ => Raise AttributeError
  end.

(** Modelled from the spec: the [Packet] constructor on values that do
    not come from the wire.  The message record holds integers, so a
    field of another type is refused. *)
Definition packet_field (v : pyval) : outcome Z :=
  match v with
  | PInt z => Ret z
  | PBool b => Ret (if b then 1 else 0)
  | _ => Raise TypeError
  end.

(** [extdata.setdefault(name, None)] where [name in extdata] holds. *)
Definition extdata_param (extdata : pyval) (name : pystr) : outcome pyval :=
  match extdata with
  | PDict d =>
      match dict_get d (PStr name) with
      | Some v => Ret v
      | None => Ret PNone
      end
  | _ => Raise AttributeError
  end.

Fixpoint extdata_params (extdata : pyval) (names : list pystr)
  : outcome (list (pystr * pyval)) :=
  match names with
  | [] => Ret []
  | name :: rest =>
      (let! present := contains_str name extdata in
       let! here :=
         (if present : bool
          then let! v := extdata_param extdata name in Ret [(name, v)]
          else Ret []) in
       let! more := extdata_params extdata rest in
       Ret (here ++ more))%out
  end.

(** [Client._handle_extdata]; [reinject] is [handle_packet_received]. *)
Definition _handle_extdata (reinject : Packet -> M unit) (extdata : pyval)
  : M unit :=
  if is_none extdata then ret tt
  else
    present <- lift (contains_str (str_of "respkey") extdata) ;;
    if present : bool then
      params <- lift (extdata_params extdata
                        (map str_of ["respkey"; "type"; "opts"; "serv"]%string)) ;;
      contents <- lift (fetch_extresp params) ;;
      let field (name : string) : M pyval :=
        msg <- lift (getitem_str extdata (str_of "msg")) ;;
        lift (getitem_str msg (str_of name)) in
      ty <- field "type"%string ;;
      from <- field "from"%string ;;
      to <- field "to"%string ;;
      arg1 <- field "arg1"%string ;;
      arg2 <- field "arg2"%string ;;
      ty <- lift (packet_field ty) ;;
      from <- lift (packet_field from) ;;
      to <- lift (packet_field to) ;;
      arg1 <- lift (packet_field arg1) ;;
      arg2 <- lift (packet_field arg2) ;;
      reinject (mkPacket ty from to arg1 arg2 contents)
    else ret tt.

(** The loop of the roster branch:
    [for payload in rdata: ... merge(payload)]. *)
Definition merge_row (payload : pyval) : M unit :=
  u <- lift (getitem_str payload (str_of "uid")) ;;
  lv <- lift (getitem_str payload (str_of "lv")) ;;
  merge_model u (Some (eq_int lv FCLEVEL_MODEL)) payload.

(** The loop of the bookmarks branch. *)
Definition merge_bookmark (bookmark : pyval) : M unit :=
  u <- lift (getitem_str bookmark (str_of "uid")) ;;
  merge_model u None bookmark.

(** The loop of the [TAGS] branch: [Model.get_model(int(key))]. *)
Definition merge_tag_entry (kv : pyval * pyval) : M unit :=
  k <- lift (py_int (fst kv)) ;;
  merge_model_tags k (snd kv).

(** The loop of the tag list of [MANAGELIST]: [Model.get_model(key)]. *)
Definition merge_tag_row (kv : pyval * pyval) : M unit :=
  merge_model_tags (fst kv) (snd kv).

Definition detail_kinds : list Z :=
  [FCTYPE_DETAILS; FCTYPE_ROOMHELPER; FCTYPE_SESSIONSTATE;
   FCTYPE_ADDFRIEND; FCTYPE_ADDIGNORE; FCTYPE_CMESG;
   FCTYPE_PMESG; FCTYPE_TXPROFILE; FCTYPE_USERNAMELOOKUP;
   FCTYPE_MYCAMSTATE; FCTYPE_MYWEBCAM].

Definition member (x : Z) (l : list Z) : bool := existsb (Z.eqb x) l.

(** [Client._process_packet].  The packet it returns is the packet it
    was given, as the detail branch may have left it (the two
    [setdefault] calls write into its payload); [reinject] is
    [handle_packet_received]. *)
Definition _process_packet (reinject : Packet -> M unit) (packet : Packet)
  : M Packet :=
  let ft := fctype packet in
  if ft =? FCTYPE_LOGIN then
    if negb (narg1 packet =? 0) then raise (Exception "Login failed")
    else
      modify (set_session_id (nto packet)) ;;
      modify (set_uid (Some (narg2 packet))) ;;
      modify (set_username (smessage packet)) ;;
      ret packet
  else if member ft detail_kinds then
    if negb (((ft =? FCTYPE_DETAILS) && (nfrom packet =? FCTYPE_TOKENINC))
             || ((ft =? FCTYPE_ROOMHELPER) && (narg2 packet <? 100))
             || ((ft =? FCTYPE_JOINCHAN) && (narg2 packet =? FCCHAN_PART)))
    then
      match smessage packet with
      | PDict d =>
          let '(user_level, d1) := dict_setdefault d (PStr (str_of "lv")) PNone in
          let '(user_id, d2) := dict_setdefault d1 (PStr (str_of "uid")) PNone in
          let packet := with_smessage (PDict d2) packet in
          user_id <- (if is_none user_id
                      then on_models (aboutmodel_uid packet)
                      else ret user_id) ;;
          if negb (is_none user_id) && negb (eq_int user_id (-1))
             && (negb (is_none user_level) || eq_int user_level 4)
          then
            merge_model user_id (Some (eq_int user_level 4)) (smessage packet) ;;
            ret packet
          else ret packet
      | _ => ret packet
      end
    else ret packet
  else if ft =? FCTYPE_TAGS then
    match smessage packet with
    | PDict d => for_each merge_tag_entry d ;; ret packet
    | _ => ret packet
    end
  else if ft =? FCTYPE_BOOKMARKS then
    present <- lift (contains_str (str_of "bookmarks") (smessage packet)) ;;
    if present : bool then
      bookmarks <- lift (getitem_str (smessage packet) (str_of "bookmarks")) ;;
      match bookmarks with
      | PList l => for_each merge_bookmark l ;; ret packet
      | _ => ret packet
      end
    else ret packet
  else if ft =? FCTYPE_METRICS then ret packet
  else if ft =? FCTYPE_EXTDATA then
    c <- get ;;
    if (nto packet =? session_id c) && (narg2 packet =? FCWOPT_REDIS_JSON)
    then _handle_extdata reinject (smessage packet) ;; ret packet
    else ret packet
  else if ft =? FCTYPE_MANAGELIST then
    present <- (if 0 <? narg2 packet
                then lift (contains_str (str_of "rdata") (smessage packet))
                else ret false) ;;
    if present : bool then
      data <- lift (getitem_str (smessage packet) (str_of "rdata")) ;;
      rdata <- lift (ListSchema._process_list data) ;;
      let ntype := narg2 packet in
      match rdata with
      | PList rows =>
          if member ntype [FCL_ROOMMATES; FCL_CAMS; FCL_FRIENDS; FCL_IGNORES]
          then
            for_each merge_row rows ;;
            c <- get ;;
            if (ntype =? FCL_CAMS) && negb (_completed_models c) then
              modify (set__completed_models true) ;;
              emit FCTYPE_CLIENT_MODELSLOADED None ;;
              ret packet
            else ret packet
          else ret packet
      | PDict tags =>
          if ntype =? FCL_TAGS then
            for_each merge_tag_row tags ;;
            c <- get ;;
            if negb (_completed_tags c) then
              modify (set__completed_tags true) ;;
              emit FCTYPE_CLIENT_TAGSLOADED None ;;
              ret packet
            else ret packet
          else ret packet
      | _ => ret packet
      end
    else ret packet
  else if ft =? FCTYPE_TKX then
    let has (name : string) : M bool :=
      lift (contains_str (str_of name) (smessage packet)) in
    cxid <- has "cxid"%string ;;
    tkx <- (if cxid : bool then has "tkx"%string else ret false) ;;
    ctxenc <- (if tkx : bool then has "ctxenc"%string else ret false) ;;
    if ctxenc : bool then
      v <- lift (getitem_str (smessage packet) (str_of "cxid")) ;;
      modify (set_stream_cxid v) ;;
      v <- lift (getitem_str (smessage packet) (str_of "tkx")) ;;
      modify (set_stream_password v) ;;
      v <- lift (getitem_str (smessage packet) (str_of "ctxenc")) ;;
      parts <- lift (py_split_slash v) ;;
      match parts with
      | _ :: part1 :: _ => modify (set_stream_vidctx (PStr part1)) ;; ret packet
      | _ =>
          v <- lift (getitem_str (smessage packet) (str_of "ctxenc")) ;;
          modify (set_stream_vidctx v) ;; ret packet
      end
    else ret packet
  else ret packet.

(** [Client.handle_packet_received].  A payload can ask for a fetched
    packet to be handled in turn; [depth] bounds that nesting the way
    the interpreter's recursion limit does. *)
Fixpoint handle_packet_received (depth : nat) (packet : Packet) : M unit :=
  match depth with
  | O => raise RecursionError
  | S depth' =>
      packet <- _process_packet (handle_packet_received depth') packet ;;
      emit (fctype packet) (Some packet) ;;
      emit FCTYPE_ANY (Some packet)
  end.

(** ** Sending *)

(** [len(smsg)], for the values a payload can be. *)
Definition py_len (v : pyval) : outcome nat :=
  match v with
  | PStr s => Ret (length s)
  | PList l => Ret (length l)
  | PDict d => Ret (length d)
  | _ => Raise TypeError
  end.

(** [smsg.encode()]. *)
Definition py_encode (v : pyval) : outcome (list byte) :=
  match v with
  | PStr s => Wire.utf8_encode s
  | _ => Raise AttributeError
  end.

(** [self.transport.write(data)]. *)
Definition transport_write (data : list byte) : M unit :=
  c <- get ;;
  match transport c with
  | Some t =>
      modify (set_transport (Some (mkTransport (written t ++ [data]) (closing t))))
  | None => raise AttributeError
  end.

(** [Client.tx_cmd].  The payload field of the frame has as many
    bytes as [smsg] has characters: [struct.pack] cuts the encoded
    text to that count. *)
Definition tx_cmd (kind : kind_arg) (nto narg1 narg2 : Z) (smsg : pyval)
  : M unit :=
  match kind with
  | NotMember => raise (Exception "Please provide a valid FCTYPE")
  | Member ft =>
      let smsg := if is_none smsg then PStr [] else smsg in
      n <- lift (py_len smsg) ;;
      c <- get ;;
      body <- lift (py_encode smsg) ;;
      header <- lift (Wire.pack_ints [Wire.MAGIC; ft; session_id c; nto;
                                      narg1; narg2; Z.of_nat n]) ;;
      transport_write (header ++ Wire.pack_s n body)
  end.

(** [Client.tx_packet]; the packet's kind is passed as it is, an
    [int] read from the wire or a member of [FCTYPE]. *)
Definition tx_packet (kind : kind_arg) (packet : Packet) : M unit :=
  tx_cmd kind (nto packet) (narg1 packet) (narg2 packet) (smessage packet).

Definition sendchat (the_id : Z) (msg : pyval) : M unit :=
  tx_cmd (Member FCTYPE_CMESG) (Ids.toroomid the_id) 0 0 msg.

Definition sendpm (the_id : Z) (msg : pyval) : M unit :=
  tx_cmd (Member FCTYPE_PMESG) (Ids.touserid the_id) 0 0 msg.

Definition joinroom (the_id : Z) : M unit :=
  tx_cmd (Member FCTYPE_JOINCHAN) 0 (Ids.toroomid the_id) FCCHAN_JOIN (PStr []).

Definition leaveroom (the_id : Z) : M unit :=
  tx_cmd (Member FCTYPE_JOINCHAN) 0 (Ids.toroomid the_id) FCCHAN_PART (PStr []).

(** ** Queries *)

(** [Client.query_user], the body of [with Client.userQueryLock]
    run as one step; the value returned is the new future. *)
Definition query_user (user : pyval) : M nat :=
  c <- get ;;
  let fut := length (futures c) in
  modify (set_futures (futures c ++ [Pending])) ;;
  let qid := userQueryId c in
  modify (fun c => set_userQueryId (userQueryId c + 1) c) ;;
  on FCTYPE_USERNAMELOOKUP (mkListener qid fut) ;;
  match user with
  | PInt z =>
      tx_cmd (Member FCTYPE_USERNAMELOOKUP) 0 qid z (PStr []) ;; ret fut
  | PBool b =>
      tx_cmd (Member FCTYPE_USERNAMELOOKUP) 0 qid (if b then 1 else 0) (PStr []) ;;
      ret fut
  | PStr _ =>
      tx_cmd (Member FCTYPE_USERNAMELOOKUP) 0 qid 0 user ;; ret fut
  | _ => raise (Exception "Invalid Argument")
  end.

(** ** Teardown *)

(** [self.transport.close()]. *)
Definition transport_close : M unit :=
  c <- get ;;
  match transport c with
  | Some t => modify (set_transport (Some (mkTransport (written t) true)))
  | None => raise AttributeError
  end.

(** [Client.disconnect]. *)
Definition disconnect : M unit :=
  modify (set__manual_disconnect true) ;;
  transport_close.

(** [handle.cancel()] on the timer [ix]. *)
Definition cancel_timer (ix : nat) (l : EventLoop) : EventLoop :=
  match nth_error (timers l) ix with
  | Some t =>
      mkLoop (stopped l)
             (firstn ix (timers l) ++ mkTimer (delay t) (action t) true
                :: skipn (S ix) (timers l))
  | None => l
  end.

(** [self.loop.call_later(delay, callback)]. *)
Definition call_later (d : Z) (cb : callback) (l : EventLoop) : EventLoop :=
  mkLoop (stopped l) (timers l ++ [mkTimer d cb false]).

(** [self.loop.stop()]. *)
Definition loop_stop (c : Client) : Client :=
  set_loop (mkLoop true (timers (loop c))) c.

(** [v.startswith(prefix)]. *)
Definition py_startswith (v : pyval) (prefix : pystr) : outcome bool :=
  match v with
  | PStr s => Ret (is_prefix prefix s)
  | _ => Raise AttributeError
  end.

(** [Client.handle_disconnected]. *)
Definition handle_disconnected : M unit :=
  c <- get ;;
  match keepalive c with
  | Some ix =>
      modify (fun c => set_loop (cancel_timer ix (loop c)) c) ;;
      modify (set_keepalive None)
  | None => ret tt
  end ;;
  c <- get ;;
  guest <- (if eq_str (password c) (str_of "guest")
            then lift (py_startswith (username c) (str_of "Guest"))
            else ret false) ;;
  (if guest : bool then modify (set_username (PStr (str_of "guest"))) else ret tt) ;;
  modify (set__completed_models false) ;;
  modify (set__completed_tags false) ;;
  c <- get ;;
  (if negb (_manual_disconnect c) then
     modify (fun c => set_printed
               (printed c ++
                ["Disconnected from MyFreeCams.  Reconnecting in 30 seconds..."%string]) c) ;;
     modify (fun c => set_loop (call_later 30 CbReconnect (loop c)) c)
   else modify loop_stop) ;;
  modify (set__manual_disconnect false) ;;
  emit FCTYPE_CLIENT_DISCONNECTED None ;;
  on_models reset.

(** [MFCProtocol.connection_lost]. *)
Definition connection_lost : M unit := handle_disconnected.

(** ** The protocol object of this client *)

(** [MFCProtocol(self.loop, self)]: [data_received] with this client's
    [handle_packet_received] and the [stop] of this client's loop. *)
Definition data_received (depth fuel : nat) (data : list byte)
  (self : Protocol.MFCProtocol Client)
  : option (Protocol.received Client) :=
  Protocol.data_received (handle_packet_received depth) loop_stop fuel data self.

(** ** Notions used to state the properties *)

(** A reconnect is scheduled: the loop holds a live timer for it. *)
Definition reconnect_scheduled (c : Client) : Prop :=
  exists t, In t (timers (loop c)) /\ action t = CbReconnect /\ cancelled t = false.


(** The futures of [c] that are still pending, by index. *)
Definition pending_futures (c : Client) : list nat :=
  filter (fun ix => match nth_error (futures c) ix with
                    | Some Pending => true
                    | _ => false
                    end)
         (seq 0 (length (futures c))).

(** How often [emit(kind)] was called without a packet. *)
Definition count_emitted (kind : Z) (c : Client) : nat :=
  length (filter (fun ev => (fst ev =? kind)
                            && match snd ev with None => true | Some _ => false end)
                 (emitted c)).
(** Whatever its outcome, [m] leaves a client that satisfies [I] one
    that satisfies [I]. *)
Definition preserves (I : Client -> Prop) {A : Type} (m : M A) : Prop :=
  forall c, I c -> I (snd (m c)).

(** The futures and the listeners are what they were. *)
Definition queries_are (F : list future) (L : list (Z * listener)) (c : Client)
  : Prop :=
  futures c = F /\ listeners c = L.

(** The flag of the roster event and the number of times the event was
    emitted. *)
Definition loaded (b : bool) (n : nat) (c : Client) : Prop :=
  _completed_models c = b
  /\ count_emitted FCTYPE_CLIENT_MODELSLOADED c = n.

(** The kinds whose branches come before the one of [MANAGELIST]. *)
Definition earlier_kinds : list Z :=
  FCTYPE_LOGIN :: detail_kinds
  ++ [FCTYPE_TAGS; FCTYPE_BOOKMARKS; FCTYPE_METRICS; FCTYPE_EXTDATA].

(** Both flags are down. *)
Definition flags_down (c : Client) : Prop :=
  _completed_models c = false /\ _completed_tags c = false.

End WithEnvironment.
End Client.

(* ================================================================== *)
(** * Instances for closed examples *)
(* ================================================================== *)

Module Sample.

(** The limits of an interpreter with its defaults, the decoder called
    some ten frames below the top of the stack. *)
Definition limits : Limits := {| json_depth := 990; max_str_digits := 4300 |}.

(** A table of constants, with pairwise distinct kinds and pairwise
    distinct list types. *)
Definition constants : Constants :=
  {| FCTYPE_NULL := 0; FCTYPE_LOGIN := 1; FCTYPE_ADDFRIEND := 2;
     FCTYPE_PMESG := 3; FCTYPE_DETAILS := 5; FCTYPE_TOKENINC := 6;
     FCTYPE_ADDIGNORE := 7; FCTYPE_USERNAMELOOKUP := 10;
     FCTYPE_MANAGELIST := 14; FCTYPE_SESSIONSTATE := 20;
     FCTYPE_TXPROFILE := 25; FCTYPE_TKX := 30; FCTYPE_ROOMHELPER := 49;
     FCTYPE_CMESG := 50; FCTYPE_JOINCHAN := 51; FCTYPE_TAGS := 64;
     FCTYPE_METRICS := 69; FCTYPE_MYWEBCAM := 72; FCTYPE_MYCAMSTATE := 73;
     FCTYPE_BOOKMARKS := 77; FCTYPE_EXTDATA := 81;
     FCCHAN_JOIN := 1; FCCHAN_PART := 2; FCWOPT_REDIS_JSON := 8192;
     FCL_FRIENDS := 1; FCL_IGNORES := 2; FCL_TAGS := 11; FCL_CAMS := 12;
     FCL_ROOMMATES := 13; FCLEVEL_MODEL := 4 |}.

(** An environment whose registry is the log of what was merged, whose
    [int] reads the values that are integers already, and whose network
    is down. *)
Definition environment : Environment :=
  {| registry := list (pyval * pyval);
     model := pyval;
     get_model := fun uid _ r => (Ret (Some uid), r);
     merge := fun m payload r => (Ret tt, r ++ [(m, payload)]);
     merge_tags := fun m tags r => (Ret tt, r ++ [(m, tags)]);
     reset := fun _ => (Ret tt, []);
     aboutmodel_uid := fun p r => (Ret (PInt (nfrom p)), r);
     py_int := fun v => match v with
                        | PInt _ => Ret v
                        | PBool b => Ret (PInt (if b then 1 else 0))
                        | _ => Raise ValueError
                        end;
     fetch_extresp := fun _ => Raise (Exception "unreachable") |}.

(** A guest client on an open connection. *)
Definition connected : @Client.Client environment :=
  Client.set_transport (Some (Client.mkTransport [] false))
    (@Client.init environment (PStr (str_of "guest")) (PStr (str_of "guest")) []).

End Sample.

(* ================================================================== *)
(** * Query ids under concurrent callers *)
(* ================================================================== *)

(** The first lines of [query_user], one statement at a time, run by
    any number of threads that share the class attributes
    [Client.userQueryLock] and [Client.userQueryId]. *)
Module QueryIds.

(** Where a thread stands in [query_user]. *)
Inductive pc : Type :=
| Outside      (* before [with Client.userQueryLock] *)
| Locked       (* the lock is held; next: [query_id = Client.userQueryId] *)
| HasId        (* next: the read of [Client.userQueryId += 1] *)
| Loaded       (* next: the write of [Client.userQueryId += 1] *)
| Stored.      (* next: the end of the [with] block, which releases the lock *)

Record thread : Type := mkThread {
  at_pc : pc;
  query_id : Z;       (* the local [query_id] *)
  loaded : Z          (* the value read by [+=] *)
}.

Record state : Type := mkState {
  userQueryId : Z;
  lock_owner : option nat;
  threads : nat -> thread;
  allocated : list Z            (* every [query_id] read so far, oldest first *)
}.

Definition update (f : nat -> thread) (t : nat) (th : thread) : nat -> thread :=
  fun u => if Nat.eqb u t then th else f u.

(** The class as it is loaded: [userQueryId = 20], the lock free, no
    thread inside [query_user]. *)
Definition initial : state :=
  mkState 20 None (fun _ => mkThread Outside 0 0) [].

(** Thread [t] runs its next statement.  A thread that waits for the
    lock does not move. *)
Definition step (t : nat) (s : state) : state :=
  let th := threads s t in
  match at_pc th with
  | Outside =>
      match lock_owner s with
      | None =>
          mkState (userQueryId s) (Some t)
                  (update (threads s) t (mkThread Locked (query_id th) (loaded th)))
                  (allocated s)
      | Some _ => s
      end
  | Locked =>
      mkState (userQueryId s) (lock_owner s)
              (update (threads s) t (mkThread HasId (userQueryId s) (loaded th)))
              (allocated s ++ [userQueryId s])
  | HasId =>
      mkState (userQueryId s) (lock_owner s)
              (update (threads s) t (mkThread Loaded (query_id th) (userQueryId s)))
              (allocated s)
  | Loaded =>
      mkState (loaded th + 1) (lock_owner s)
              (update (threads s) t (mkThread Stored (query_id th) (loaded th)))
              (allocated s)
  | Stored =>
      mkState (userQueryId s) None
              (update (threads s) t (mkThread Outside (query_id th) (loaded th)))
              (allocated s)
  end.

(** An execution: the threads move in the order of the schedule. *)
Fixpoint run (schedule : list nat) (s : state) : state :=
  match schedule with
  | [] => s
  | t :: rest => run rest (step t s)
  end.

(** [l] is strictly increasing. *)
Fixpoint increasing (l : list Z) : Prop :=
  match l with
  | [] => True
  | x :: r => Forall (fun y => x < y) r /\ increasing r
  end.

(** The ids read so far are below this value: the counter, or one more
    while the thread that holds the lock has read its id and not yet
    written the counter back. *)
Definition bound (s : state) : Z :=
  match lock_owner s with
  | Some t =>
      match at_pc (threads s t) with
      | HasId | Loaded => userQueryId s + 1
      | _ => userQueryId s
      end
  | None => userQueryId s
  end.

(** What every reachable state satisfies. *)
Record invariant (s : state) : Prop := {
  inv_increasing : increasing (allocated s);
  inv_bound : Forall (fun y => y < bound s) (allocated s);
  inv_lock : forall u, at_pc (threads s u) = Outside \/ lock_owner s = Some u;
  inv_loaded : forall t, lock_owner s = Some t ->
                         at_pc (threads s t) = Loaded ->
                         loaded (threads s t) = userQueryId s
}.

End QueryIds.

(* ================================================================== *)
(** * Headers on the wire *)
(* ================================================================== *)

(** The header [data_received] unpacks, with any value in its length
    field (a [Frame] ties that field to the payload it carries). *)
Module Framing.
Import Wire Protocol.

(** The 28 bytes [struct.pack(">iiiiiii", MAGIC, ...)] lays out. *)
Definition header (kind from to arg1 arg2 spayload : Z) : list byte :=
  flat_map be32 [MAGIC; kind; from; to; arg1; arg2; spayload].

(** What the loop does with a buffer that starts with such a header,
    once the header is unpacked and the magic number accepted. *)
Definition after_header {L : Limits} (C : Type)
  (handle_packet_received : Packet -> C -> outcome unit * C)
  (loop_stop : C -> C) (fuel : nat)
  (kind from to arg1 arg2 spayload : Z) (body : list byte) (c : C)
  : option (received C) :=
  let buf := header kind from to arg1 arg2 spayload ++ body in
  let deliver (smsg : pyval) :=
    hand_over handle_packet_received loop_stop fuel
      (mkPacket kind from to arg1 arg2 smsg)
      (slice_from (packet_size + spayload) buf) c in
  if 0 <? spayload then
    if Z.of_nat (length buf) <? packet_size + spayload then
      Some {| delivered := []; caught := None;
              after := {| buffer := buf; client := c |} |}
    else
      match utf8_decode (firstn (Z.to_nat spayload) body) with
      | None =>
          Some (on_except loop_stop UnicodeDecodeError
                  {| buffer := buf; client := c |})
      | Some text =>
          match Json.loads text with
          | Json.Parsed v => deliver v
          | Json.Invalid => deliver (PStr text)
          | Json.Refused e =>
              Some (on_except loop_stop e {| buffer := buf; client := c |})
          end
      end
  else deliver PNone.

End Framing.

(* ================================================================== *)
(** * Notions for the properties of the client *)
(* ================================================================== *)

Module Queries.
Import Py Client.

Section WithEnvironment.
Context {K : Constants} {E : Environment}.

(** The handlers [query_user] has registered and the futures they
    complete are in order: every handler is registered for
    [USERNAMELOOKUP] responses and waits on a future that is still
    pending; no two handlers share a query id or a future; every query
    id in use is below the class counter. *)
Record well_formed (c : Client) : Prop := {
  wf_kind : forall k l, In (k, l) (listeners c) -> k = FCTYPE_USERNAMELOOKUP;
  wf_pending : forall k l, In (k, l) (listeners c) ->
                           nth_error (futures c) (future_ix l) = Some Pending;
  wf_ids : NoDup (map (fun kl => query_id (snd kl)) (listeners c));
  wf_futures : NoDup (map (fun kl => future_ix (snd kl)) (listeners c));
  wf_below : forall k l, In (k, l) (listeners c) -> query_id l < userQueryId c
}.

(** What the handler of a query makes of a response: its payload when
    that is a dict, else [None]. *)
Definition answer (p : Packet) : pyval :=
  if is_dict (smessage p) then smessage p else PNone.

(** The client once the handler [l] has taken the response [p]. *)
Definition completed (l : listener) (p : Packet) (c : Client) : Client :=
  set_futures
    (firstn (future_ix l) (futures c) ++ Done (answer p)
       :: skipn (S (future_ix l)) (futures c))
    (set_listeners (remove_first FCTYPE_USERNAMELOOKUP l (listeners c)) c).

(** The client once [query_user] has created its future, taken its
    query id and registered its handler. *)
Definition registered (c : Client) : Client :=
  set_listeners
    (listeners c ++ [(FCTYPE_USERNAMELOOKUP,
                      mkListener (userQueryId c) (length (futures c)))])
    (set_userQueryId (userQueryId c + 1)
       (set_futures (futures c ++ [Pending]) c)).

(** The client once one more chunk was written to its transport. *)
Definition wrote (data : list byte) (t : Transport) (c : Client) : Client :=
  set_transport (Some (mkTransport (written t ++ [data]) (closing t))) c.

(** What [query_user] accepts: an [int] (a [bool] is one) or a [str]. *)
Definition query_argument (user : pyval) : bool :=
  match user with
  | PInt _ | PBool _ | PStr _ => true
  | _ => false
  end.

(** The payload of a detail packet once [_process_packet] has called
    [setdefault("lv", None)] and [setdefault("uid", None)] on it. *)
Definition with_defaults (d : dict) : dict :=
  snd (dict_setdefault (snd (dict_setdefault d (PStr (str_of "lv")) PNone))
                       (PStr (str_of "uid")) PNone).

(** The detail kinds that [_process_packet] leaves alone in some cases. *)
Definition excepted (p : Packet) : bool :=
  ((fctype p =? FCTYPE_DETAILS) && (nfrom p =? FCTYPE_TOKENINC))
  || ((fctype p =? FCTYPE_ROOMHELPER) && (narg2 p <? 100))
  || ((fctype p =? FCTYPE_JOINCHAN) && (narg2 p =? FCCHAN_PART)).

(** The packet a detail packet is once [_process_packet] is through
    with it. *)
Definition processed (p : Packet) : Packet :=
  if excepted p then p
  else match smessage p with
       | PDict d => with_smessage (PDict (with_defaults d)) p
       | _ => p
       end.

(** [I] does not depend on the attributes [_process_packet] assigns
    nor on the registry. *)
Record stable (I : Client -> Prop) : Prop := {
  st_session_id : forall v c, I c -> I (set_session_id v c);
  st_uid : forall v c, I c -> I (set_uid v c);
  st_username : forall v c, I c -> I (set_username v c);
  st_models : forall v c, I c -> I (set_models v c);
  st_stream_cxid : forall v c, I c -> I (set_stream_cxid v c);
  st_stream_password : forall v c, I c -> I (set_stream_password v c);
  st_stream_vidctx : forall v c, I c -> I (set_stream_vidctx v c);
  st_completed_models : forall v c, I c -> I (set__completed_models v c);
  st_completed_tags : forall v c, I c -> I (set__completed_tags v c)
}.

End WithEnvironment.
End Queries.

(* ================================================================== *)
(** * Notions for the properties of the teardown *)
(* ================================================================== *)

Module Teardown.
Import Py Client.

Section WithEnvironment.
Context {K : Constants} {E : Environment}.

(** The statements of [handle_disconnected], one after the other, as
    functions of the client. *)

(** [if self.keepalive != None: self.keepalive.cancel();
    self.keepalive = None]. *)
Definition keepalive_cancelled (c : Client) : Client :=
  match keepalive c with
  | Some ix => set_keepalive None (set_loop (cancel_timer ix (loop c)) c)
  | None => c
  end.

(** The test [self.password == "guest" and
    self.username.startswith("Guest")], where it does not raise. *)
Definition guest_again (c : Client) : bool :=
  eq_str (password c) (str_of "guest")
  && match username c with
     | PStr s => is_prefix (str_of "Guest") s
     | _ => false
     end.

(** The test raises: the password is ["guest"] and the user name is
    not a [str]. *)
Definition nameless_guest (c : Client) : bool :=
  eq_str (password c) (str_of "guest") && negb (is_str (username c)).

(** [if ...: self.username = "guest"]. *)
Definition guest_renamed (c : Client) : Client :=
  if guest_again c then set_username (PStr (str_of "guest")) c else c.

(** [self._completed_models = False; self._completed_tags = False]. *)
Definition flags_reset (c : Client) : Client :=
  set__completed_tags false (set__completed_models false c).

(** [if not self._manual_disconnect: print(...); call_later(30, ...)]
    [else: self.loop.stop()]. *)
Definition reconnect_or_stop (c : Client) : Client :=
  if negb (_manual_disconnect c) then
    let c' :=
      set_printed
        (printed c ++
         ["Disconnected from MyFreeCams.  Reconnecting in 30 seconds..."%string])
        c in
    set_loop (call_later 30 CbReconnect (loop c')) c'
  else loop_stop c.

(** The client when [handle_disconnected] comes to announce the
    teardown, if the guest test has not raised. *)
Definition announce_ready (c : Client) : Client :=
  set__manual_disconnect false
    (reconnect_or_stop (flags_reset (guest_renamed (keepalive_cancelled c)))).

(** The client as [handle_disconnected] leaves it, the registry
    apart, if the guest test has not raised. *)
Definition torn (c : Client) : Client :=
  set_emitted
    (emitted (announce_ready c) ++ [(FCTYPE_CLIENT_DISCONNECTED, None)])
    (announce_ready c).

End WithEnvironment.
End Teardown.

(* ================================================================== *)
(** * Notions for the properties of the packet handler *)
(* ================================================================== *)

Module Packets.
Import Py Client.

Section WithEnvironment.
Context {K : Constants} {E : Environment}.

(** The flag of the tag list event and the number of times the event
    was emitted. *)
Definition tags_loaded (b : bool) (n : nat) (c : Client) : Prop :=
  _completed_tags c = b
  /\ count_emitted FCTYPE_CLIENT_TAGSLOADED c = n.

(** The kinds [_process_packet] has a branch for, in the order in
    which it tests them. *)
Definition handled_kinds : list Z :=
  FCTYPE_LOGIN :: detail_kinds
  ++ [FCTYPE_TAGS; FCTYPE_BOOKMARKS; FCTYPE_METRICS; FCTYPE_EXTDATA;
      FCTYPE_MANAGELIST; FCTYPE_TKX].

(** [I] does not depend on the handlers and the futures of the queries. *)
Record query_blind (I : Client -> Prop) : Prop := {
  qb_listeners : forall v c, I c -> I (set_listeners v c);
  qb_futures : forall v c, I c -> I (set_futures v c)
}.

(** Every value [m] returns satisfies [Q]. *)
Definition returns {A : Type} (Q : A -> Prop) (m : M A) : Prop :=
  forall c a c', m c = (Ret a, c') -> Q a.

(** [parts[1] if len(parts) > 1 else ctxenc], for
    [parts = ctxenc.split("/")]. *)
Definition vidctx_of (ctxenc : pystr) : pystr :=
  match split_on 47 ctxenc with
  | _ :: part1 :: _ => part1
  | _ => ctxenc
  end.

(** The kinds whose branch looks a key up in the payload, and the key. *)
Definition looked_up (p : Packet) : option pystr :=
  if fctype p =? FCTYPE_BOOKMARKS then Some (str_of "bookmarks")
  else if (fctype p =? FCTYPE_MANAGELIST) && (0 <? narg2 p)
       then Some (str_of "rdata")
  else if fctype p =? FCTYPE_TKX then Some (str_of "cxid")
  else None.

End WithEnvironment.
End Packets.

(* ================================================================== *)
(** * Rows and entries the list decoder looks at *)
(* ================================================================== *)

Module ListRows.
Import Py ListSchema.

(** An entry of the schema the first loop acts on: a dict or a str. *)
Definition is_entry (v : pyval) : bool := is_dict v || is_str v.

(** A row the second loop acts on: a list or a dict. *)
Definition is_row (v : pyval) : bool := is_list v || is_dict v.


End ListRows.


(* ================================================================== *)
(** * The keepalive, the connection and the stream address *)
(* ================================================================== *)

(** The builtin [str] on the values whose text is not spelled out
    here: floats, lists and dicts. *)
Class Builtins : Type := {
  str_other : pyval -> pystr
}.

Module Text.
Import Py.

(** The decimal digits of [n], for [0 <= n], most significant first,
    put in front of [acc]; [fuel] bounds their number. *)
Fixpoint digits (fuel : nat) (n : Z) (acc : pystr) : pystr :=
  match fuel with
  | O => acc
  | S fuel' =>
      let acc' := (48 + n mod 10) :: acc in
      if n <? 10 then acc' else digits fuel' (n / 10) acc'
  end.

(** [str(z)] for an int. *)
Definition str_int (z : Z) : pystr :=
  if z <? 0 then 45 :: digits (S (Z.to_nat (Z.log2 (- z)))) (- z) []
  else digits (S (Z.to_nat (Z.log2 z))) z [].

(** [str(v)], which is also what ['{}'.format(v)] writes. *)
Definition py_str {B : Builtins} (v : pyval) : pystr :=
  match v with
  | PNone => str_of "None"
  | PBool b => str_of (if b then "True" else "False")
  | PInt z => str_int z
  | PStr s => s
  | _ => str_other v
  end.

(** The float an int is converted to in mixed arithmetic. *)
Definition float_of_Z (z : Z) : spec_float := binary_normalize 53 1024 z 0 false.

(** [f < z] for a float and an int: exact comparison of the values. *)
Definition float_lt_Z (f : spec_float) (z : Z) : bool :=
  match f with
  | S754_zero _ => 0 <? z
  | S754_infinity s => s
  | S754_nan => false
  | S754_finite s m e =>
      let v := if s then Z.neg m else Z.pos m in
      if 0 <=? e then v * 2 ^ e <? z else v <? z * 2 ^ (- e)
  end.

(** [v - z] for an int [z]. *)
Definition py_sub_int (v : pyval) (z : Z) : outcome pyval :=
  match v with
  | PInt x => Ret (PInt (x - z))
  | PBool b => Ret (PInt ((if b then 1 else 0) - z))
  | PFloat f => Ret (PFloat (SFsub 53 1024 f (float_of_Z z)))
  | _ => Raise TypeError
  end.

(** [v.get(key, None)]. *)
Definition py_get (v : pyval) (key : pystr) : outcome pyval :=
  match v with
  | PDict d =>
      Ret (match dict_get d (PStr key) with
           | Some x => x
           | None => PNone
           end)
  | _ => Raise AttributeError
  end.

(** [Client.toroomid] on what [model.uid] may hold: the numbers are
    compared and added as Python does, anything else is refused by [<]. *)
Definition toroomid_val (the_id : pyval) : outcome pyval :=
  match the_id with
  | PInt z => Ret (PInt (Ids.toroomid z))
  | PBool b => Ret (PInt (Ids.toroomid (if b then 1 else 0)))
  | PFloat f =>
      Ret (if float_lt_Z f 100000000
           then PFloat (SFadd 53 1024 f (float_of_Z 100000000))
           else the_id)
  | _ => Raise TypeError
  end.

End Text.

Module Session.
Import Py Client Text.

(** What [connect] takes from the world outside the program. *)
Record Network : Type := mkNetwork {
  (** [json.loads(req.read().decode('utf-8'))] on the server list that
      [urlopen] fetches. *)
  fetch_servers : outcome pyval;
  (** [random.choice(seq)]. *)
  choice : pyval -> outcome pyval;
  (** [await self.loop.create_connection(factory, host, port)]: the
      transport of the new connection. *)
  create_connection : pystr -> Z -> outcome Transport
}.

(** What [connect] hands to [loop.call_soon]: [self.emit] and a kind. *)
Inductive soon : Type :=
| SoonEmit (kind : Z).

(** The call raised. *)
Definition failed {A : Type} (o : outcome A) : Prop := exists e, o = Raise e.

Section WithEnvironment.
Context {K : Constants} {E : Environment} {B : Builtins}.

Notation "x <- m ;; k" := (bind m (fun x => k))
  (at level 61, m at next level, right associativity).
Notation "m ;; k" := (bind m (fun _ => k))
  (at level 61, right associativity).

Definition set__logged_in (v : bool) (c : Client) : Client :=
  {| username := username c; password := password c;
     transport := transport c; session_id := session_id c; loop := loop c;
     keepalive := keepalive c; _completed_models := _completed_models c;
     _completed_tags := _completed_tags c; uid := uid c;
     _manual_disconnect := _manual_disconnect c; _logged_in := v;
     stream_cxid := stream_cxid c; stream_password := stream_password c;
     stream_vidctx := stream_vidctx c; listeners := listeners c;
     emitted := emitted c; userQueryId := userQueryId c;
     futures := futures c; printed := printed c; models := models c |}.

(** [self.keepalive = self.loop.call_later(120, self._ping_loop)]: the
    handle is the place of the new timer among the timers. *)
Definition schedule_ping : M unit :=
  c <- get ;;
  modify (fun c => set_loop (call_later 120 CbPingLoop (loop c)) c) ;;
  modify (set_keepalive (Some (length (timers (loop c))))).

(** [Client._ping_loop]. *)
Definition _ping_loop : M unit :=
  tx_cmd (Member FCTYPE_NULL) 0 0 0 (PStr []) ;;
  schedule_ping.

(** [Client._get_servers], as a function of [self.server_config]: its
    value afterwards. *)
Definition _get_servers (net : Network) (server_config : pyval)
  : outcome pyval :=
  if is_none server_config then fetch_servers net else Ret server_config.

(** [Client.connect] from [random.choice] to its [await];
    [server_config] is what [_get_servers] left.  The result is the
    transport [create_connection] yields. *)
Definition connect_dial (net : Network) (login : bool) (server_config : pyval)
  : M Transport :=
  servers <- lift (getitem_str server_config (str_of "chat_servers")) ;;
  selected_server <- lift (choice net servers) ;;
  modify (set__logged_in login) ;;
  lift (create_connection net
          (py_str selected_server ++ str_of ".myfreecams.com") 8100).

(** [Client.connect] from where it resumes with the new transport.
    The result is what it handed to [call_soon].  [self.protocol] is
    read nowhere in the file and is left out. *)
Definition connect_resume (login : bool) (conn : Transport) : M (list soon) :=
  modify (set_transport (Some conn)) ;;
  (if login then
     c <- get ;;
     tx_cmd (Member FCTYPE_LOGIN) 0 20071025 0
            (PStr (py_str (username c) ++ [58] ++ py_str (password c))) ;;
     c <- get ;;
     match keepalive c with
     | None => schedule_ping
     | Some _ => ret tt
     end
   else ret tt) ;;
  ret [SoonEmit FCTYPE_CLIENT_CONNECTED].

(** [Client.connect] after [_get_servers], in a run in which nothing
    else touches the client while it waits for the connection. *)
Definition connect (net : Network) (login : bool) (server_config : pyval)
  : M (list soon) :=
  conn <- connect_dial net login server_config ;;
  connect_resume login conn.

(** The callback of the reconnect timer,
    [lambda: asyncio.ensure_future(self.connect(self._logged_in))],
    with the coroutine run to its end; [server_config] is set by then,
    the first [connect] having fetched it. *)
Definition reconnect (net : Network) (server_config : pyval) : M (list soon) :=
  c <- get ;;
  connect net (_logged_in c) server_config.

(** ** Notions used to state the properties *)

(** The timer [ix] is a ping the loop has yet to run: it was not
    cancelled and is not among the [fired] ones, the timers whose
    callback has run. *)
Definition pending_ping (fired : list nat) (c : Client) (ix : nat) : Prop :=
  exists t,
    nth_error (timers (loop c)) ix = Some t
    /\ action t = CbPingLoop
    /\ cancelled t = false
    /\ ~ In ix fired.

(** Every ping the loop has yet to run is the one [keepalive] holds. *)
Definition tracked (fired : list nat) (c : Client) : Prop :=
  forall ix, pending_ping fired c ix -> keepalive c = Some ix.

(** No ping is left for the loop to run. *)
Definition quiet (fired : list nat) (c : Client) : Prop :=
  forall ix, ~ pending_ping fired c ix.

(** The text of the login command. *)
Definition login_text (user pass : pystr) : pystr := user ++ 58 :: pass.

(** The client after a login was written to the new transport and the
    keepalive started. *)
Definition logged_in (conn : Transport) (frame : list byte) (c : Client)
  : Client :=
  set_keepalive (Some (length (timers (loop c))))
    (set_loop (call_later 120 CbPingLoop (loop c))
       (set_transport
          (Some (mkTransport (written conn ++ [frame]) (closing conn))) c)).

End WithEnvironment.
End Session.

(** The attributes of a [Model] (model.py) that [get_hls_url] reads
    and writes. *)
Class Attributes {E : Environment} : Type := {
  (** [model.bestsession]. *)
  bestsession : model -> registry -> outcome pyval * registry;
  (** [model.uid]. *)
  model_uid : model -> registry -> outcome pyval * registry;
  (** [model.bestsession.setdefault(key, value)]. *)
  bestsession_setdefault :
    model -> pystr -> pyval -> registry -> outcome pyval * registry
}.

Module Streams.
Import Py Client Text.

(** [STATE.FreeChat], from the header gen_constants.py writes. *)
Definition STATE_FreeChat : Z := 0.

(** What a call of [get_hls_url] comes to, when it raises none of the
    exceptions of the rest of the file: an address, [None], or
    [UnboundLocalError] for a local variable read before it was
    assigned. *)
Inductive hls : Type :=
| Url (u : pystr)
| NoUrl
| Unbound (name : string).

Section WithEnvironment.
Context {K : Constants} {E : Environment} {B : Builtins} {A : Attributes}.

Notation "x <- m ;; k" := (bind m (fun x => k))
  (at level 61, m at next level, right associativity).

(** The argument of [get_hls_url]: an int or a [Model]. *)
Inductive model_arg : Type :=
| ById (uid : Z)
| ByModel (m : model).

(** The address of the newer video servers, as the first [format]
    lays it out. *)
Definition ngvideo_url (videoserv cxid roomId pwd vidctx : pyval)
  (roomprefix : pystr) (phase : pyval) : pystr :=
  str_of "https://" ++ py_str videoserv
  ++ str_of ".myfreecams.com:8444/x-hls/" ++ py_str cxid
  ++ [47] ++ py_str roomId ++ [47] ++ py_str pwd ++ [47] ++ py_str vidctx
  ++ [47] ++ roomprefix ++ [95] ++ py_str phase ++ [95] ++ py_str roomId
  ++ str_of ".m3u8".

(** The address of the older video servers, as the second [format]
    lays it out. *)
Definition nxserver_url (videoserv roomprefix : pystr) (roomId : pyval)
  (nonce : pystr) : pystr :=
  str_of "https://" ++ videoserv
  ++ str_of ".myfreecams.com:443/NxServer/ngrp:" ++ roomprefix
  ++ [95] ++ py_str roomId
  ++ str_of ".f4v_mobile/playlist.m3u8?nc=" ++ nonce.

(** [Client.get_hls_url].  [server_config] is [self.server_config];
    [nonce] is what [str(random.random())] gives in this call.  The
    local [roomprefix] is assigned in the second branch only. *)
Definition get_hls_url (server_config : pyval) (nonce : pystr)
  (arg : model_arg) : M hls :=
  let roomprefix : option pystr := None in
  found <- match arg with
           | ById uid => on_models (get_model (PInt uid) None)
           | ByModel m => ret (Some m)
           end ;;
  match found with
  | None => raise AttributeError
  | Some m =>
      session <- on_models (bestsession m) ;;
      has_camserv <- lift (contains_str (str_of "camserv") session) ;;
      leave <- (if negb has_camserv then ret true
                else if is_none server_config then ret true
                else
                  session <- on_models (bestsession m) ;;
                  vs <- lift (getitem_str session (str_of "vs")) ;;
                  ret (negb (eq_int vs STATE_FreeChat))) ;;
      if leave : bool then ret NoUrl
      else
        session <- on_models (bestsession m) ;;
        camserv <- lift (getitem_str session (str_of "camserv")) ;;
        let camservstr := py_str camserv in
        u <- on_models (model_uid m) ;;
        roomId <- lift (toroomid_val u) ;;
        listed <- lift (contains_str (str_of "ngvideo_servers") server_config) ;;
        newer <- (if listed : bool then
                    servers <- lift (getitem_str server_config
                                       (str_of "ngvideo_servers")) ;;
                    lift (contains_str camservstr servers)
                  else ret false) ;;
        if newer : bool then
          servers <- lift (getitem_str server_config
                             (str_of "ngvideo_servers")) ;;
          videoserv <- lift (getitem_str servers camservstr) ;;
          c <- get ;;
          match roomprefix with
          | None => ret (Unbound "roomprefix")
          | Some prefix =>
              phase <- on_models (bestsession_setdefault m (str_of "phase")
                                    (PStr (str_of "a"))) ;;
              ret (Url (ngvideo_url videoserv (stream_cxid c) roomId
                          (stream_password c) (stream_vidctx c)
                          prefix phase))
          end
        else
          session <- on_models (bestsession m) ;;
          phase <- lift (py_get session (str_of "phase")) ;;
          let roomprefix :=
            if eq_str phase (str_of "a") then str_of "mfc_a" else str_of "mfc" in
          number <- lift (py_sub_int camserv 500) ;;
          let videoserv := str_of "video" ++ py_str number in
          ret (Url (nxserver_url videoserv roomprefix roomId nonce))
  end.

End WithEnvironment.
End Streams.

(** Builtins, attributes and a network for closed examples: the text
    of a float or a container is left empty, a model is its uid and
    its best session is the payload merged for it last, every server
    list is the fetched one and every connection succeeds. *)
Module SampleSession.
Import Wire Py Client.

Definition builtins : Builtins := {| str_other := fun _ => [] |}.

Fixpoint last_merged (m : pyval) (r : list (pyval * pyval)) : pyval :=
  match r with
  | [] => PDict []
  | (m', payload) :: r' =>
      match last_merged m r' with
      | PDict [] => if key_eqb m' m then payload else PDict []
      | found => found
      end
  end.

Definition attributes : @Attributes Sample.environment :=
  {| bestsession := fun (m : @model Sample.environment) r => (Ret (last_merged m r), r);
     model_uid := fun (m : @model Sample.environment) r => (Ret m, r);
     bestsession_setdefault :=
       fun (m : @model Sample.environment) key value r =>
         match last_merged m r with
         | PDict d =>
             (Ret (fst (dict_setdefault d (PStr key) value)),
              r ++ [(m, PDict (snd (dict_setdefault d (PStr key) value)))])
         | _ => (Raise AttributeError, r)
         end |}.

(** A server list with one chat server and one of the newer video
    servers. *)
Definition config : pyval :=
  PDict [(PStr (str_of "chat_servers"), PList [PStr (str_of "xchat20")]);
         (PStr (str_of "ngvideo_servers"),
          PDict [(PStr (str_of "1545"), PStr (str_of "video545"))])].

(** A guest the server has named, logged in, in session 77. *)
Definition guest123 : @Client Sample.environment :=
  set_session_id 77
    (set_username (PStr (str_of "Guest123"))
       (@Session.set__logged_in Sample.environment true Sample.connected)).

(** A client that knows the model 42, in free chat on camserv 1545. *)
Definition watching : @Client Sample.environment :=
  @set_models Sample.environment
    ([(PInt 42, PDict [(PStr (str_of "camserv"), PInt 1545);
                       (PStr (str_of "vs"), PInt 0)])]
     : @registry Sample.environment)
    Sample.connected.

(** A client before its first [connect]. *)
Definition fresh : @Client Sample.environment :=
  @init Sample.environment (PStr (str_of "guest")) (PStr (str_of "guest")) [].

(** A login response that refuses the login. *)
Definition login_refused : Protocol.Frame := Protocol.mkFrame 1 0 0 1 0 [].

(** A login response that names the user 12345: its payload is the
    JSON number. *)
Definition numbered_login : Protocol.Frame :=
  Protocol.mkFrame 1 0 4242 0 555 (map byte_of_Z (str_of "12345")).

(** The text of a roster list with one row, uid 5 of level 4. *)
Definition roster_text : pystr :=
  [123; 34] ++ str_of "rdata" ++ [34; 58; 91; 91; 34] ++ str_of "uid"
  ++ [34; 44; 34] ++ str_of "lv" ++ [34; 93; 44; 91] ++ str_of "5,4"
  ++ [93; 93; 125].

Definition roster : Protocol.Frame :=
  Protocol.mkFrame 14 0 0 0 12 (map byte_of_Z roster_text).

(** What is left of a roster list that was cut after its first number. *)
Definition cut_text : pystr :=
  [123; 34] ++ str_of "rdata" ++ [34; 58; 91; 91] ++ str_of "12345,".

Definition cut_roster : Protocol.Frame :=
  Protocol.mkFrame 14 0 0 0 12 (map byte_of_Z cut_text).

(** A chat text of a thousand opening brackets. *)
Definition deep_text : pystr := repeat 91 1000.

Definition deep_chat : Protocol.Frame :=
  Protocol.mkFrame 50 0 0 0 0 (map byte_of_Z deep_text).

Definition network : Session.Network :=
  {| Session.fetch_servers := Ret config;
     Session.choice := fun seq =>
       match seq with
       | PList (x :: _) => Ret x
       | PList [] => Raise IndexError
       | _ => Raise TypeError
       end;
     Session.create_connection := fun _ _ => Ret (mkTransport [] false) |}.

End SampleSession.


(* ================================================================== *)
(** * Properties *)
(* ================================================================== *)


(** ** Identifier conversions *)

Module IdsFacts.
Import Ids.

Lemma toroomid_small (i : Z) : i < 100000000 -> toroomid i = i + 100000000.
Proof.
  intros H. unfold toroomid.
  destruct (i <? 100000000) eqn:E; [reflexivity | apply Z.ltb_ge in E; lia].
Qed.

Lemma toroomid_large (i : Z) : 100000000 <= i -> toroomid i = i.
Proof.
  intros H. unfold toroomid.
  destruct (i <? 100000000) eqn:E; [apply Z.ltb_lt in E; lia | reflexivity].
Qed.

Lemma touserid_room (r : Z) :
  100000000 <= r < 200000000 -> touserid r = r - 100000000.
Proof.
  intros H. unfold touserid.
  repeat match goal with
         | |- context [?a >=? ?b] =>
             let E := fresh "E" in
             destruct (Z.geb_spec a b) as [E | E]; try lia
         end.
Qed.

(** C10, as stated, fails below zero: the id [-1] (the value the packet
    handler itself tests for) is below 100000000, yet converting it to a
    room id and back gives 99999999, and converting it to a room id
    twice differs from converting it once. *)
Lemma toroomid_negative_id_counterexample :
  -1 < 100000000
  /\ touserid (toroomid (-1)) <> -1
  /\ toroomid (toroomid (-1)) <> toroomid (-1).
Proof.
  split; [reflexivity |].
  split; intros H; vm_compute in H; discriminate H.
Qed.

(** C10, amended: for every non-negative id, if the id is strictly below
    100000000 then [toroomid] adds exactly 100000000 and [touserid]
    applied to the result returns the original id; if the id is at or
    above 100000000 then [toroomid] returns it unchanged; and in both
    cases [toroomid] is idempotent. *)
Theorem toroomid_touserid_nonnegative (i : Z) :
  0 <= i ->
  (i < 100000000 ->
     toroomid i = i + 100000000 /\ touserid (toroomid i) = i)
  /\ (100000000 <= i -> toroomid i = i)
  /\ toroomid (toroomid i) = toroomid i.
Proof.
  intros Hi. split; [| split].
  - intros Hlt. rewrite (toroomid_small Hlt). split; [reflexivity |].
    rewrite touserid_room by lia. lia.
  - apply toroomid_large.
  - destruct (Z.lt_ge_cases i 100000000) as [Hlt | Hge].
    + rewrite (toroomid_small Hlt). apply toroomid_large. lia.
    + rewrite (toroomid_large Hge). apply toroomid_large. exact Hge.
Qed.

Lemma toroomid_touserid_nonnegative_witness :
  0 <= 12345
  /\ ((12345 < 100000000 ->
        toroomid 12345 = 12345 + 100000000 /\ touserid (toroomid 12345) = 12345)
      /\ (100000000 <= 12345 -> toroomid 12345 = 12345)
      /\ toroomid (toroomid 12345) = toroomid 12345).
Proof.
  split; [lia | apply (@toroomid_touserid_nonnegative 12345); lia].
Defined.

End IdsFacts.

(** ** The wire format *)

Module WireFacts.
Import Wire.

Lemma Z_of_byte_range (b : byte) : 0 <= Z_of_byte b < 256.
Proof.
  unfold Z_of_byte. pose proof (Byte.to_N_bounded b). lia.
Qed.

Lemma Z_of_byte_of_Z (z : Z) : Z_of_byte (byte_of_Z z) = z mod 256.
Proof.
  unfold Z_of_byte, byte_of_Z.
  assert (Hr : 0 <= z mod 256 < 256) by (apply Z.mod_pos_bound; lia).
  destruct (Byte.of_N (Z.to_N (z mod 256))) as [b |] eqn:E.
  - apply Byte.to_of_N in E. rewrite E. lia.
  - apply Byte.of_N_None_iff in E. lia.
Qed.

Lemma byte_of_Z_of_byte (b : byte) : byte_of_Z (Z_of_byte b) = b.
Proof.
  unfold byte_of_Z. pose proof (Z_of_byte_range b) as Hr.
  rewrite Z.mod_small by exact Hr.
  unfold Z_of_byte. rewrite N2Z.id, Byte.of_to_N. reflexivity.
Qed.

Lemma lor_shiftl_small (a b k : Z) :
  0 <= k -> 0 <= b < 2 ^ k -> Z.lor (Z.shiftl a k) b = a * 2 ^ k + b.
Proof.
  intros Hk Hb.
  assert (Hland : Z.land (Z.shiftl a k) b = 0).
  { apply Z.bits_inj'. intros n Hn.
    rewrite Z.land_spec, Z.bits_0.
    destruct (Z.lt_ge_cases n k) as [Hlt | Hge].
    - rewrite Z.shiftl_spec_low by exact Hlt. reflexivity.
    - rewrite <- (Z.mod_small b (2 ^ k)) by exact Hb.
      rewrite Z.mod_pow2_bits_high by lia. apply andb_false_r. }
  pose proof (Z.add_lor_land (Z.shiftl a k) b) as H.
  rewrite Hland, Z.shiftl_mul_pow2 in H by exact Hk.
  rewrite Z.shiftl_mul_pow2 by exact Hk. lia.
Qed.

(** The four bytes as one unsigned number. *)
Lemma unpack_i_unsigned (b0 b1 b2 b3 : byte) :
  unpack_i b0 b1 b2 b3 =
  let u := Z_of_byte b0 * 16777216 + Z_of_byte b1 * 65536
           + Z_of_byte b2 * 256 + Z_of_byte b3 in
  if u >=? 2147483648 then u - 4294967296 else u.
Proof.
  unfold unpack_i.
  pose proof (Z_of_byte_range b0). pose proof (Z_of_byte_range b1).
  pose proof (Z_of_byte_range b2). pose proof (Z_of_byte_range b3).
  rewrite (@lor_shiftl_small (Z_of_byte b2) (Z_of_byte b3) 8) by lia.
  rewrite (@lor_shiftl_small (Z_of_byte b1) _ 16) by lia.
  rewrite (@lor_shiftl_small (Z_of_byte b0) _ 24) by lia.
  cbv zeta. change (2 ^ 8) with 256. change (2 ^ 16) with 65536.
  change (2 ^ 24) with 16777216.
  replace (Z_of_byte b0 * 16777216 +
           (Z_of_byte b1 * 65536 + (Z_of_byte b2 * 256 + Z_of_byte b3)))
    with (Z_of_byte b0 * 16777216 + Z_of_byte b1 * 65536
          + Z_of_byte b2 * 256 + Z_of_byte b3) by lia.
  reflexivity.
Qed.

Lemma in_int32_iff (x : Z) :
  in_int32 x = true <-> -2147483648 <= x <= 2147483647.
Proof.
  unfold in_int32, int32_min, int32_max.
  rewrite andb_true_iff, !Z.leb_le. reflexivity.
Qed.

(** [unpack] undoes [pack] on every 32-bit signed integer. *)
Lemma unpack_be32 (x : Z) :
  in_int32 x = true ->
  unpack_i (byte_of_Z (Z.shiftr x 24)) (byte_of_Z (Z.shiftr x 16))
           (byte_of_Z (Z.shiftr x 8)) (byte_of_Z x) = x.
Proof.
  intros Hx.
  rewrite unpack_i_unsigned. cbv zeta.
  rewrite !Z_of_byte_of_Z, !Z.shiftr_div_pow2 by lia.
  change (2 ^ 24) with 16777216. change (2 ^ 16) with 65536.
  change (2 ^ 8) with 256.
  apply in_int32_iff in Hx.
  destruct (Z.geb_spec
              ((x / 16777216) mod 256 * 16777216 + (x / 65536) mod 256 * 65536
               + (x / 256) mod 256 * 256 + x mod 256) 2147483648) as [H | H];
    Z.div_mod_to_equations; lia.
Qed.

Lemma pack_ints_be32 (xs : list Z) :
  forallb in_int32 xs = true -> pack_ints xs = Ret (flat_map be32 xs).
Proof.
  induction xs as [| x xs IH]; simpl; intros H; [reflexivity |].
  apply andb_true_iff in H as [Hx Hxs].
  unfold pack_i. rewrite Hx, (IH Hxs). reflexivity.
Qed.

Lemma flat_map_be32_length (xs : list Z) :
  length (flat_map be32 xs) = (4 * length xs)%nat.
Proof.
  induction xs as [| x xs IH]; simpl; [reflexivity | rewrite IH; lia].
Qed.

Lemma unpack_ints_be32 (xs : list Z) :
  forallb in_int32 xs = true ->
  unpack_ints (length xs) (flat_map be32 xs) = Some xs.
Proof.
  induction xs as [| x xs IH]; simpl; intros H; [reflexivity |].
  apply andb_true_iff in H as [Hx Hxs].
  rewrite (IH Hxs), (@unpack_be32 x Hx). reflexivity.
Qed.

(** ** UTF-8 on ASCII text *)

Lemma utf8_encode_ascii (s : pystr) :
  ascii_text s -> utf8_encode s = Ret (map byte_of_Z s).
Proof.
  induction 1 as [| c s Hc _ IH]; simpl; [reflexivity |].
  rewrite IH. unfold utf8_encode_cp, is_surrogate.
  replace (c <? 0) with false by (symmetry; apply Z.ltb_ge; lia).
  replace (1114111 <? c) with false by (symmetry; apply Z.ltb_ge; lia).
  replace (55296 <=? c) with false by (symmetry; apply Z.leb_gt; lia).
  replace (c <? 128) with true by (symmetry; apply Z.ltb_lt; lia).
  reflexivity.
Qed.

Lemma utf8_decode_aux_ascii (s : pystr) :
  ascii_text s -> utf8_decode_aux (length s) s = Some s.
Proof.
  induction 1 as [| c s Hc _ IH]; simpl; [reflexivity |].
  replace (c <? 128) with true by (symmetry; apply Z.ltb_lt; lia).
  rewrite IH. reflexivity.
Qed.

Lemma utf8_decode_ascii (s : pystr) :
  ascii_text s -> utf8_decode (map byte_of_Z s) = Some s.
Proof.
  intros H. unfold utf8_decode.
  rewrite length_map, map_map.
  replace (map (fun x => Z_of_byte (byte_of_Z x)) s) with s.
  - apply utf8_decode_aux_ascii, H.
  - induction H as [| c s Hc _ IH]; simpl; [reflexivity |].
    rewrite <- IH, Z_of_byte_of_Z, Z.mod_small by lia. reflexivity.
Qed.

End WireFacts.

(** ** The decoder *)

Module ProtocolFacts.
Import Wire Protocol WireFacts.

Section Decoder.
Context {L : Limits}.
Variable C : Type.
Variable handle : Packet -> C -> outcome unit * C.
Variable stop : C -> C.

Local Abbreviation loop := (receive_loop handle stop).
Local Abbreviation hand_over := (Protocol.hand_over handle stop).
Local Abbreviation stalls := (Protocol.stalls handle stop).
Local Abbreviation handed := (Protocol.handed handle stop).

Lemma valid_frame_header (f : Frame) :
  valid_frame f = true -> forallb in_int32 (header_ints f) = true.
Proof.
  unfold valid_frame, header_ints. intros H.
  apply andb_true_iff in H as [H _]. simpl in *. exact H.
Qed.

Lemma valid_frame_text (f : Frame) :
  valid_frame f = true -> exists text, utf8_decode (f_payload f) = Some text.
Proof.
  unfold valid_frame. intros H. apply andb_true_iff in H as [_ H].
  destruct (utf8_decode (f_payload f)) as [t |]; [eauto | discriminate].
Qed.

Lemma frame_bytes_split (f : Frame) :
  frame_bytes f = flat_map be32 (header_ints f) ++ f_payload f.
Proof. reflexivity. Qed.

Lemma header_length (f : Frame) :
  length (flat_map be32 (header_ints f)) = 28%nat.
Proof. rewrite flat_map_be32_length. reflexivity. Qed.

Lemma frame_bytes_length (f : Frame) :
  length (frame_bytes f) = (28 + length (f_payload f))%nat.
Proof.
  rewrite frame_bytes_split, length_app, header_length. reflexivity.
Qed.

(** One turn of the loop, spelled out. *)
Lemma receive_loop_unfold (fuel : nat) (self : MFCProtocol C) :
  loop (S fuel) self =
  let buf := buffer self in
  if Z.of_nat (length buf) <? packet_size then
    Some {| delivered := []; caught := None; after := self |}
  else
    match unpack_ints 7 (firstn (Z.to_nat packet_size) buf) with
    | Some [magic; ftype; from; to; arg1; arg2; spayload] =>
        if negb (magic =? MAGIC) then Some (on_except stop AssertionError self)
        else
          let deliver (smsg : pyval) :=
            let rest := slice_from (packet_size + spayload) buf in
            let p := mkPacket ftype from to arg1 arg2 smsg in
            match handle p (client self) with
            | (Ret _, c') =>
                match loop fuel {| buffer := rest; client := c' |} with
                | Some r =>
                    Some {| delivered := p :: delivered r;
                            caught := caught r;
                            after := after r |}
                | None => None
                end
            | (Raise e, c') =>
                Some {| delivered := [p];
                        caught := Some e;
                        after := {| buffer := rest; client := stop c' |} |}
            end in
          if 0 <? spayload then
            if Z.of_nat (length buf) <? packet_size + spayload then
              Some {| delivered := []; caught := None; after := self |}
            else
              let raw := firstn (Z.to_nat spayload)
                           (skipn (Z.to_nat packet_size) buf) in
              match utf8_decode raw with
              | None => Some (on_except stop UnicodeDecodeError self)
              | Some text =>
                  match Json.loads text with
                  | Json.Parsed v => deliver v
                  | Json.Invalid => deliver (PStr text)
                  | Json.Refused e => Some (on_except stop e self)
                  end
              end
          else deliver PNone
    | _ => Some (on_except stop StructError self)
    end.
Proof. reflexivity. Qed.

Lemma slice_from_app (A : Type) (a b : list A) (k : Z) :
  k = Z.of_nat (length a) -> slice_from k (a ++ b) = b.
Proof.
  intros ->. unfold slice_from.
  replace (Z.of_nat (length a) <? 0) with false by (symmetry; apply Z.ltb_ge; lia).
  rewrite Nat2Z.id, skipn_app, skipn_all, Nat.sub_diag. reflexivity.
Qed.

(** A complete valid frame at the head of the buffer is decoded, removed
    from the buffer and handed to the client, unless [json.loads]
    refuses its payload: then the [except] clause stops the loop and
    the frame stays in the buffer. *)
Lemma receive_frame_any (f : Frame) (rest : list byte) (c : C) (fuel : nat) :
  valid_frame f = true ->
  loop (S fuel) {| buffer := frame_bytes f ++ rest; client := c |} =
  match refusal (f_payload f) with
  | Some e =>
      Some (on_except stop e {| buffer := frame_bytes f ++ rest; client := c |})
  | None => hand_over fuel (packet_of f) rest c
  end.
Proof.
  intros Hv.
  pose proof (valid_frame_header f Hv) as Hh.
  destruct (valid_frame_text f Hv) as [text Ht].
  pose proof (header_length f) as Hhl.
  set (n := length (f_payload f)) in *.
  assert (Hlen : Z.of_nat (length (frame_bytes f ++ rest))
                 = 28 + Z.of_nat n + Z.of_nat (length rest)).
  { rewrite length_app, frame_bytes_length. fold n. lia. }
  assert (Hfirst : firstn 28 (frame_bytes f ++ rest)
                   = flat_map be32 (header_ints f)).
  { rewrite frame_bytes_split, <- app_assoc.
    rewrite <- Hhl at 1. rewrite firstn_app, Nat.sub_diag, firstn_O, app_nil_r.
    apply firstn_all. }
  assert (Hskip : skipn 28 (frame_bytes f ++ rest) = f_payload f ++ rest).
  { rewrite frame_bytes_split, <- app_assoc.
    rewrite <- Hhl at 1. rewrite skipn_app, Nat.sub_diag, skipn_O, skipn_all.
    reflexivity. }
  assert (Hrest : slice_from (28 + Z.of_nat n) (frame_bytes f ++ rest) = rest).
  { apply slice_from_app. rewrite frame_bytes_length. fold n. lia. }
  assert (Hraw : firstn n (f_payload f ++ rest) = f_payload f).
  { unfold n. rewrite firstn_app, Nat.sub_diag, firstn_O, app_nil_r.
    apply firstn_all. }
  rewrite receive_loop_unfold.
  set (buf := frame_bytes f ++ rest) in *.
  cbv zeta. cbn [buffer client]. unfold packet_size.
  change (Z.to_nat 28) with 28%nat.
  rewrite Hlen, Hfirst.
  replace (28 + Z.of_nat n + Z.of_nat (length rest) <? 28)
    with false by (symmetry; apply Z.ltb_ge; lia).
  change (unpack_ints 7) with (unpack_ints (length (header_ints f))).
  rewrite (unpack_ints_be32 _ Hh). unfold header_ints at 1. fold n.
  rewrite Z.eqb_refl. cbn [negb].
  rewrite Hrest, Hskip.
  unfold Protocol.hand_over, packet_of, payload_value, refusal.
  destruct (f_payload f) as [| b0 pl] eqn:Epl.
  - cbn in n. subst n. reflexivity.
  - replace (0 <? Z.of_nat n) with true
      by (symmetry; apply Z.ltb_lt; subst n; simpl; lia).
    replace (28 + Z.of_nat n + Z.of_nat (length rest) <? 28 + Z.of_nat n)
      with false by (symmetry; apply Z.ltb_ge; lia).
    rewrite Nat2Z.id, Hraw, Ht.
    destruct (Json.loads text) as [v | | e]; reflexivity.
Qed.

(** The same, for a frame whose message is built. *)
Lemma receive_frame (f : Frame) (rest : list byte) (c : C) (fuel : nat) :
  valid_frame f = true ->
  refusal (f_payload f) = None ->
  loop (S fuel) {| buffer := frame_bytes f ++ rest; client := c |} =
  hand_over fuel (packet_of f) rest c.
Proof.
  intros Hv Hr. rewrite (receive_frame_any f rest c fuel Hv), Hr. reflexivity.
Qed.

(** ** Buffers that hold no complete frame *)

Lemma receive_short (b : list byte) : (length b < 28)%nat -> stalls b.
Proof.
  intros H c fuel. rewrite receive_loop_unfold. cbv zeta. cbn [buffer].
  unfold packet_size.
  replace (Z.of_nat (length b) <? 28) with true
    by (symmetry; apply Z.ltb_lt; lia).
  reflexivity.
Qed.

Lemma receive_partial (f : Frame) (k : nat) :
  valid_frame f = true ->
  (k < length (frame_bytes f))%nat ->
  stalls (firstn k (frame_bytes f)).
Proof.
  intros Hv Hk.
  destruct (Nat.lt_ge_cases k 28) as [Hlt | Hge].
  - apply receive_short. rewrite length_firstn. lia.
  - intros c fuel.
    pose proof (valid_frame_header f Hv) as Hh.
    pose proof (header_length f) as Hhl.
    pose proof (frame_bytes_length f) as Hfl.
    set (n := length (f_payload f)) in *.
    assert (Hlen : length (firstn k (frame_bytes f)) = k)
      by (rewrite length_firstn; lia).
    assert (Hfirst : firstn 28 (firstn k (frame_bytes f))
                     = flat_map be32 (header_ints f)).
    { rewrite firstn_firstn, Nat.min_l by exact Hge.
      rewrite frame_bytes_split.
      rewrite <- Hhl at 1. rewrite firstn_app, Nat.sub_diag, firstn_O, app_nil_r.
      apply firstn_all. }
    rewrite receive_loop_unfold.
    set (buf := firstn k (frame_bytes f)) in *.
    cbv zeta. cbn [buffer client]. unfold packet_size.
    change (Z.to_nat 28) with 28%nat.
    rewrite Hlen, Hfirst.
    replace (Z.of_nat k <? 28) with false by (symmetry; apply Z.ltb_ge; lia).
    change (unpack_ints 7) with (unpack_ints (length (header_ints f))).
    rewrite (unpack_ints_be32 _ Hh). unfold header_ints at 1. fold n.
    rewrite Z.eqb_refl. cbn [negb].
    replace (0 <? Z.of_nat n) with true by (symmetry; apply Z.ltb_lt; lia).
    replace (Z.of_nat k <? 28 + Z.of_nat n) with true
      by (symmetry; apply Z.ltb_lt; lia).
    reflexivity.
Qed.

(** ** A stream of frames *)

Lemma stream_cons (f : Frame) (fs : list Frame) :
  stream (f :: fs) = frame_bytes f ++ stream fs.
Proof. reflexivity. Qed.

Lemma stream_nil : stream [] = [].
Proof. reflexivity. Qed.

Lemma handed_app (fs1 fs2 : list Frame) (c : C) :
  handed (fs1 ++ fs2) c =
  match handed fs1 c with
  | (ps1, None, c1) =>
      let '(ps2, e, c2) := handed fs2 c1 in (ps1 ++ ps2, e, c2)
  | (ps1, Some e, c1) => (ps1, Some e, c1)
  end.
Proof.
  revert c. induction fs1 as [| f fs1 IH]; intros c; simpl.
  - destruct (handed fs2 c) as [[ps e] c2]. reflexivity.
  - destruct (refusal (f_payload f)) as [e0 |]; [reflexivity |].
    destruct (handle (packet_of f) c) as [[u | e] c']; [| reflexivity].
    rewrite IH. destruct (handed fs1 c') as [[ps1 [e1 |]] c1]; [reflexivity |].
    destruct (handed fs2 c1) as [[ps2 e2] c2]. reflexivity.
Qed.

Lemma handed_no_exception (fs : list Frame) (c : C) :
  snd (fst (handed fs c)) = None -> fst (fst (handed fs c)) = map packet_of fs.
Proof.
  revert c. induction fs as [| f fs IH]; intros c; simpl; [reflexivity |].
  destruct (refusal (f_payload f)) as [e0 |]; [discriminate |].
  destruct (handle (packet_of f) c) as [[u | e] c']; [| discriminate].
  specialize (IH c'). destruct (handed fs c') as [[ps e] c2]. simpl in *.
  intros H. rewrite (IH H). reflexivity.
Qed.

(** A buffer that starts with complete valid frames: they are handed
    over in order, up to the first the client refuses. *)
Lemma receive_frames (fs : list Frame) (tail : list byte) :
  Forall (fun f => valid_frame f = true) fs ->
  stalls tail ->
  forall (c : C) (fuel : nat),
    (length fs < fuel)%nat ->
    exists r,
      loop fuel {| buffer := stream fs ++ tail; client := c |} = Some r
      /\ agrees r (handed fs c)
      /\ (caught r = None -> buffer (after r) = tail).
Proof.
  intros Hv Ht. induction Hv as [| f fs Hf _ IH]; intros c fuel Hfuel.
  - destruct fuel as [| fuel]; [inversion Hfuel |].
    rewrite stream_nil. cbn [app]. rewrite Ht.
    eexists. split; [reflexivity |].
    split; [repeat split | reflexivity].
  - destruct fuel as [| fuel]; [inversion Hfuel |].
    rewrite stream_cons, <- app_assoc.
    rewrite (@receive_frame_any f (stream fs ++ tail) c fuel Hf).
    unfold Protocol.hand_over.
    cbn [handed].
    destruct (refusal (f_payload f)) as [e0 |].
    { eexists. split; [reflexivity |].
      split; [repeat split | simpl; discriminate]. }
    destruct (handle (packet_of f) c) as [[u | e] c'].
    + destruct (IH c' fuel) as (r & Hr & (Hd & Hc & Hcl) & Hb);
        [simpl in Hfuel; lia |].
      rewrite Hr. eexists. split; [reflexivity |].
      destruct (handed fs c') as [[ps e] c2] eqn:Eh. simpl in *.
      split; [unfold agrees; simpl; repeat split; congruence | exact Hb].
    + eexists. split; [reflexivity |].
      split; [repeat split | simpl; discriminate].
Qed.

(** ** Streams cut into chunks *)

Lemma frame_bytes_nonempty (f : Frame) : (0 < length (frame_bytes f))%nat.
Proof. rewrite frame_bytes_length. lia. Qed.

Lemma pending_stalls (b : list byte) (fs : list Frame) :
  Forall (fun f => valid_frame f = true) fs -> pending b fs -> stalls b.
Proof.
  intros Hv [-> | (f & fs' & -> & Hlt & ->)].
  - apply receive_short. simpl. lia.
  - inversion Hv; subst. apply receive_partial; assumption.
Qed.

Lemma prefix_firstn (A : Type) (a b c d : list A) :
  a ++ b = c ++ d -> (length a <= length c)%nat -> a = firstn (length a) c.
Proof.
  intros H Hle.
  assert (E : firstn (length a) (a ++ b) = firstn (length a) (c ++ d))
    by (rewrite H; reflexivity).
  rewrite !firstn_app, Nat.sub_diag, firstn_O, app_nil_r, firstn_all in E.
  replace (length a - length c)%nat with 0%nat in E by lia.
  rewrite firstn_O, app_nil_r in E. exact E.
Qed.

Lemma split_stream (fs : list Frame) :
  forall p q : list byte,
    p ++ q = stream fs ->
    exists fs1 fs2 b,
      fs = fs1 ++ fs2 /\ p = stream fs1 ++ b /\ b ++ q = stream fs2
      /\ pending b fs2.
Proof.
  induction fs as [| f fs IH]; intros p q H.
  - apply app_eq_nil in H as [-> ->].
    exists [], [], [].
    split; [reflexivity | split; [reflexivity | split; [reflexivity |]]].
    left. reflexivity.
  - rewrite stream_cons in H.
    destruct (Nat.lt_ge_cases (length p) (length (frame_bytes f))) as [Hlt | Hge].
    + exists [], (f :: fs), p.
      split; [reflexivity | split; [reflexivity | split; [exact H |]]].
      right. exists f, fs.
      split; [reflexivity | split; [exact Hlt |]].
      apply (@prefix_firstn byte p q (frame_bytes f) (stream fs) H). lia.
    + assert (Hp : p = frame_bytes f ++ skipn (length (frame_bytes f)) p).
      { rewrite (@prefix_firstn byte (frame_bytes f) (stream fs) p q (eq_sym H) Hge)
          at 1.
        symmetry. apply firstn_skipn. }
      set (p' := skipn (length (frame_bytes f)) p) in *.
      assert (Hq : p' ++ q = stream fs).
      { rewrite Hp, <- app_assoc in H. apply app_inv_head in H. exact H. }
      destruct (IH p' q Hq) as (fs1 & fs2 & b & -> & Hp' & Hb & Hpend).
      exists (f :: fs1), fs2, b.
      split; [reflexivity | split; [| split; assumption]].
      rewrite Hp, Hp', stream_cons, app_assoc. reflexivity.
Qed.

Lemma pending_whole (b : list byte) (fs : list Frame) :
  pending b fs -> b = stream fs -> fs = [] /\ b = [].
Proof.
  intros [-> | (f & fs' & -> & Hlt & _)] H.
  - destruct fs as [| f fs]; [split; reflexivity |].
    exfalso. pose proof (frame_bytes_nonempty f) as Hn.
    rewrite stream_cons in H.
    apply (f_equal (@length byte)) in H. rewrite length_app in H.
    simpl in H. lia.
  - exfalso. rewrite stream_cons in H.
    apply (f_equal (@length byte)) in H. rewrite length_app in H. lia.
Qed.

(** Whatever the chunks, the loop hands over the messages of the
    stream, in order, up to the first the client refuses. *)
Lemma feed_stream (fuel : nat) (chunks : list (list byte)) :
  forall (fs : list Frame) (b : list byte) (c : C),
    Forall (fun f => valid_frame f = true) fs ->
    (length fs < fuel)%nat ->
    b ++ concat chunks = stream fs ->
    pending b fs ->
    exists r,
      feed handle stop fuel chunks {| buffer := b; client := c |} = Some r
      /\ agrees r (handed fs c)
      /\ (caught r = None -> buffer (after r) = []).
Proof.
  induction chunks as [| d chunks IH]; intros fs b c Hv Hfuel Hcat Hpend.
  - simpl in Hcat. rewrite app_nil_r in Hcat.
    destruct (pending_whole Hpend Hcat) as [-> ->].
    simpl. eexists. split; [reflexivity |].
    split; [repeat split | reflexivity].
  - simpl in Hcat. rewrite app_assoc in Hcat.
    destruct (split_stream fs _ _ Hcat) as (fs1 & fs2 & b' & -> & Hbd & Hb' & Hp').
    apply Forall_app in Hv as [Hv1 Hv2].
    rewrite length_app in Hfuel.
    destruct (@receive_frames fs1 b' Hv1 (pending_stalls Hv2 Hp') c fuel)
      as (r1 & Hr1 & (Hd1 & Hc1 & Hcl1) & Hb1); [lia |].
    cbn [feed]. unfold data_received. cbn [buffer client].
    rewrite Hbd, Hr1. rewrite handed_app.
    destruct (handed fs1 c) as [[ps1 e1] c1]. simpl in Hd1, Hc1, Hcl1.
    rewrite Hc1. destruct e1 as [e1 |].
    + eexists. split; [reflexivity |].
      split; [repeat split; assumption | rewrite Hc1; discriminate].
    + specialize (Hb1 Hc1).
      destruct (after r1) as [buf1 cl1] eqn:Eafter. simpl in Hb1, Hcl1. subst.
      destruct (IH fs2 b' c1 Hv2) as (r2 & Hr2 & (Hd2 & Hc2 & Hcl2) & Hb2);
        [lia | exact Hb' | exact Hp' |].
      rewrite Hr2. eexists. split; [reflexivity |].
      destruct (handed fs2 c1) as [[ps2 e2] c2] eqn:Eh2. simpl in *.
      split; [unfold agrees; simpl; repeat split; congruence | exact Hb2].
Qed.

Lemma concat_singletons (A : Type) (l : list A) :
  concat (map (fun x => [x]) l) = l.
Proof. induction l as [| x l IH]; simpl; [| rewrite IH]; reflexivity. Qed.

(** C2: for every stream that is a concatenation of valid frames, the
    call that is given the whole stream and the calls that are given it
    one byte at a time hand the same messages to the client, in the same
    order (with the same exception, if the client refuses one, and the
    same client afterwards); when no exception ends them, these are the
    messages of all the frames and both leave the same protocol object.
    And a buffer shorter than a header, or holding the beginning of a
    valid frame and not all of it, hands nothing over and is kept as it
    is. *)
Theorem bytewise_same_as_whole (fs : list Frame) (c : C) (fuel : nat) :
  Forall (fun f => valid_frame f = true) fs ->
  (length fs < fuel)%nat ->
  (exists whole bytewise,
      data_received handle stop fuel (stream fs)
        {| buffer := []; client := c |} = Some whole
      /\ feed handle stop fuel (map (fun b => [b]) (stream fs))
           {| buffer := []; client := c |} = Some bytewise
      /\ delivered bytewise = delivered whole
      /\ caught bytewise = caught whole
      /\ client (after bytewise) = client (after whole)
      /\ (caught whole = None ->
          delivered whole = map packet_of fs /\ after bytewise = after whole))
  /\ (forall (b : list byte) (c' : C) (fuel' : nat),
        ((length b < 28)%nat
         \/ exists f k, valid_frame f = true
                        /\ (k < length (frame_bytes f))%nat
                        /\ b = firstn k (frame_bytes f)) ->
        data_received handle stop (S fuel') b {| buffer := []; client := c' |}
        = Some {| delivered := []; caught := None;
                  after := {| buffer := b; client := c' |} |}).
Proof.
  intros Hv Hfuel. split.
  - assert (Hnil : stalls []) by (apply receive_short; simpl; lia).
    destruct (@receive_frames fs [] Hv Hnil c fuel Hfuel)
      as (whole & Hw & (Hwd & Hwc & Hwl) & Hwb).
    destruct (@feed_stream fuel (map (fun b => [b]) (stream fs)) fs [] c Hv Hfuel)
      as (bytewise & Hb & (Hbd & Hbc & Hbl) & Hbb).
    { rewrite concat_singletons. reflexivity. }
    { left. reflexivity. }
    exists whole, bytewise.
    unfold data_received. cbn [buffer client app].
    rewrite app_nil_r in Hw.
    split; [exact Hw |]. split; [exact Hb |].
    split; [congruence |]. split; [congruence |]. split; [congruence |].
    intros Hnone. split.
    + rewrite Hwd. apply handed_no_exception. rewrite <- Hwc. exact Hnone.
    + destruct (after whole) as [bw cw], (after bytewise) as [bb cb].
      simpl in *. rewrite (Hwb Hnone), Hbb by congruence. congruence.
  - intros b c' fuel' H. unfold data_received. cbn [buffer client app].
    destruct H as [H | (f & k & Hf & Hk & ->)].
    + apply receive_short, H.
    + apply receive_partial; assumption.
Qed.

(** The fallback of the decoder: for every valid frame with a non-empty
    payload whose bytes are the UTF-8 encoding of a text on which
    [json.loads] raises [JSONDecodeError], the decoder builds the packet
    with that very text as payload and hands it to the client; when the
    client returns, the loop goes on with the bytes after the frame,
    and when the client raises on the text, the call ends there. *)
Lemma invalid_json_kept_as_text
  (f : Frame) (text : pystr) (rest : list byte) (c : C) (fuel : nat) :
  valid_frame f = true ->
  f_payload f <> [] ->
  utf8_decode (f_payload f) = Some text ->
  Json.loads text = Json.Invalid ->
  let p := mkPacket (f_kind f) (f_from f) (f_to f) (f_arg1 f) (f_arg2 f)
                    (PStr text) in
  (forall u c', handle p c = (Ret u, c') ->
     data_received handle stop (S fuel) (frame_bytes f ++ rest)
       {| buffer := []; client := c |}
     = match loop fuel {| buffer := rest; client := c' |} with
       | Some r => Some {| delivered := p :: delivered r;
                           caught := caught r;
                           after := after r |}
       | None => None
       end)
  /\ (forall e c', handle p c = (Raise e, c') ->
        data_received handle stop (S fuel) (frame_bytes f ++ rest)
          {| buffer := []; client := c |}
        = Some {| delivered := [p]; caught := Some e;
                  after := {| buffer := rest; client := stop c' |} |}).
Proof.
  intros Hv Hne Ht Hj p.
  assert (Hp : packet_of f = p).
  { unfold packet_of, p, payload_value.
    destruct (f_payload f) as [| b0 pl] eqn:E; [congruence |].
    rewrite Ht, Hj. reflexivity. }
  assert (Hr : refusal (f_payload f) = None).
  { unfold refusal. destruct (f_payload f) as [| b0 pl] eqn:E; [reflexivity |].
    rewrite Ht, Hj. reflexivity. }
  unfold data_received. cbn [buffer client app].
  rewrite (@receive_frame f rest c fuel Hv Hr), Hp. unfold Protocol.hand_over.
  split; [intros u c' -> | intros e c' ->]; reflexivity.
Qed.



End Decoder.

#[local] Existing Instance Sample.limits.

Lemma sample_frame_valid :
  Forall (fun f => valid_frame f = true)
    [mkFrame 1 0 4242 0 555 (map byte_of_Z (str_of "alice"))].
Proof. repeat constructor. Qed.

Lemma bytewise_same_as_whole_witness :
  Forall (fun f => valid_frame f = true)
    [mkFrame 1 0 4242 0 555 (map byte_of_Z (str_of "alice"))]
  /\ (1 < 2)%nat
  /\ exists whole bytewise,
       data_received recorder_handle (fun l => l) 2
         (stream [mkFrame 1 0 4242 0 555 (map byte_of_Z (str_of "alice"))])
         {| buffer := []; client := [] |} = Some whole
       /\ feed recorder_handle (fun l => l) 2
            (map (fun b => [b])
               (stream [mkFrame 1 0 4242 0 555 (map byte_of_Z (str_of "alice"))]))
            {| buffer := []; client := [] |} = Some bytewise
       /\ delivered bytewise = delivered whole.
Proof.
  split; [exact sample_frame_valid |].
  split; [lia |].
  destruct (@bytewise_same_as_whole Sample.limits (list Packet) recorder_handle
              (fun l => l)
              [mkFrame 1 0 4242 0 555 (map byte_of_Z (str_of "alice"))] [] 2
              sample_frame_valid ltac:(simpl; lia))
    as [(whole & bytewise & Hw & Hb & Hd & _) _].
  exists whole, bytewise. split; [exact Hw |]. split; [exact Hb | exact Hd].
Defined.

Lemma invalid_json_kept_as_text_example :
  valid_frame (mkFrame 64 0 0 0 0 (map byte_of_Z (str_of "[1234, 5")))
  = true
  /\ map byte_of_Z (str_of "[1234, 5") <> []
  /\ utf8_decode (map byte_of_Z (str_of "[1234, 5"))
     = Some (str_of "[1234, 5")
  /\ Json.loads (str_of "[1234, 5") = Json.Invalid
  /\ data_received recorder_handle (fun l => l) 2
       (frame_bytes (mkFrame 64 0 0 0 0 (map byte_of_Z (str_of "[1234, 5")))
        ++ [])
       {| buffer := []; client := [] |}
     = Some {| delivered := [mkPacket 64 0 0 0 0 (PStr (str_of "[1234, 5"))];
               caught := None;
               after := {| buffer := [];
                           client := [mkPacket 64 0 0 0 0
                                        (PStr (str_of "[1234, 5"))] |} |}.
Proof.
  assert (H1 : valid_frame
                 (mkFrame 64 0 0 0 0 (map byte_of_Z (str_of "[1234, 5")))
               = true) by reflexivity.
  assert (H2 : map byte_of_Z (str_of "[1234, 5") <> []) by discriminate.
  assert (H3 : utf8_decode (map byte_of_Z (str_of "[1234, 5"))
               = Some (str_of "[1234, 5")) by reflexivity.
  assert (H4 : Json.loads (str_of "[1234, 5") = Json.Invalid) by reflexivity.
  split; [exact H1 |]. split; [exact H2 |]. split; [exact H3 |].
  split; [exact H4 |].
  destruct (@invalid_json_kept_as_text Sample.limits (list Packet)
              recorder_handle (fun l => l)
              (mkFrame 64 0 0 0 0 (map byte_of_Z (str_of "[1234, 5")))
              (str_of "[1234, 5") [] [] 1 H1 H2 H3 H4) as [Hret _].
  rewrite (Hret tt _ eq_refl). reflexivity.
Defined.

End ProtocolFacts.

(** ** Sending and receiving *)

Module CodecFacts.
Import Wire Protocol WireFacts ProtocolFacts Client.

Section WithEnvironment.
Context {L : Limits} {E : Environment}.

Lemma pack_s_exact (b : list byte) : pack_s (length b) b = b.
Proof.
  unfold pack_s. rewrite firstn_all, Nat.sub_diag. apply app_nil_r.
Qed.

(** What [tx_cmd] writes for an ASCII text: the frame whose payload is
    the text, byte for character. *)
Lemma tx_cmd_ascii (c : Client) (t : Transport) (ft to a1 a2 : Z) (text : pystr) :
  transport c = Some t ->
  forallb in_int32 [ft; session_id c; to; a1; a2; Z.of_nat (length text)] = true ->
  ascii_text text ->
  tx_cmd (Member ft) to a1 a2 (PStr text) c =
  (Ret tt,
   set_transport
     (Some (mkTransport
              (written t ++
               [frame_bytes (mkFrame ft (session_id c) to a1 a2
                               (map byte_of_Z text))])
              (closing t))) c).
Proof.
  intros Ht Hr Ha.
  unfold tx_cmd, bind, lift, get, transport_write. cbn [Py.is_none py_len py_encode].
  rewrite (utf8_encode_ascii Ha).
  rewrite (@pack_ints_be32 [MAGIC; ft; session_id c; to; a1; a2;
                            Z.of_nat (length text)]) by exact Hr.
  unfold bind, get, modify. rewrite Ht.
  rewrite <- (length_map byte_of_Z text) at 2. rewrite pack_s_exact.
  unfold frame_bytes. cbn [f_kind f_from f_to f_arg1 f_arg2 f_payload].
  rewrite length_map. reflexivity.
Qed.

Lemma ascii_frame_valid (ft from to a1 a2 : Z) (text : pystr) :
  forallb in_int32 [ft; from; to; a1; a2; Z.of_nat (length text)] = true ->
  ascii_text text ->
  valid_frame (mkFrame ft from to a1 a2 (map byte_of_Z text)) = true.
Proof.
  intros Hr Ha. unfold valid_frame.
  cbn [f_kind f_from f_to f_arg1 f_arg2 f_payload].
  rewrite length_map, Hr, (utf8_decode_ascii Ha). reflexivity.
Qed.

Lemma payload_value_ascii (text : pystr) :
  ascii_text text -> payload_value (map byte_of_Z text) = echoed text.
Proof.
  intros Ha. destruct text as [| c0 text]; [reflexivity |].
  unfold payload_value, echoed.
  change (map byte_of_Z (c0 :: text)) with (byte_of_Z c0 :: map byte_of_Z text).
  change (byte_of_Z c0 :: map byte_of_Z text) with (map byte_of_Z (c0 :: text)).
  rewrite (utf8_decode_ascii Ha). reflexivity.
Qed.

Lemma refusal_ascii (text : pystr) :
  ascii_text text -> refusal (map byte_of_Z text) = unechoed text.
Proof.
  intros Ha. destruct text as [| c0 text]; [reflexivity |].
  unfold refusal, unechoed.
  change (map byte_of_Z (c0 :: text)) with (byte_of_Z c0 :: map byte_of_Z text).
  change (byte_of_Z c0 :: map byte_of_Z text) with (map byte_of_Z (c0 :: text)).
  rewrite (utf8_decode_ascii Ha). reflexivity.
Qed.

(** C1, amended: for every kind, to, arg1 and arg2 that fit 32 bits and
    every ASCII text on which [json.loads] raises nothing but
    [JSONDecodeError], [tx_cmd] on an open connection writes one frame
    of 28 bytes plus one byte per character (a null payload is sent as
    the empty text: 28 bytes, length field 0), and the decoder given
    these bytes hands the client exactly one message: same kind, to,
    arg1 and arg2, the sender's session id as from, and as payload
    nothing for the empty text, the parsed value for a text that is
    valid JSON, the same text for one on which [json.loads] raises
    [JSONDecodeError]. *)
Theorem tx_cmd_data_received_roundtrip
  (sender : Client) (t : Transport) (ft to a1 a2 : Z) (text : pystr) :
  transport sender = Some t ->
  forallb in_int32 [ft; session_id sender; to; a1; a2;
                    Z.of_nat (length text)] = true ->
  ascii_text text ->
  unechoed text = None ->
  exists data,
    tx_cmd (Member ft) to a1 a2 (PStr text) sender =
      (Ret tt,
       set_transport (Some (mkTransport (written t ++ [data]) (closing t)))
                     sender)
    /\ length data = (28 + length text)%nat
    /\ (text = [] ->
        tx_cmd (Member ft) to a1 a2 PNone sender =
        tx_cmd (Member ft) to a1 a2 (PStr text) sender)
    /\ (forall (C : Type) (handle : Packet -> C -> outcome unit * C)
               (stop : C -> C) (receiver : C) (fuel : nat),
           exists r,
             Protocol.data_received handle stop (S (S fuel)) data
               {| buffer := []; client := receiver |} = Some r
             /\ delivered r =
                [mkPacket ft (session_id sender) to a1 a2 (echoed text)]
             /\ buffer (after r) = [])
    /\ (forall v, text <> [] -> Json.loads text = Json.Parsed v ->
        echoed text = v)
    /\ (text <> [] -> Json.loads text = Json.Invalid -> echoed text = PStr text).
Proof.
  intros Ht Hr Ha Hu.
  set (f := mkFrame ft (session_id sender) to a1 a2 (map byte_of_Z text)).
  exists (frame_bytes f).
  split; [apply tx_cmd_ascii; assumption |].
  split; [rewrite frame_bytes_length; unfold f; cbn [f_payload];
          rewrite length_map; reflexivity |].
  split; [intros ->; reflexivity |].
  split.
  - intros C handle stop receiver fuel.
    pose proof (ascii_frame_valid _ _ _ _ _ Hr Ha) as Hv. fold f in Hv.
    unfold Protocol.data_received. cbn [buffer client app].
    rewrite <- (app_nil_r (frame_bytes f)).
    rewrite (@receive_frame L C handle stop f [] receiver (S fuel) Hv)
      by (unfold f; cbn [f_payload]; rewrite (refusal_ascii Ha); exact Hu).
    unfold hand_over, packet_of, f.
    cbn [f_kind f_from f_to f_arg1 f_arg2 f_payload].
    rewrite (payload_value_ascii Ha).
    destruct (handle _ receiver) as [[u | e] c'].
    + rewrite (@receive_short L C handle stop [] ltac:(simpl; lia) c' fuel).
      eexists. split; [reflexivity |]. split; reflexivity.
    + eexists. split; [reflexivity |]. split; reflexivity.
  - split.
    + intros v Hne Hj. destruct text as [| c0 text]; [congruence |].
      unfold echoed. rewrite Hj. reflexivity.
    + intros Hne Hj. destruct text as [| c0 text]; [congruence |].
      unfold echoed. rewrite Hj. reflexivity.
Qed.

End WithEnvironment.

#[local] Existing Instance Sample.limits.

(** C1, as stated, fails for a text that is itself valid JSON: the chat
    text [1] is sent as one byte of payload and comes back as the
    number 1, which is not the text. *)
Lemma tx_cmd_json_text_counterexample :
  exists data c',
    tx_cmd (Member (@FCTYPE_CMESG Sample.constants)) 100000001 0 0
           (PStr (str_of "1")) Sample.connected = (Ret tt, c')
    /\ transport c' = Some (mkTransport [data] false)
    /\ option_map (@delivered _)
         (Protocol.data_received recorder_handle (fun l => l) 2 data
            {| buffer := []; client := [] |})
       = Some [mkPacket (@FCTYPE_CMESG Sample.constants) 0 100000001 0 0 (PInt 1)]
    /\ PInt 1 <> PStr (str_of "1").
Proof.
  eexists. eexists.
  split; [reflexivity |]. split; [reflexivity |].
  split; [reflexivity | discriminate].
Qed.

(** What [tx_cmd] does with a text outside ASCII: [len] counts
    characters, the payload is cut to that many bytes, and the receiver
    is left with half a character. *)
Example tx_cmd_non_ascii_text :
  exists data c',
    tx_cmd (Member (@FCTYPE_CMESG Sample.constants)) 100000001 0 0
           (PStr [233]) Sample.connected = (Ret tt, c')
    /\ transport c' = Some (mkTransport [data] false)
    /\ length data = 29%nat
    /\ option_map (fun r => (delivered r, caught r))
         (Protocol.data_received recorder_handle (fun l => l) 2 data
            {| buffer := []; client := [] |})
       = Some ([], Some UnicodeDecodeError).
Proof.
  eexists. eexists.
  split; [reflexivity |]. split; [reflexivity |].
  split; reflexivity.
Qed.

Lemma tx_cmd_data_received_roundtrip_witness :
  transport Sample.connected = Some (mkTransport [] false)
  /\ forallb in_int32 [1; session_id Sample.connected; 0; 20071025; 0;
                       Z.of_nat (length (str_of "guest:guest"))] = true
  /\ ascii_text (str_of "guest:guest")
  /\ unechoed (str_of "guest:guest") = None
  /\ exists data,
       tx_cmd (Member 1) 0 20071025 0 (PStr (str_of "guest:guest"))
              Sample.connected
       = (Ret tt, set_transport (Some (mkTransport [data] false)) Sample.connected)
       /\ length data = 39%nat.
Proof.
  assert (H1 : transport Sample.connected = Some (mkTransport [] false))
    by reflexivity.
  assert (H2 : forallb in_int32 [1; session_id Sample.connected; 0; 20071025; 0;
                                 Z.of_nat (length (str_of "guest:guest"))] = true)
    by reflexivity.
  assert (H3 : ascii_text (str_of "guest:guest"))
    by (repeat constructor; simpl; lia).
  assert (H4 : unechoed (str_of "guest:guest") = None) by reflexivity.
  split; [exact H1 |]. split; [exact H2 |]. split; [exact H3 |].
  split; [exact H4 |].
  destruct (@tx_cmd_data_received_roundtrip Sample.limits Sample.environment
              Sample.connected _ 1 0 20071025 0
              (str_of "guest:guest") H1 H2 H3 H4) as (data & Htx & Hlen & _).
  exists data. split; [exact Htx | exact Hlen].
Defined.

End CodecFacts.

(** ** The client behind the decoder *)

Module ClientFacts.
Import Wire Protocol WireFacts ProtocolFacts Client.

Section WithEnvironment.
Context {Lim : Limits} {K : Constants} {E : Environment}.


(** ** Login *)

Lemma process_login_failed
  (reinject : Packet -> M unit) (p : Packet) (c : Client) :
  fctype p = FCTYPE_LOGIN -> narg1 p <> 0 ->
  _process_packet reinject p c = (Raise (Exception "Login failed"), c).
Proof.
  intros Hk Ha. unfold _process_packet. cbv zeta.
  rewrite Hk, Z.eqb_refl.
  destruct (Z.eqb_spec (narg1 p) 0) as [Hz | Hz]; [contradiction | reflexivity].
Qed.

(** C3, amended: handling the login response with arg1 = 0, to = 4242,
    arg2 = 555 and payload [alice] sets the session id to 4242, the
    user id to 555 and the username to [alice]; and for every login
    response with arg1 other than 0 the login is treated as a failure:
    [_process_packet] raises [Exception("Login failed")] and changes
    nothing in the client (session id, user id and username stay as
    they were), [handle_packet_received] raises the same without
    emitting anything, and the decoder that received the frame catches
    the exception and stops the event loop: the call of [data_received]
    returns, so the exception reaches no caller, and no [connect] call
    fails by it. *)
Theorem login_response (c : Client) (from : Z) :
  (forall reinject,
      let p := mkPacket FCTYPE_LOGIN from 4242 0 555 (PStr (str_of "alice")) in
      exists c',
        _process_packet reinject p c = (Ret p, c')
        /\ session_id c' = 4242
        /\ uid c' = Some 555
        /\ username c' = PStr (str_of "alice"))
  /\ (forall p : Packet,
         fctype p = FCTYPE_LOGIN -> narg1 p <> 0 ->
         (forall reinject,
             _process_packet reinject p c = (Raise (Exception "Login failed"), c))
         /\ (forall depth,
                handle_packet_received (S depth) p c
                = (Raise (Exception "Login failed"), c)))
  /\ (forall (f : Frame) (rest : list byte) (depth fuel : nat),
         valid_frame f = true ->
         refusal (f_payload f) = None ->
         f_kind f = FCTYPE_LOGIN -> f_arg1 f <> 0 ->
         Client.data_received (S depth) (S fuel) (frame_bytes f ++ rest)
           {| buffer := []; client := c |}
         = Some {| delivered := [packet_of f];
                   caught := Some (Exception "Login failed");
                   after := {| buffer := rest; client := loop_stop c |} |}).
Proof.
  split; [| split].
  - intros reinject p. unfold _process_packet, p. cbv zeta.
    cbn [fctype narg1 nto narg2 smessage].
    rewrite Z.eqb_refl. cbn [Z.eqb negb].
    eexists. split; [reflexivity |]. repeat split.
  - intros p Hk Ha. split.
    + intros reinject. apply process_login_failed; assumption.
    + intros depth. cbn [handle_packet_received]. unfold bind at 1.
      rewrite process_login_failed by assumption. reflexivity.
  - intros f rest depth fuel Hv Hr Hk Ha.
    unfold Client.data_received, Protocol.data_received.
    cbn [buffer client app].
    rewrite (@receive_frame Lim Client (handle_packet_received (S depth)) loop_stop
               f rest c fuel Hv Hr).
    unfold hand_over. cbn [handle_packet_received]. unfold bind at 1.
    rewrite process_login_failed by assumption. reflexivity.
Qed.

(** ** Invariants of methods *)

Section Preservation.
Variable I : Client -> Prop.

Lemma preserves_ret (A : Type) (a : A) : preserves I (ret a).
Proof. intros c H. exact H. Qed.

Lemma preserves_raise (A : Type) (e : exn) : preserves I (@raise _ A e).
Proof. intros c H. exact H. Qed.

Lemma preserves_lift (A : Type) (o : outcome A) : preserves I (lift o).
Proof. intros c H. exact H. Qed.

Lemma preserves_bind (A B : Type) (m : M A) (k : A -> M B) :
  preserves I m -> (forall a, preserves I (k a)) -> preserves I (bind m k).
Proof.
  intros Hm Hk c H. unfold bind. specialize (Hm c H).
  destruct (m c) as [[a | e] c']; simpl in *; [apply Hk, Hm | exact Hm].
Qed.

Lemma preserves_get_bind (B : Type) (k : Client -> M B) :
  (forall c0, I c0 -> preserves I (k c0)) -> preserves I (bind get k).
Proof. intros Hk c H. unfold bind, get. apply Hk; exact H. Qed.

Lemma preserves_modify (f : Client -> Client) :
  (forall c, I c -> I (f c)) -> preserves I (modify f).
Proof. intros Hf c H. apply Hf, H. Qed.

Lemma preserves_on_models (A : Type) (f : registry -> outcome A * registry) :
  (forall c r, I c -> I (set_models r c)) -> preserves I (on_models f).
Proof.
  intros Hf c H. unfold on_models.
  destruct (f (models c)) as [o r]. apply Hf, H.
Qed.

Lemma preserves_for_each (A : Type) (body : A -> M unit) (l : list A) :
  (forall x, preserves I (body x)) -> preserves I (for_each body l).
Proof.
  intros Hb. induction l as [| x l IH]; simpl.
  - apply preserves_ret.
  - apply preserves_bind; [apply Hb | intros _; exact IH].
Qed.

End Preservation.

(** Walks through a method, statement by statement; [side] settles
    what an assignment does to the invariant. *)
Ltac walk_with special side :=
  repeat first
    [ progress special
    | match goal with
      | |- preserves _ (ret _) => apply preserves_ret
      | |- preserves _ (raise _) => apply preserves_raise
      | |- preserves _ (lift _) => apply preserves_lift
      | |- preserves _ (bind get _) => apply preserves_get_bind; intros ? ?
      | |- preserves _ (bind _ _) => apply preserves_bind; [| intros ?]
      | |- preserves _ (modify _) => apply preserves_modify; solve [side]
      | |- preserves _ (on_models _) => apply preserves_on_models; solve [side]
      | |- preserves _ (for_each _ _) => apply preserves_for_each; intros ?
      | |- preserves _ (if ?b then _ else _) => destruct b
      | |- preserves _ (match ?x with _ => _ end) => destruct x
      end ].

Ltac walk side := walk_with ltac:(fail) side.

(** ** Teardown and pending queries *)

Lemma emit_without_packet_keeps_queries
  (F : list future) (L : list (Z * listener)) (kind : Z) :
  preserves (queries_are F L) (emit kind None).
Proof.
  unfold emit.
  walk ltac:(intros; match goal with H : queries_are _ _ _ |- _ =>
                         destruct H; split; assumption end).
  unfold handler. apply preserves_raise.
Qed.

Lemma handle_disconnected_keeps_queries
  (F : list future) (L : list (Z * listener)) :
  preserves (queries_are F L) handle_disconnected.
Proof.
  unfold handle_disconnected.
  walk ltac:(intros; match goal with H : queries_are _ _ _ |- _ =>
                         destruct H; split; assumption end);
    apply emit_without_packet_keeps_queries.
Qed.

(** C5, amended: when the connection is torn down with N pending user
    queries outstanding, [handle_disconnected] fails none of them and
    resolves none of them: the futures are exactly what they were, so
    the N pending ones stay pending, and the handlers of the queries
    stay registered. *)
Theorem teardown_leaves_queries_pending (c : Client) :
  futures (snd (handle_disconnected c)) = futures c
  /\ listeners (snd (handle_disconnected c)) = listeners c
  /\ pending_futures (snd (handle_disconnected c)) = pending_futures c.
Proof.
  destruct (@handle_disconnected_keeps_queries (futures c) (listeners c) c)
    as [HF HL]; [split; reflexivity |].
  split; [exact HF |]. split; [exact HL |].
  unfold pending_futures. rewrite HF. reflexivity.
Qed.

(** ** The bulk list events *)

Ltac loaded_side :=
  intros; match goal with H : loaded _ _ _ |- _ =>
            destruct H; split; assumption end.


Lemma count_emitted_other (kind : Z) (arg : option Packet) (c : Client) :
  kind <> FCTYPE_CLIENT_MODELSLOADED \/ arg <> None ->
  count_emitted FCTYPE_CLIENT_MODELSLOADED
    (set_emitted (emitted c ++ [(kind, arg)]) c)
  = count_emitted FCTYPE_CLIENT_MODELSLOADED c.
Proof.
  intros H. unfold count_emitted. cbn [emitted set_emitted].
  rewrite filter_app, length_app. cbn [filter fst snd].
  destruct (Z.eqb_spec kind FCTYPE_CLIENT_MODELSLOADED) as [Hk | Hk];
    destruct arg as [p |]; cbn [andb length]; try lia.
  destruct H as [H | H]; congruence.
Qed.

Lemma count_emitted_fired (c : Client) :
  count_emitted FCTYPE_CLIENT_MODELSLOADED
    (set_emitted (emitted c ++ [(FCTYPE_CLIENT_MODELSLOADED, None)]) c)
  = S (count_emitted FCTYPE_CLIENT_MODELSLOADED c).
Proof.
  unfold count_emitted. cbn [emitted set_emitted].
  rewrite filter_app, length_app. cbn. lia.
Qed.

Lemma handler_keeps_loaded (b : bool) (n : nat) (h : listener) (arg : option Packet) :
  preserves (loaded b n) (handler h arg).
Proof.
  unfold handler, remove_listener, set_result. walk loaded_side.
Qed.

Lemma handlers_keep_loaded (b : bool) (n : nat) (kind : Z) (arg : option Packet) :
  preserves (loaded b n)
    (bind get (fun c =>
       for_each (fun h => handler h arg)
         (map snd (filter (fun kl => fst kl =? kind) (listeners c))))).
Proof.
  walk loaded_side. apply handler_keeps_loaded.
Qed.

Lemma emit_keeps_loaded (b : bool) (n : nat) (kind : Z) (arg : option Packet) :
  kind <> FCTYPE_CLIENT_MODELSLOADED \/ arg <> None ->
  preserves (loaded b n) (emit kind arg).
Proof.
  intros H. unfold emit. apply preserves_bind.
  - apply preserves_modify. intros c [Hb Hn]. split; [exact Hb |].
    rewrite count_emitted_other by exact H. exact Hn.
  - intros _. apply handlers_keep_loaded.
Qed.

Lemma merge_model_keeps_loaded (b : bool) (n : nat) (u : pyval) (cr : option bool)
  (payload : pyval) :
  preserves (loaded b n) (merge_model u cr payload).
Proof. unfold merge_model. walk loaded_side. Qed.

Lemma merge_model_tags_keeps_loaded (b : bool) (n : nat) (u tags : pyval) :
  preserves (loaded b n) (merge_model_tags u tags).
Proof. unfold merge_model_tags. walk loaded_side. Qed.

Lemma merge_row_keeps_loaded (b : bool) (n : nat) (payload : pyval) :
  preserves (loaded b n) (merge_row payload).
Proof.
  unfold merge_row. walk loaded_side. apply merge_model_keeps_loaded.
Qed.

Lemma handle_extdata_keeps_loaded (b : bool) (n : nat)
  (reinject : Packet -> M unit) (extdata : pyval) :
  (forall p, preserves (loaded b n) (reinject p)) ->
  preserves (loaded b n) (_handle_extdata reinject extdata).
Proof.
  intros Hr. unfold _handle_extdata. cbv zeta. walk loaded_side. apply Hr.
Qed.

(** Once the flag is set, no packet makes [_process_packet] emit the
    roster event again. *)
Lemma process_packet_keeps_loaded (n : nat)
  (reinject : Packet -> M unit) (p : Packet) :
  (forall q, preserves (loaded true n) (reinject q)) ->
  preserves (loaded true n) (_process_packet reinject p).
Proof.
  intros Hr. unfold _process_packet. cbv zeta.
  walk_with
    ltac:(idtac;
          match goal with
          | H : loaded true _ ?c
            |- preserves _ (if _ && negb (_completed_models ?c) then _ else _) =>
              let Hb := fresh in destruct H as [Hb _]; rewrite Hb, andb_false_r
          | |- preserves _ (merge_model _ _ _) => apply merge_model_keeps_loaded
          | |- preserves _ (merge_row _) => apply merge_row_keeps_loaded
          | |- preserves _ (merge_bookmark _) =>
              unfold merge_bookmark
          | |- preserves _ (merge_tag_entry _) => unfold merge_tag_entry
          | |- preserves _ (merge_tag_row _) => unfold merge_tag_row
          | |- preserves _ (merge_model_tags _ _) =>
              apply merge_model_tags_keeps_loaded
          | |- preserves _ (_handle_extdata _ _) =>
              apply handle_extdata_keeps_loaded; exact Hr
          | |- preserves _ (emit FCTYPE_CLIENT_TAGSLOADED None) =>
              apply emit_keeps_loaded; left; discriminate
          end)
    loaded_side.
Qed.

Lemma handle_packet_received_keeps_loaded (n : nat) (depth : nat) :
  forall p, preserves (loaded true n) (handle_packet_received depth p).
Proof.
  induction depth as [| depth IH]; intros p; cbn [handle_packet_received].
  - apply preserves_raise.
  - apply preserves_bind; [apply process_packet_keeps_loaded, IH |].
    intros q. apply preserves_bind.
    + apply emit_keeps_loaded. right. discriminate.
    + intros _. apply emit_keeps_loaded. right. discriminate.
Qed.

Lemma bind_ret_inv (A B : Type) (m : M A) (k : A -> M B)
  (c c' : Client) (b : B) :
  bind m k c = (Ret b, c') ->
  exists a c1, m c = (Ret a, c1) /\ k a c1 = (Ret b, c').
Proof.
  unfold bind. destruct (m c) as [[a | e] c1]; [eauto | discriminate].
Qed.

Lemma preserves_at (I : Client -> Prop) (A : Type) (m : M A)
  (c c' : Client) (o : outcome A) :
  preserves I m -> I c -> m c = (o, c') -> I c'.
Proof. intros Hm Hc H. specialize (Hm c Hc). rewrite H in Hm. exact Hm. Qed.

Lemma eqb_false_of_not_in (x y : Z) (l : list Z) :
  ~ In x l -> In y l -> (x =? y) = false.
Proof. intros Hn Hy. apply Z.eqb_neq. intros ->. contradiction. Qed.

Lemma member_false_of_not_in (x : Z) (l l' : list Z) :
  ~ In x l -> incl l' l -> member x l' = false.
Proof.
  intros Hn Hi. unfold member.
  destruct (existsb (Z.eqb x) l') eqn:Ex; [| reflexivity].
  apply existsb_exists in Ex as (y & Hy & Hxy).
  apply Z.eqb_eq in Hxy. subst y. exfalso. apply Hn, Hi, Hy.
Qed.

(** What [_process_packet] comes to on a roster list. *)
Lemma process_roster (reinject : Packet -> M unit) (p : Packet)
  (d : Py.dict) (data : pyval) (rows : list pyval) (c : Client) :
  ~ In FCTYPE_MANAGELIST earlier_kinds ->
  0 < FCL_CAMS ->
  fctype p = FCTYPE_MANAGELIST ->
  narg2 p = FCL_CAMS ->
  smessage p = PDict d ->
  Py.dict_get d (PStr (str_of "rdata")) = Some data ->
  ListSchema._process_list data = Ret (PList rows) ->
  _process_packet reinject p c =
  bind (for_each merge_row rows)
    (fun _ =>
       bind get (fun c0 =>
         if negb (_completed_models c0) then
           bind (modify (set__completed_models true))
             (fun _ => bind (emit FCTYPE_CLIENT_MODELSLOADED None)
                         (fun _ => ret p))
         else ret p)) c.
Proof.
  intros Hd Hpos Hk Ha Hs Hg Hl.
  unfold _process_packet. cbv zeta. rewrite Hk, Ha, Hs.
  rewrite (@eqb_false_of_not_in _ FCTYPE_LOGIN _ Hd) by (left; reflexivity).
  rewrite (@member_false_of_not_in _ _ detail_kinds Hd)
    by (intros x Hx; right; apply in_or_app; left; exact Hx).
  rewrite (@eqb_false_of_not_in _ FCTYPE_TAGS _ Hd)
    by (right; apply in_or_app; right; simpl; tauto).
  rewrite (@eqb_false_of_not_in _ FCTYPE_BOOKMARKS _ Hd)
    by (right; apply in_or_app; right; simpl; tauto).
  rewrite (@eqb_false_of_not_in _ FCTYPE_METRICS _ Hd)
    by (right; apply in_or_app; right; simpl; tauto).
  rewrite (@eqb_false_of_not_in _ FCTYPE_EXTDATA _ Hd)
    by (right; apply in_or_app; right; simpl; tauto).
  rewrite Z.eqb_refl.
  replace (0 <? FCL_CAMS) with true by (symmetry; apply Z.ltb_lt; exact Hpos).
  unfold Py.contains_str, Py.getitem_str, Py.dict_mem. rewrite Hg.
  unfold bind at 1. unfold lift at 1. cbn beta iota.
  unfold bind at 1. unfold lift at 1. cbn beta iota.
  unfold bind at 1. unfold lift at 1. rewrite Hl. cbn beta iota.
  unfold member. cbn [existsb]. rewrite Z.eqb_refl, orb_true_r. cbn [orb andb].
  reflexivity.
Qed.

(** A roster list that is handled without exception while the flag is
    down raises the flag and emits the event, once. *)
Lemma roster_fires (p : Packet) (d : Py.dict) (data : pyval) (rows : list pyval)
  (depth : nat) (n : nat) (c c' : Client) :
  ~ In FCTYPE_MANAGELIST earlier_kinds ->
  0 < FCL_CAMS ->
  fctype p = FCTYPE_MANAGELIST ->
  narg2 p = FCL_CAMS ->
  smessage p = PDict d ->
  Py.dict_get d (PStr (str_of "rdata")) = Some data ->
  ListSchema._process_list data = Ret (PList rows) ->
  loaded false n c ->
  handle_packet_received (S depth) p c = (Ret tt, c') ->
  loaded true (S n) c'.
Proof.
  intros Hd Hpos Hk Ha Hs Hg Hl Hc H.
  cbn [handle_packet_received] in H.
  apply bind_ret_inv in H as (q & c1 & Hp & He).
  rewrite (@process_roster _ p d data rows c Hd Hpos Hk Ha Hs Hg Hl) in Hp.
  apply bind_ret_inv in Hp as (u & c2 & Hm & Hp).
  assert (Hc2 : loaded false n c2).
  { eapply preserves_at; [| exact Hc | exact Hm].
    apply preserves_for_each. intros x. apply merge_row_keeps_loaded. }
  unfold bind at 1 in Hp. unfold get at 1 in Hp.
  destruct Hc2 as [Hb2 Hn2]. rewrite Hb2 in Hp. cbn [negb] in Hp.
  apply bind_ret_inv in Hp as (u1 & c3 & Hf & Hp).
  unfold modify in Hf. injection Hf as _ <-.
  apply bind_ret_inv in Hp as (u2 & c4 & Hemit & Hp).
  assert (Hc4 : loaded true (S n) c4).
  { unfold emit in Hemit.
    apply bind_ret_inv in Hemit as (u3 & c5 & Hap & Hh).
    unfold modify in Hap. injection Hap as _ <-.
    eapply preserves_at;
      [apply (@handlers_keep_loaded true (S n)) | | exact Hh].
    split; [reflexivity |].
    etransitivity;
      [apply (count_emitted_fired (set__completed_models true c2)) |].
    f_equal. exact Hn2. }
  unfold ret in Hp. injection Hp as <- <-.
  eapply preserves_at; [| exact Hc4 | exact He].
  apply preserves_bind; [| intros _]; apply emit_keeps_loaded;
    right; discriminate.
Qed.

Ltac flags_side :=
  intros; match goal with H : flags_down _ |- _ =>
            destruct H; split; assumption end.

Lemma emit_without_packet_keeps_flags (kind : Z) :
  preserves flags_down (emit kind None).
Proof.
  unfold emit. walk flags_side. unfold handler. apply preserves_raise.
Qed.

Lemma snd_bind_modify (B : Type) (f : Client -> Client) (k : unit -> M B)
  (c : Client) :
  snd (bind (modify f) k c) = snd (k tt (f c)).
Proof. reflexivity. Qed.

Lemma snd_bind_get (B : Type) (k : Client -> M B) (c : Client) :
  snd (bind get k c) = snd (k c c).
Proof. reflexivity. Qed.

Lemma snd_bind_ret (A B : Type) (a : A) (k : A -> M B) (c : Client) :
  snd (bind (ret a) k c) = snd (k a c).
Proof. reflexivity. Qed.

Lemma snd_bind_lift (A B : Type) (a : A) (k : A -> M B) (c : Client) :
  snd (bind (lift (Ret a)) k c) = snd (k a c).
Proof. reflexivity. Qed.

Lemma snd_bind_bind (A B D : Type) (m : M A) (k1 : A -> M B) (k2 : B -> M D)
  (c : Client) :
  snd (bind (bind m k1) k2 c) = snd (bind m (fun a => bind (k1 a) k2) c).
Proof.
  unfold bind. destruct (m c) as [[a | e] c1]; reflexivity.
Qed.

(** The teardown lowers both flags, the username being a str whenever
    the guest test looks into it. *)
Lemma handle_disconnected_resets (c : Client) :
  (Py.eq_str (password c) (str_of "guest") = true ->
   Py.is_str (username c) = true) ->
  flags_down (snd (handle_disconnected c)).
Proof.
  intros Hu.
  assert (Htail : forall c0,
             flags_down c0 ->
             flags_down
               (snd (bind (emit FCTYPE_CLIENT_DISCONNECTED None)
                          (fun _ => on_models reset) c0))).
  { intros c0 H0.
    apply (@preserves_bind flags_down _ _ _ _
             (emit_without_packet_keeps_flags FCTYPE_CLIENT_DISCONNECTED));
      [| exact H0].
    intros _. apply preserves_on_models. flags_side. }
  unfold handle_disconnected. rewrite snd_bind_get.
  assert (Hrest : forall c1,
             password c1 = password c -> username c1 = username c ->
             flags_down
               (snd (bind get
                  (fun c0 : Client =>
                   bind
                     (if Py.eq_str (password c0) (str_of "guest")
                      then lift (py_startswith (username c0) (str_of "Guest"))
                      else ret false)
                     (fun guest : bool =>
                      bind
                        (if guest
                         then modify (set_username (PStr (str_of "guest")))
                         else ret tt)
                        (fun _ : unit =>
                         bind (modify (set__completed_models false))
                           (fun _ : unit =>
                            bind (modify (set__completed_tags false))
                              (fun _ : unit =>
                               bind get
                                 (fun c2 : Client =>
                                  bind
                                    (if negb (_manual_disconnect c2)
                                     then
                                      bind
                                        (modify
                                           (fun c3 : Client =>
                                            set_printed
                                              (printed c3 ++
                                               ["Disconnected from MyFreeCams.  Reconnecting in 30 seconds..."%string])
                                              c3))
                                        (fun _ : unit =>
                                         modify
                                           (fun c3 : Client =>
                                            set_loop
                                              (call_later 30 CbReconnect (loop c3))
                                              c3))
                                     else modify loop_stop)
                                    (fun _ : unit =>
                                     bind (modify (set__manual_disconnect false))
                                       (fun _ : unit =>
                                        bind
                                          (emit FCTYPE_CLIENT_DISCONNECTED None)
                                          (fun _ : unit => on_models reset)))))))))
                  c1))).
  { intros c1 Hp Hn. rewrite snd_bind_get, Hp, Hn.
    assert (Hflags : forall c2,
               flags_down
                 (snd (bind (modify (set__completed_models false))
                   (fun _ : unit =>
                    bind (modify (set__completed_tags false))
                      (fun _ : unit =>
                       bind get
                         (fun c3 : Client =>
                          bind
                            (if negb (_manual_disconnect c3)
                             then
                              bind
                                (modify
                                   (fun c4 : Client =>
                                    set_printed
                                      (printed c4 ++
                                       ["Disconnected from MyFreeCams.  Reconnecting in 30 seconds..."%string])
                                      c4))
                                (fun _ : unit =>
                                 modify
                                   (fun c4 : Client =>
                                    set_loop
                                      (call_later 30 CbReconnect (loop c4))
                                      c4))
                             else modify loop_stop)
                            (fun _ : unit =>
                             bind (modify (set__manual_disconnect false))
                               (fun _ : unit =>
                                bind
                                  (emit FCTYPE_CLIENT_DISCONNECTED None)
                                  (fun _ : unit => on_models reset)))))) c2))).
    { intros c2. rewrite !snd_bind_modify, snd_bind_get.
      destruct (negb (_manual_disconnect
                        (set__completed_tags false
                           (set__completed_models false c2)))).
      - rewrite snd_bind_bind, !snd_bind_modify. apply Htail.
        split; reflexivity.
      - rewrite !snd_bind_modify. apply Htail. split; reflexivity. }
    destruct (Py.eq_str (password c) (str_of "guest")) eqn:Hg.
    - specialize (Hu eq_refl).
      destruct (username c) as [| | | | u | |]; try discriminate Hu.
      cbn [py_startswith]. rewrite snd_bind_lift.
      destruct (Py.is_prefix (str_of "Guest") u).
      + rewrite snd_bind_modify. apply Hflags.
      + rewrite snd_bind_ret. apply Hflags.
    - rewrite !snd_bind_ret. apply Hflags. }
  destruct (keepalive c) as [ix |].
  - rewrite snd_bind_bind, !snd_bind_modify. apply Hrest; reflexivity.
  - rewrite snd_bind_ret. apply Hrest; reflexivity.
Qed.

(** Within one connection the roster event fires once.  While the
    flag is down, a roster list (a [MANAGELIST] message of type [CAMS]
    whose payload holds a list under [rdata]) that is handled without
    exception raises the flag and emits [CLIENT_MODELSLOADED], once;
    while the flag is up, no message whatever, roster list or not,
    emits it again or lowers the flag; and the teardown lowers this flag
    and the flag of the tag list, so that the next connection can fire
    again, where its guest test does not raise: where the user name is
    a [str] whenever the password is [guest]. *)
Lemma models_loaded_fires_once (c : Client) :
  (forall (p : Packet) (d : Py.dict) (data : pyval) (rows : list pyval)
          (depth : nat) (c' : Client),
      ~ In FCTYPE_MANAGELIST earlier_kinds ->
      0 < FCL_CAMS ->
      fctype p = FCTYPE_MANAGELIST ->
      narg2 p = FCL_CAMS ->
      smessage p = PDict d ->
      Py.dict_get d (PStr (str_of "rdata")) = Some data ->
      ListSchema._process_list data = Ret (PList rows) ->
      _completed_models c = false ->
      handle_packet_received (S depth) p c = (Ret tt, c') ->
      _completed_models c' = true
      /\ count_emitted FCTYPE_CLIENT_MODELSLOADED c'
         = S (count_emitted FCTYPE_CLIENT_MODELSLOADED c))
  /\ (forall (p : Packet) (depth : nat),
         _completed_models c = true ->
         _completed_models (snd (handle_packet_received depth p c)) = true
         /\ count_emitted FCTYPE_CLIENT_MODELSLOADED
              (snd (handle_packet_received depth p c))
            = count_emitted FCTYPE_CLIENT_MODELSLOADED c)
  /\ ((Py.eq_str (password c) (str_of "guest") = true ->
       Py.is_str (username c) = true) ->
      _completed_models (snd (handle_disconnected c)) = false
      /\ _completed_tags (snd (handle_disconnected c)) = false).
Proof.
  split; [| split].
  - intros p d data rows depth c' Hd Hpos Hk Ha Hs Hg Hl Hf H.
    apply (@roster_fires p d data rows depth _ c c' Hd Hpos Hk Ha Hs Hg Hl);
      [split; [exact Hf | reflexivity] | exact H].
  - intros p depth Hf.
    apply (@handle_packet_received_keeps_loaded _ depth p c).
    split; [exact Hf | reflexivity].
  - apply handle_disconnected_resets.
Qed.

End WithEnvironment.



(** C5, as stated, fails: a client with two user queries outstanding
    is torn down; afterwards both futures are still pending and none
    has failed, and both handlers are still registered. *)
Lemma teardown_with_two_queries_counterexample :
  exists c2 c3,
    snd (@query_user Sample.constants Sample.environment (PInt 12345)
           (snd (@query_user Sample.constants Sample.environment
                   (PStr (str_of "alice")) Sample.connected))) = c2
    /\ pending_futures c2 = [0; 1]%nat
    /\ snd (@handle_disconnected Sample.constants Sample.environment c2) = c3
    /\ futures c3 = [Pending; Pending]
    /\ pending_futures c3 = [0; 1]%nat
    /\ length (listeners c3) = 2%nat.
Proof.
  eexists. eexists. split; [reflexivity |]. split; [reflexivity |].
  split; [reflexivity |]. split; [reflexivity |]. split; reflexivity.
Qed.

Lemma models_loaded_fires_once_example :
  exists c1 c2 c3,
    @handle_packet_received Sample.constants Sample.environment 1
      (mkPacket 14 0 0 0 12
         (PDict [(PStr (str_of "rdata"),
                  PList [PList [PStr (str_of "uid"); PStr (str_of "lv")];
                         PList [PInt 5; PInt 4]])]))
      Sample.connected = (Ret tt, c1)
    /\ _completed_models c1 = true
    /\ count_emitted FCTYPE_CLIENT_MODELSLOADED c1 = 1%nat
    /\ c2 = snd (@handle_packet_received Sample.constants Sample.environment 1
                   (mkPacket 14 0 0 0 12
                      (PDict [(PStr (str_of "rdata"),
                               PList [PList [PStr (str_of "uid");
                                             PStr (str_of "lv")];
                                      PList [PInt 6; PInt 4]])]))
                   c1)
    /\ count_emitted FCTYPE_CLIENT_MODELSLOADED c2 = 1%nat
    /\ c3 = snd (@handle_disconnected Sample.constants Sample.environment c2)
    /\ _completed_models c3 = false.
Proof.
  set (p := mkPacket 14 0 0 0 12
              (PDict [(PStr (str_of "rdata"),
                       PList [PList [PStr (str_of "uid"); PStr (str_of "lv")];
                              PList [PInt 5; PInt 4]])])).
  set (q := mkPacket 14 0 0 0 12
              (PDict [(PStr (str_of "rdata"),
                       PList [PList [PStr (str_of "uid"); PStr (str_of "lv")];
                              PList [PInt 6; PInt 4]])])).
  destruct (@handle_packet_received Sample.constants Sample.environment 1 p
              Sample.connected) as [o c1] eqn:H1.
  assert (Ho : o = Ret tt) by (vm_compute in H1; congruence).
  subst o.
  destruct (@models_loaded_fires_once Sample.constants Sample.environment
              Sample.connected) as (Hfire & _ & _).
  destruct (Hfire p
              [(PStr (str_of "rdata"),
                PList [PList [PStr (str_of "uid"); PStr (str_of "lv")];
                       PList [PInt 5; PInt 4]])]
              (PList [PList [PStr (str_of "uid"); PStr (str_of "lv")];
                      PList [PInt 5; PInt 4]])
              [PDict [(PStr (str_of "uid"), PInt 5);
                      (PStr (str_of "lv"), PInt 4)]] 0%nat c1)
    as [Hflag Hcount];
    try reflexivity; try exact H1.
  { vm_compute. intuition discriminate. }
  destruct (@models_loaded_fires_once Sample.constants Sample.environment c1)
    as (_ & Hkeep & Hreset).
  destruct (Hkeep q 1%nat Hflag) as [Hflag2 Hcount2].
  set (c2 := snd (@handle_packet_received Sample.constants Sample.environment 1
                    q c1)) in *.
  destruct (@models_loaded_fires_once Sample.constants Sample.environment c2)
    as (_ & _ & Hreset2).
  assert (Hpw : password c2 = PStr (str_of "guest") /\
                username c2 = PStr (str_of "guest")).
  { unfold c2.
    assert (E1 : c1 = snd (@handle_packet_received Sample.constants
                             Sample.environment 1 p Sample.connected))
      by (rewrite H1; reflexivity).
    rewrite E1. vm_compute. split; reflexivity. }
  destruct Hpw as [Hpw Hun].
  destruct Hreset2 as [Hdown _]; [intros _; rewrite Hun; reflexivity |].
  exists c1, c2, (snd (@handle_disconnected Sample.constants Sample.environment c2)).
  split; [reflexivity |]. split; [exact Hflag |].
  split; [rewrite Hcount; reflexivity |]. split; [reflexivity |].
  split; [rewrite Hcount2, Hcount; reflexivity |].
  split; [reflexivity | exact Hdown].
Defined.

Lemma login_response_witness :
  fctype (mkPacket 1 0 0 1 0 PNone) = @FCTYPE_LOGIN Sample.constants
  /\ narg1 (mkPacket 1 0 0 1 0 PNone) <> 0
  /\ @handle_packet_received Sample.constants Sample.environment 1
       (mkPacket 1 0 0 1 0 PNone) Sample.connected
     = (Raise (Exception "Login failed"), Sample.connected).
Proof.
  assert (H1 : fctype (mkPacket 1 0 0 1 0 PNone) = @FCTYPE_LOGIN Sample.constants)
    by reflexivity.
  assert (H2 : narg1 (mkPacket 1 0 0 1 0 PNone) <> 0) by discriminate.
  split; [exact H1 |]. split; [exact H2 |].
  destruct (@login_response Sample.limits Sample.constants Sample.environment
              Sample.connected 0) as (_ & Hfail & _).
  destruct (Hfail (mkPacket 1 0 0 1 0 PNone) H1 H2) as [_ Hh].
  exact (Hh 0%nat).
Defined.

(** C3, as stated, fails: the login response cannot fail the connect
    call.  A new client connects and logs in: [connect] returns, the
    login command written and [CLIENT_CONNECTED] handed to [call_soon].
    Only then can the response arrive; with arg1 = 1 it is refused
    inside [data_received], whose [except] clause stops the event
    loop; the call of [connect] has not failed. *)
Lemma login_failure_after_connect_counterexample :
  exists c1 r,
    @Session.connect Sample.constants Sample.environment SampleSession.builtins
      SampleSession.network true SampleSession.config SampleSession.fresh
    = (Ret [Session.SoonEmit FCTYPE_CLIENT_CONNECTED], c1)
    /\ option_map (fun t => length (written t)) (transport c1) = Some 1%nat
    /\ @Client.data_received Sample.limits Sample.constants Sample.environment
         1 1 (frame_bytes SampleSession.login_refused)
         {| buffer := []; client := c1 |} = Some r
    /\ caught r = Some (Exception "Login failed")
    /\ stopped (loop (client (after r))) = true
    /\ ~ Session.failed
          (fst (@Session.connect Sample.constants Sample.environment
                  SampleSession.builtins SampleSession.network true
                  SampleSession.config SampleSession.fresh)).
Proof.
  eexists. eexists.
  split; [reflexivity |]. split; [reflexivity |]. split; [reflexivity |].
  split; [reflexivity |]. split; [reflexivity |].
  intros [e He]. discriminate He.
Qed.

(** C7 fails on the code.  A roster list that was cut after its first
    number is text on which [json.loads] raises [JSONDecodeError]; the
    decoder keeps the text as payload, and the client, finding [rdata]
    in the text, indexes the text with it: [TypeError], and the
    [except] clause stops the event loop.  And on a text of a thousand
    opening brackets [json.loads] raises [RecursionError], which the
    inner [except] does not catch: no message is built, the frame stays
    in the buffer and the event loop is stopped. *)
Theorem invalid_json_ends_the_session :
  utf8_decode (f_payload SampleSession.cut_roster)
  = Some SampleSession.cut_text
  /\ @Json.loads Sample.limits SampleSession.cut_text = Json.Invalid
  /\ @Client.data_received Sample.limits Sample.constants Sample.environment
       1 1 (frame_bytes SampleSession.cut_roster)
       {| buffer := []; client := Sample.connected |}
     = Some {| delivered := [mkPacket 14 0 0 0 12 (PStr SampleSession.cut_text)];
               caught := Some TypeError;
               after := {| buffer := [];
                           client := loop_stop Sample.connected |} |}
  /\ stopped (loop (loop_stop Sample.connected)) = true
  /\ utf8_decode (f_payload SampleSession.deep_chat)
     = Some SampleSession.deep_text
  /\ @Json.loads Sample.limits SampleSession.deep_text
     = Json.Refused RecursionError
  /\ @Client.data_received Sample.limits Sample.constants Sample.environment
       1 1 (frame_bytes SampleSession.deep_chat)
       {| buffer := []; client := Sample.connected |}
     = Some {| delivered := [];
               caught := Some RecursionError;
               after := {| buffer := frame_bytes SampleSession.deep_chat;
                           client := loop_stop Sample.connected |} |}.
Proof.
  split; [vm_compute; reflexivity |]. split; [vm_compute; reflexivity |].
  split; [vm_compute; reflexivity |]. split; [reflexivity |].
  split; [vm_compute; reflexivity |]. split; [vm_compute; reflexivity |].
  vm_compute. reflexivity.
Qed.

(** C9 fails on the code.  A guest whose login response names it by a
    number has that number as user name; the roster arrives and
    [CLIENT_MODELSLOADED] fires.  When the connection is lost,
    [handle_disconnected] raises [AttributeError] at the guest test,
    before it lowers the flags: both stay as they were, and the roster
    of a later connection fires nothing. *)
Theorem numbered_guest_keeps_the_flags :
  exists r c2 c3,
    @Client.data_received Sample.limits Sample.constants Sample.environment
      2 3 (stream [SampleSession.numbered_login; SampleSession.roster])
      {| buffer := []; client := Sample.connected |} = Some r
    /\ caught r = None
    /\ length (delivered r) = 2%nat
    /\ username (client (after r)) = PInt 12345
    /\ password (client (after r)) = PStr (str_of "guest")
    /\ _completed_models (client (after r)) = true
    /\ count_emitted FCTYPE_CLIENT_MODELSLOADED (client (after r)) = 1%nat
    /\ @handle_disconnected Sample.constants Sample.environment
         (client (after r)) = (Raise AttributeError, c2)
    /\ _completed_models c2 = true
    /\ _completed_tags c2 = _completed_tags (client (after r))
    /\ @handle_packet_received Sample.constants Sample.environment 1
         (@packet_of Sample.limits SampleSession.roster) c2 = (Ret tt, c3)
    /\ count_emitted FCTYPE_CLIENT_MODELSLOADED c3 = 1%nat.
Proof.
  eexists. eexists. eexists.
  split; [vm_compute; reflexivity |].
  split; [reflexivity |]. split; [reflexivity |]. split; [reflexivity |].
  split; [reflexivity |]. split; [reflexivity |]. split; [reflexivity |].
  split; [vm_compute; reflexivity |].
  split; [reflexivity |]. split; [reflexivity |].
  split; [vm_compute; reflexivity |].
  reflexivity.
Qed.

End ClientFacts.

(** ** The list decoder *)

Module ListSchemaFacts.
Import Py ListSchema.

(** *** Dicts whose keys are strs *)

Lemma pystr_eqb_eq (a b : pystr) : pystr_eqb a b = true <-> a = b.
Proof.
  revert b. induction a as [| x a IH]; intros [| y b]; simpl;
    try (split; [discriminate | discriminate]); [tauto |].
  rewrite andb_true_iff, Z.eqb_eq, IH. split.
  - intros [-> ->]. reflexivity.
  - intros H. injection H as -> ->. tauto.
Qed.


Lemma pystr_eqb_neq (a b : pystr) : a <> b -> pystr_eqb a b = false.
Proof.
  intros H. destruct (pystr_eqb a b) eqn:E; [| reflexivity].
  apply pystr_eqb_eq in E. contradiction.
Qed.




(** *** Slots *)







(** *** Schemas and rows *)






End ListSchemaFacts.

(** ** Query ids *)

Module QueryIdsFacts.
Import QueryIds.

Lemma increasing_snoc (l : list Z) (x : Z) :
  increasing l -> Forall (fun y => y < x) l -> increasing (l ++ [x]).
Proof.
  induction l as [| a l IH]; simpl; intros Hi Hb.
  - split; constructor.
  - destruct Hi as [Ha Hl]. inversion Hb as [| ? ? Hax Hlx]; subst.
    split; [| apply IH; assumption].
    apply Forall_app. split; [exact Ha | constructor; [exact Hax | constructor]].
Qed.

Lemma increasing_nth (l : list Z) :
  increasing l ->
  forall i j a b,
    (i < j)%nat -> nth_error l i = Some a -> nth_error l j = Some b -> a < b.
Proof.
  induction l as [| x l IH]; simpl; intros Hl i j a b Hij Hi Hj.
  - destruct i; discriminate Hi.
  - destruct Hl as [Hx Hl]. destruct j as [| j]; [lia |].
    destruct i as [| i].
    + injection Hi as <-. simpl in Hj.
      apply nth_error_In in Hj.
      exact (proj1 (Forall_forall _ _) Hx _ Hj).
    + simpl in Hi, Hj. apply (IH Hl i j); [lia | assumption | assumption].
Qed.

Lemma invariant_initial : invariant initial.
Proof.
  split; simpl.
  - exact I.
  - constructor.
  - intros u. left. reflexivity.
  - intros t H. discriminate H.
Qed.

Lemma update_same (f : nat -> thread) (t : nat) (th : thread) :
  update f t th t = th.
Proof. unfold update. rewrite Nat.eqb_refl. reflexivity. Qed.

Lemma update_other (f : nat -> thread) (t u : nat) (th : thread) :
  u <> t -> update f t th u = f u.
Proof.
  intros H. unfold update.
  destruct (Nat.eqb_spec u t) as [E | E]; [contradiction | reflexivity].
Qed.

Lemma invariant_step (t : nat) (s : state) :
  invariant s -> invariant (step t s).
Proof.
  intros [Hinc Hb Hlock Hld]. unfold step.
  destruct (at_pc (threads s t)) eqn:Epc.
  - (* waiting for, or taking, the lock *)
    destruct (lock_owner s) as [o |] eqn:Eo.
    + split; rewrite ?Eo; assumption.
    + assert (Hall : forall u, at_pc (threads s u) = Outside).
      { intros u. destruct (Hlock u) as [H | H]; [exact H | discriminate H]. }
      split; cbn [allocated userQueryId lock_owner threads].
      * exact Hinc.
      * unfold bound in *. cbn [lock_owner threads userQueryId allocated].
        rewrite Eo in Hb. rewrite update_same. exact Hb.
      * intros u. destruct (Nat.eq_dec u t) as [-> | Hne].
        -- right. reflexivity.
        -- left. rewrite update_other by exact Hne. apply Hall.
      * intros t' H. injection H as <-. rewrite update_same. discriminate.
  - (* query_id = Client.userQueryId *)
    assert (Ho : lock_owner s = Some t).
    { destruct (Hlock t) as [H | H]; [congruence | exact H]. }
    assert (Hb' : Forall (fun y => y < userQueryId s) (allocated s)).
    { unfold bound in Hb. rewrite Ho, Epc in Hb. exact Hb. }
    split; cbn [allocated userQueryId lock_owner threads].
    + apply increasing_snoc; assumption.
    + unfold bound. cbn [lock_owner threads userQueryId allocated].
      rewrite Ho, update_same. cbn [at_pc].
      apply Forall_app. split.
      * eapply Forall_impl; [| exact Hb']. simpl. intros y Hy. lia.
      * constructor; [lia | constructor].
    + intros u. destruct (Nat.eq_dec u t) as [-> | Hne].
      * right. exact Ho.
      * rewrite update_other by exact Hne. apply Hlock.
    + intros t' H Hpc. rewrite Ho in H. injection H as <-.
      rewrite update_same in Hpc. discriminate Hpc.
  - (* the read of += *)
    assert (Ho : lock_owner s = Some t).
    { destruct (Hlock t) as [H | H]; [congruence | exact H]. }
    split; cbn [allocated userQueryId lock_owner threads].
    + exact Hinc.
    + unfold bound in *. cbn [lock_owner threads userQueryId allocated].
      rewrite Ho in *. rewrite Epc in Hb. rewrite update_same. exact Hb.
    + intros u. destruct (Nat.eq_dec u t) as [-> | Hne].
      * right. exact Ho.
      * rewrite update_other by exact Hne. apply Hlock.
    + intros t' H Hpc. rewrite Ho in H. injection H as <-.
      rewrite update_same. reflexivity.
  - (* the write of += *)
    assert (Ho : lock_owner s = Some t).
    { destruct (Hlock t) as [H | H]; [congruence | exact H]. }
    pose proof (Hld t Ho Epc) as Hl.
    split; cbn [allocated userQueryId lock_owner threads].
    + exact Hinc.
    + unfold bound in *. cbn [lock_owner threads userQueryId allocated].
      rewrite Ho in *. rewrite Epc in Hb. rewrite update_same. cbn [at_pc].
      rewrite Hl. exact Hb.
    + intros u. destruct (Nat.eq_dec u t) as [-> | Hne].
      * right. exact Ho.
      * rewrite update_other by exact Hne. apply Hlock.
    + intros t' H Hpc. rewrite Ho in H. injection H as <-.
      rewrite update_same in Hpc. discriminate Hpc.
  - (* the end of the with block *)
    assert (Ho : lock_owner s = Some t).
    { destruct (Hlock t) as [H | H]; [congruence | exact H]. }
    split; cbn [allocated userQueryId lock_owner threads].
    + exact Hinc.
    + unfold bound in *. cbn [lock_owner threads userQueryId allocated].
      rewrite Ho, Epc in Hb. exact Hb.
    + intros u. left. destruct (Nat.eq_dec u t) as [-> | Hne].
      * rewrite update_same. reflexivity.
      * rewrite update_other by exact Hne.
        destruct (Hlock u) as [H | H]; [exact H | congruence].
    + intros t' H. discriminate H.
Qed.

Lemma invariant_run (schedule : list nat) :
  forall s, invariant s -> invariant (run schedule s).
Proof.
  induction schedule as [| t rest IH]; intros s H; simpl.
  - exact H.
  - apply IH, invariant_step, H.
Qed.

(** C8: whatever the number of threads inside [query_user] and however
    their statements interleave, of two ids read from the counter the
    one read later is strictly greater; in particular no two ids are
    the same. *)
Theorem query_ids_increase (schedule : list nat) (i j : nat) (a b : Z) :
  (i < j)%nat ->
  nth_error (allocated (run schedule initial)) i = Some a ->
  nth_error (allocated (run schedule initial)) j = Some b ->
  a < b /\ a <> b.
Proof.
  intros Hij Ha Hb.
  pose proof (invariant_run schedule invariant_initial) as [Hinc _ _ _].
  pose proof (@increasing_nth _ Hinc i j a b Hij Ha Hb). split; lia.
Qed.

Lemma query_ids_increase_witness :
  (0 < 1)%nat
  /\ nth_error (allocated (run [0; 1; 0; 1; 0; 1; 0; 0; 1; 1; 1; 1; 1]%nat initial))
               0 = Some 20
  /\ nth_error (allocated (run [0; 1; 0; 1; 0; 1; 0; 0; 1; 1; 1; 1; 1]%nat initial))
               1 = Some 21
  /\ 20 < 21 /\ 20 <> 21.
Proof.
  assert (H0 : (0 < 1)%nat) by lia.
  assert (H1 : nth_error
                 (allocated (run [0; 1; 0; 1; 0; 1; 0; 0; 1; 1; 1; 1; 1]%nat initial))
                 0 = Some 20) by reflexivity.
  assert (H2 : nth_error
                 (allocated (run [0; 1; 0; 1; 0; 1; 0; 0; 1; 1; 1; 1; 1]%nat initial))
                 1 = Some 21) by reflexivity.
  split; [exact H0 |]. split; [exact H1 |]. split; [exact H2 |].
  exact (@query_ids_increase [0; 1; 0; 1; 0; 1; 0; 0; 1; 1; 1; 1; 1]%nat
           0%nat 1%nat 20 21 H0 H1 H2).
Defined.

End QueryIdsFacts.

(** ** The decoder at its edges *)

Module DecoderFacts.
Import Wire Protocol WireFacts ProtocolFacts Framing.

Section Decoder.
Context {L : Limits}.
Variable C : Type.
Variable handle : Packet -> C -> outcome unit * C.
Variable stop : C -> C.

Local Abbreviation loop := (receive_loop handle stop).

Lemma header_size (kind from to a1 a2 n : Z) :
  length (header kind from to a1 a2 n) = 28%nat.
Proof. unfold header. rewrite flat_map_be32_length. reflexivity. Qed.

(** A buffer that starts with a header whose integers fit 32 bits. *)
Lemma receive_header (kind from to a1 a2 n : Z) (body : list byte) (c : C)
  (fuel : nat) :
  forallb in_int32 [kind; from; to; a1; a2; n] = true ->
  loop (S fuel) {| buffer := header kind from to a1 a2 n ++ body; client := c |}
  = after_header handle stop fuel kind from to a1 a2 n body c.
Proof.
  intros Hr.
  assert (Hall : forallb in_int32 [MAGIC; kind; from; to; a1; a2; n] = true).
  { cbn [forallb]. cbn [forallb] in Hr. rewrite Hr. reflexivity. }
  pose proof (header_size kind from to a1 a2 n) as Hhl.
  assert (Hfirst : firstn 28 (header kind from to a1 a2 n ++ body)
                   = flat_map be32 [MAGIC; kind; from; to; a1; a2; n]).
  { rewrite <- Hhl at 1. rewrite firstn_app, Nat.sub_diag, firstn_O, app_nil_r.
    apply firstn_all. }
  assert (Hskip : skipn 28 (header kind from to a1 a2 n ++ body) = body).
  { rewrite <- Hhl at 1. rewrite skipn_app, Nat.sub_diag, skipn_O, skipn_all.
    reflexivity. }
  assert (Hlen : Z.of_nat (length (header kind from to a1 a2 n ++ body))
                 = 28 + Z.of_nat (length body)).
  { rewrite length_app, Hhl. lia. }
  rewrite receive_loop_unfold. unfold after_header.
  set (buf := header kind from to a1 a2 n ++ body) in *.
  cbv zeta. cbn [buffer client]. unfold packet_size.
  change (Z.to_nat 28) with 28%nat.
  rewrite Hfirst, Hskip.
  replace (Z.of_nat (length buf) <? 28) with false
    by (symmetry; apply Z.ltb_ge; lia).
  change (unpack_ints 7)
    with (unpack_ints (length [MAGIC; kind; from; to; a1; a2; n])).
  rewrite (unpack_ints_be32 _ Hall).
  rewrite Z.eqb_refl. cbn [negb].
  reflexivity.
Qed.

(** X1: however the bytes of a stream of valid frames are cut into
    chunks, the calls of [data_received] on the chunks hand the client
    the same messages, in the same order, as one call on the whole
    stream, end with the same exception if the client refuses one, and
    leave the same client; when no exception ends them they leave the
    same protocol object. *)
Theorem chunking_does_not_matter
  (fs : list Frame) (chunks : list (list byte)) (c : C) (fuel : nat) :
  Forall (fun f => valid_frame f = true) fs ->
  (length fs < fuel)%nat ->
  concat chunks = stream fs ->
  exists whole pieces,
    data_received handle stop fuel (stream fs)
      {| buffer := []; client := c |} = Some whole
    /\ feed handle stop fuel chunks {| buffer := []; client := c |} = Some pieces
    /\ delivered pieces = delivered whole
    /\ caught pieces = caught whole
    /\ client (after pieces) = client (after whole)
    /\ (caught whole = None ->
        delivered whole = map packet_of fs /\ after pieces = after whole).
Proof.
  intros Hv Hfuel Hcat.
  assert (Hnil : Protocol.stalls handle stop [])
    by (apply receive_short; simpl; lia).
  destruct (@receive_frames L C handle stop fs [] Hv Hnil c fuel Hfuel)
    as (whole & Hw & (Hwd & Hwc & Hwl) & Hwb).
  destruct (@feed_stream L C handle stop fuel chunks fs [] c Hv Hfuel)
    as (pieces & Hp & (Hpd & Hpc & Hpl) & Hpb).
  { exact Hcat. }
  { left. reflexivity. }
  exists whole, pieces.
  unfold data_received. cbn [buffer client app].
  rewrite app_nil_r in Hw.
  split; [exact Hw |]. split; [exact Hp |].
  split; [congruence |]. split; [congruence |]. split; [congruence |].
  intros Hnone. split.
  - rewrite Hwd. apply handed_no_exception. rewrite <- Hwc. exact Hnone.
  - destruct (after whole) as [bw cw], (after pieces) as [bp cp].
    simpl in *. rewrite (Hwb Hnone), Hpb by congruence. congruence.
Qed.

Lemma slice_from_whole (A : Type) (l : list A) (k : Z) :
  k = 0 \/ k + Z.of_nat (length l) <= 0 -> slice_from k l = l.
Proof.
  intros H. unfold slice_from.
  destruct (k <? 0) eqn:E.
  - apply Z.ltb_lt in E.
    replace (Z.max 0 (k + Z.of_nat (length l))) with 0 by lia. reflexivity.
  - apply Z.ltb_ge in E.
    assert (k = 0) as -> by (destruct H as [H | H]; lia). reflexivity.
Qed.

(** X2: a header whose length field is -28, or so far below zero that
    [buffer[packet_size+spayload:]] is the whole buffer again, is never
    removed from the buffer: as long as the client accepts the packet,
    the loop unpacks the same header and hands over the same packet
    again, and the call does not return. *)
Theorem negative_length_never_returns
  (kind from to a1 a2 n : Z) (rest : list byte) :
  forallb in_int32 [kind; from; to; a1; a2; n] = true ->
  n = -28 \/ n <= -56 - Z.of_nat (length rest) ->
  (forall p c, fst (handle p c) = Ret tt) ->
  forall (fuel : nat) (c : C),
    data_received handle stop fuel (header kind from to a1 a2 n ++ rest)
      {| buffer := []; client := c |} = None.
Proof.
  intros Hr Hn Hacc fuel. unfold data_received. cbn [buffer client app].
  induction fuel as [| fuel IH]; intros c; [reflexivity |].
  rewrite (receive_header kind from to a1 a2 n rest c fuel Hr).
  unfold after_header.
  replace (0 <? n) with false by (symmetry; apply Z.ltb_ge; lia).
  rewrite slice_from_whole.
  - unfold hand_over. specialize (Hacc (mkPacket kind from to a1 a2 PNone) c).
    destruct (handle (mkPacket kind from to a1 a2 PNone) c) as [[u | e] c'];
      [| discriminate Hacc].
    rewrite IH. reflexivity.
  - unfold packet_size. rewrite length_app, header_size.
    destruct Hn as [-> | Hn]; [left; reflexivity | right; lia].
Qed.

(** X3: a complete frame whose payload bytes are not UTF-8 makes
    [decode] raise [UnicodeDecodeError] inside the [try]: the [except]
    clause stops the event loop, no packet is handed to the client, and
    the frame stays at the head of the buffer. *)
Theorem undecodable_payload_stops_the_loop
  (f : Frame) (rest : list byte) (c : C) (fuel : nat) :
  forallb in_int32 (header_ints f) = true ->
  utf8_decode (f_payload f) = None ->
  data_received handle stop (S fuel) (frame_bytes f ++ rest)
    {| buffer := []; client := c |}
  = Some {| delivered := [];
            caught := Some UnicodeDecodeError;
            after := {| buffer := frame_bytes f ++ rest; client := stop c |} |}.
Proof.
  intros Hr Hd. unfold data_received. cbn [buffer client app].
  assert (Hne : (0 < length (f_payload f))%nat).
  { destruct (f_payload f); [discriminate Hd | simpl; lia]. }
  assert (Hfb : frame_bytes f ++ rest
                = header (f_kind f) (f_from f) (f_to f) (f_arg1 f) (f_arg2 f)
                         (Z.of_nat (length (f_payload f)))
                  ++ (f_payload f ++ rest)).
  { rewrite frame_bytes_split, <- app_assoc. reflexivity. }
  rewrite Hfb at 1.
  rewrite receive_header;
    [| unfold header_ints in Hr; cbn [forallb] in Hr; cbn [forallb];
       apply andb_true_iff in Hr as [_ Hr]; exact Hr].
  unfold after_header. rewrite <- Hfb.
  replace (0 <? Z.of_nat (length (f_payload f))) with true
    by (symmetry; apply Z.ltb_lt; lia).
  replace (Z.of_nat (length (frame_bytes f ++ rest))
           <? packet_size + Z.of_nat (length (f_payload f))) with false
    by (symmetry; apply Z.ltb_ge; rewrite length_app, frame_bytes_length;
        unfold packet_size; lia).
  rewrite Nat2Z.id, firstn_app, Nat.sub_diag, firstn_O, app_nil_r, firstn_all.
  rewrite Hd. reflexivity.
Qed.

(** X4: when the client raises on the packet of a complete valid frame
    (the packet was built: [json.loads] raised nothing but
    [JSONDecodeError] on the payload), the frame has already been
    removed from the buffer: the call ends with that exception, the
    event loop stopped, the packet lost to later calls, and the bytes
    after the frame left in the buffer, undecoded. *)
Theorem refused_packet_is_consumed
  (f : Frame) (rest : list byte) (c c' : C) (e : exn) (fuel : nat) :
  valid_frame f = true ->
  refusal (f_payload f) = None ->
  handle (packet_of f) c = (Raise e, c') ->
  data_received handle stop (S fuel) (frame_bytes f ++ rest)
    {| buffer := []; client := c |}
  = Some {| delivered := [packet_of f];
            caught := Some e;
            after := {| buffer := rest; client := stop c' |} |}.
Proof.
  intros Hv Hr Hh. unfold data_received. cbn [buffer client app].
  rewrite (@receive_frame L C handle stop f rest c fuel Hv Hr).
  unfold hand_over. rewrite Hh. reflexivity.
Qed.

End Decoder.

#[local] Existing Instance Sample.limits.

Lemma chunking_does_not_matter_witness :
  Forall (fun f => valid_frame f = true)
    [mkFrame 1 0 4242 0 555 (map byte_of_Z (str_of "alice"))]
  /\ (1 < 2)%nat
  /\ exists whole pieces,
       data_received recorder_handle (fun l => l) 2
         (stream [mkFrame 1 0 4242 0 555 (map byte_of_Z (str_of "alice"))])
         {| buffer := []; client := [] |} = Some whole
       /\ feed recorder_handle (fun l => l) 2
            [firstn 30 (stream [mkFrame 1 0 4242 0 555
                                  (map byte_of_Z (str_of "alice"))]);
             skipn 30 (stream [mkFrame 1 0 4242 0 555
                                 (map byte_of_Z (str_of "alice"))])]
            {| buffer := []; client := [] |} = Some pieces
       /\ delivered pieces = delivered whole.
Proof.
  split; [exact sample_frame_valid |]. split; [lia |].
  destruct (@chunking_does_not_matter Sample.limits (list Packet)
              recorder_handle (fun l => l)
              [mkFrame 1 0 4242 0 555 (map byte_of_Z (str_of "alice"))]
              [firstn 30 (stream [mkFrame 1 0 4242 0 555
                                    (map byte_of_Z (str_of "alice"))]);
               skipn 30 (stream [mkFrame 1 0 4242 0 555
                                   (map byte_of_Z (str_of "alice"))])]
              [] 2%nat sample_frame_valid)
    as (whole & pieces & Hw & Hp & Hd & _); [simpl; lia | reflexivity |].
  exists whole, pieces. split; [exact Hw |]. split; [exact Hp | exact Hd].
Defined.

Lemma negative_length_never_returns_witness :
  forallb in_int32 [0; 0; 0; 0; 0; -28] = true
  /\ (-28 = -28 \/ -28 <= -56 - Z.of_nat (length (@nil byte)))
  /\ (forall p (c : list Packet), fst (recorder_handle p c) = Ret tt)
  /\ data_received recorder_handle (fun l => l) 1000
       (header 0 0 0 0 0 (-28) ++ []) {| buffer := []; client := [] |} = None.
Proof.
  assert (H1 : forallb in_int32 [0; 0; 0; 0; 0; -28] = true) by reflexivity.
  assert (H2 : -28 = -28 \/ -28 <= -56 - Z.of_nat (length (@nil byte)))
    by (left; reflexivity).
  assert (H3 : forall p (c : list Packet), fst (recorder_handle p c) = Ret tt)
    by (intros p c; reflexivity).
  split; [exact H1 |]. split; [exact H2 |]. split; [exact H3 |].
  exact (@negative_length_never_returns Sample.limits (list Packet)
           recorder_handle
           (fun l => l) 0 0 0 0 0 (-28) [] H1 H2 H3 1000%nat []).
Defined.

Lemma undecodable_payload_stops_the_loop_witness :
  forallb in_int32 (header_ints (mkFrame 50 0 0 0 0 [xff])) = true
  /\ utf8_decode (f_payload (mkFrame 50 0 0 0 0 [xff])) = None
  /\ data_received recorder_handle (fun l => l) 1
       (frame_bytes (mkFrame 50 0 0 0 0 [xff]) ++ [])
       {| buffer := []; client := [] |}
     = Some {| delivered := [];
               caught := Some UnicodeDecodeError;
               after := {| buffer := frame_bytes (mkFrame 50 0 0 0 0 [xff]) ++ [];
                           client := [] |} |}.
Proof.
  assert (H1 : forallb in_int32 (header_ints (mkFrame 50 0 0 0 0 [xff])) = true)
    by reflexivity.
  assert (H2 : utf8_decode (f_payload (mkFrame 50 0 0 0 0 [xff])) = None)
    by reflexivity.
  split; [exact H1 |]. split; [exact H2 |].
  exact (@undecodable_payload_stops_the_loop Sample.limits (list Packet)
           recorder_handle
           (fun l => l) (mkFrame 50 0 0 0 0 [xff]) [] [] 0%nat H1 H2).
Defined.

(** A client that refuses every packet. *)
Lemma refused_packet_is_consumed_witness :
  valid_frame (mkFrame 1 0 0 1 0 []) = true
  /\ refusal (f_payload (mkFrame 1 0 0 1 0 [])) = None
  /\ (fun (_ : Packet) (c : unit) => (@Raise unit (Exception "Login failed"), c))
       (packet_of (mkFrame 1 0 0 1 0 [])) tt
     = (Raise (Exception "Login failed"), tt)
  /\ data_received
       (fun (_ : Packet) (c : unit) => (@Raise unit (Exception "Login failed"), c))
       (fun c => c) 1
       (frame_bytes (mkFrame 1 0 0 1 0 []) ++ [x01; x02])
       {| buffer := []; client := tt |}
     = Some {| delivered := [packet_of (mkFrame 1 0 0 1 0 [])];
               caught := Some (Exception "Login failed");
               after := {| buffer := [x01; x02]; client := tt |} |}.
Proof.
  assert (H1 : valid_frame (mkFrame 1 0 0 1 0 []) = true) by reflexivity.
  split; [exact H1 |]. split; [reflexivity |]. split; [reflexivity |].
  exact (@refused_packet_is_consumed Sample.limits unit
           (fun (_ : Packet) (c : unit) => (@Raise unit (Exception "Login failed"), c))
           (fun c => c) (mkFrame 1 0 0 1 0 []) [x01; x02] tt tt
           (Exception "Login failed") 0%nat H1 eq_refl eq_refl).
Defined.

End DecoderFacts.

(** ** More on the identifier conversions *)

Module IdsMoreFacts.
Import Ids.

(** X5: [touserid] takes off whichever channel offset an id carries:
    for a user id below 100000000, the id itself and the id plus
    100000000, 200000000, 300000000, 400000000 or 1000000000 all give
    the user id back; and [touserid] never returns more than it was
    given. *)
Theorem touserid_strips_offset (u : Z) :
  0 <= u < 100000000 ->
  touserid u = u
  /\ touserid (u + 100000000) = u
  /\ touserid (u + 200000000) = u
  /\ touserid (u + 300000000) = u
  /\ touserid (u + 400000000) = u
  /\ touserid (u + 1000000000) = u
  /\ forall x, touserid x <= x.
Proof.
  intros H.
  assert (G : forall x, touserid x <= x).
  { intros x. unfold touserid.
    repeat match goal with
           | |- context [?a >=? ?b] =>
               destruct (Z.geb_spec a b)
           end; lia. }
  repeat split; try exact G; unfold touserid;
    repeat match goal with
           | |- context [?a >=? ?b] =>
               destruct (Z.geb_spec a b); try lia
           end.
Qed.

Lemma touserid_strips_offset_witness :
  0 <= 12345 < 100000000
  /\ touserid 12345 = 12345
  /\ touserid (12345 + 100000000) = 12345
  /\ touserid (12345 + 200000000) = 12345
  /\ touserid (12345 + 300000000) = 12345
  /\ touserid (12345 + 400000000) = 12345
  /\ touserid (12345 + 1000000000) = 12345
  /\ forall x, touserid x <= x.
Proof.
  assert (H : 0 <= 12345 < 100000000) by lia.
  split; [exact H |]. exact (touserid_strips_offset H).
Defined.

End IdsMoreFacts.

(** ** Sending *)

Module SendingFacts.
Import Wire Protocol WireFacts ProtocolFacts Client Framing DecoderFacts.

Section WithEnvironment.
Context {K : Constants} {E : Environment}.

Lemma pack_ints_length (xs : list Z) (b : list byte) :
  pack_ints xs = Ret b -> length b = (4 * length xs)%nat.
Proof.
  revert b. induction xs as [| x xs IH]; intros b H; simpl in H.
  - injection H as <-. reflexivity.
  - unfold pack_i in H. destruct (in_int32 x); [| discriminate H].
    cbn [obind] in H. destruct (pack_ints xs) as [tl | e]; [| discriminate H].
    cbn [obind] in H. injection H as <-.
    cbn [length]. rewrite (IH tl eq_refl). lia.
Qed.

Lemma pack_s_length (n : nat) (b : list byte) : length (pack_s n b) = n.
Proof.
  unfold pack_s. rewrite length_app, length_firstn, repeat_length. lia.
Qed.

(** X6: [tx_cmd] either writes exactly one chunk to the transport, of
    28 bytes plus one byte per character of the text, and changes
    nothing else in the client; or it raises and changes nothing at
    all. *)
Theorem tx_cmd_all_or_nothing
  (kind : kind_arg) (to a1 a2 : Z) (smsg : pyval) (c : Client) :
  match tx_cmd kind to a1 a2 smsg c with
  | (Raise _, c') => c' = c
  | (Ret _, c') =>
      exists t data n,
        transport c = Some t
        /\ py_len (if Py.is_none smsg then PStr [] else smsg) = Ret n
        /\ length data = (28 + n)%nat
        /\ c' = set_transport
                  (Some (mkTransport (written t ++ [data]) (closing t))) c
  end.
Proof.
  unfold tx_cmd. destruct kind as [ft |]; [| reflexivity].
  set (s := if Py.is_none smsg then PStr [] else smsg).
  unfold bind, lift, get.
  destruct (py_len s) as [n | e] eqn:En; [| reflexivity].
  destruct (py_encode s) as [body | e]; [| reflexivity].
  destruct (pack_ints [MAGIC; ft; session_id c; to; a1; a2; Z.of_nat n])
    as [hd | e] eqn:Eh; [| reflexivity].
  unfold transport_write, bind, get.
  destruct (transport c) as [t |] eqn:Et; [| reflexivity].
  cbn [modify]. exists t, (hd ++ pack_s n body), n.
  split; [reflexivity |]. split; [reflexivity |].
  split; [| reflexivity].
  rewrite length_app, pack_s_length, (pack_ints_length _ Eh). reflexivity.
Qed.

(** X7: only text can be sent.  A payload that is neither [None] nor a
    [str], such as the numbers, lists and dicts the decoder parses from
    JSON, makes [tx_cmd] (and so [tx_packet]) raise: [TypeError] from [len] for a
    number or a boolean, [AttributeError] from [encode] for a list or a
    dict; nothing is written. *)
Theorem structured_payload_cannot_be_sent
  (ft to a1 a2 : Z) (smsg : pyval) (c : Client) :
  Py.is_none smsg = false ->
  Py.is_str smsg = false ->
  tx_cmd (Member ft) to a1 a2 smsg c
  = (Raise (if Py.is_list smsg || Py.is_dict smsg
            then AttributeError else TypeError), c)
  /\ tx_packet (Member ft) (mkPacket ft 0 to a1 a2 smsg) c
     = tx_cmd (Member ft) to a1 a2 smsg c.
Proof.
  intros Hn Hs. split; [| reflexivity].
  unfold tx_cmd. rewrite Hn.
  destruct smsg; try discriminate; reflexivity.
Qed.

Lemma utf8_encode_cp_length (ch : Z) (b : list byte) :
  utf8_encode_cp ch = Ret b ->
  (1 <= length b)%nat /\ (128 <= ch -> (2 <= length b)%nat).
Proof.
  unfold utf8_encode_cp.
  destruct ((ch <? 0) || (1114111 <? ch) || is_surrogate ch); [discriminate |].
  destruct (Z.ltb_spec ch 128).
  - intros H0. injection H0 as <-. simpl. split; [lia | intros; lia].
  - destruct (ch <? 2048); [| destruct (ch <? 65536)];
      intros H0; injection H0 as <-; simpl; split; intros; lia.
Qed.

Lemma utf8_encode_length (s : pystr) :
  forall b, utf8_encode s = Ret b ->
    (length s <= length b)%nat
    /\ (Exists (fun ch => 128 <= ch) s -> (length s < length b)%nat).
Proof.
  induction s as [| ch s IH]; intros b H; simpl in H.
  - injection H as <-. split; [reflexivity | intros Hx; inversion Hx].
  - destruct (utf8_encode_cp ch) as [hd | e] eqn:Eh; [| discriminate H].
    cbn [obind] in H.
    destruct (utf8_encode s) as [tl | e]; [| discriminate H].
    cbn [obind] in H. injection H as <-.
    destruct (utf8_encode_cp_length _ Eh) as [H1 H2].
    destruct (IH tl eq_refl) as [H3 H4].
    rewrite length_app. simpl. split; [lia |].
    intros Hx. inversion Hx as [? ? Hc | ? ? Hr]; subst.
    + specialize (H2 Hc). lia.
    + specialize (H4 Hr). lia.
Qed.

(** X8: the length field and the payload of the frame [tx_cmd] writes
    count the characters of the text, not the bytes of its encoding.
    For a text with a character outside ASCII the encoding is longer
    than that, and the frame carries its first [len(smsg)] bytes only:
    the end of the text is not sent. *)
Theorem tx_cmd_cuts_non_ascii
  (c : Client) (t : Transport) (ft to a1 a2 : Z) (text : pystr)
  (body : list byte) :
  transport c = Some t ->
  forallb in_int32 [ft; session_id c; to; a1; a2; Z.of_nat (length text)] = true ->
  utf8_encode text = Ret body ->
  Exists (fun ch => 128 <= ch) text ->
  (length text < length body)%nat
  /\ tx_cmd (Member ft) to a1 a2 (PStr text) c
     = (Ret tt,
        set_transport
          (Some (mkTransport
                   (written t ++
                    [header ft (session_id c) to a1 a2 (Z.of_nat (length text))
                     ++ firstn (length text) body])
                   (closing t))) c).
Proof.
  intros Ht Hr He Hx.
  destruct (utf8_encode_length _ He) as [_ Hlt]. specialize (Hlt Hx).
  split; [exact Hlt |].
  unfold tx_cmd. cbn [Py.is_none py_len py_encode].
  unfold bind, lift, get. rewrite He.
  rewrite pack_ints_be32
    by (cbn [forallb]; cbn [forallb] in Hr; rewrite Hr; reflexivity).
  unfold transport_write, bind, get. rewrite Ht. cbn [modify].
  unfold pack_s. replace (length text - length body)%nat with 0%nat by lia.
  cbn [repeat]. rewrite app_nil_r. reflexivity.
Qed.

(** X9: a chat message and the join and leave commands are addressed
    to the room id, a private message to the user id, whichever of the
    two the caller passes: for a user id below 100000000, the calls with
    the user id and the calls with its room id send the same command. *)
Theorem room_commands_accept_either_id (u : Z) (msg : pyval) (c : Client) :
  0 <= u < 100000000 ->
  sendchat u msg c = tx_cmd (Member FCTYPE_CMESG) (u + 100000000) 0 0 msg c
  /\ sendchat (u + 100000000) msg c = sendchat u msg c
  /\ sendpm u msg c = tx_cmd (Member FCTYPE_PMESG) u 0 0 msg c
  /\ sendpm (u + 100000000) msg c = sendpm u msg c
  /\ joinroom u c
     = tx_cmd (Member FCTYPE_JOINCHAN) 0 (u + 100000000) FCCHAN_JOIN (PStr []) c
  /\ joinroom (u + 100000000) c = joinroom u c
  /\ leaveroom u c
     = tx_cmd (Member FCTYPE_JOINCHAN) 0 (u + 100000000) FCCHAN_PART (PStr []) c
  /\ leaveroom (u + 100000000) c = leaveroom u c.
Proof.
  intros H.
  assert (R1 : Ids.toroomid u = u + 100000000)
    by (apply IdsFacts.toroomid_small; lia).
  assert (R2 : Ids.toroomid (u + 100000000) = u + 100000000)
    by (apply IdsFacts.toroomid_large; lia).
  assert (U1 : Ids.touserid u = u).
  { unfold Ids.touserid.
    repeat match goal with
           | |- context [?a >=? ?b] => destruct (Z.geb_spec a b); try lia
           end. }
  assert (U2 : Ids.touserid (u + 100000000) = u).
  { unfold Ids.touserid.
    repeat match goal with
           | |- context [?a >=? ?b] => destruct (Z.geb_spec a b); try lia
           end. }
  unfold sendchat, sendpm, joinroom, leaveroom.
  rewrite R1, R2, U1, U2. repeat split.
Qed.

End WithEnvironment.

Lemma structured_payload_cannot_be_sent_witness :
  Py.is_none (PDict []) = false
  /\ Py.is_str (PDict []) = false
  /\ @tx_cmd Sample.environment (Member 50) 0 0 0 (PDict []) Sample.connected
     = (Raise AttributeError, Sample.connected).
Proof.
  split; [reflexivity |]. split; [reflexivity |].
  exact (proj1 (@structured_payload_cannot_be_sent Sample.environment
                  50 0 0 0 (PDict []) Sample.connected eq_refl eq_refl)).
Defined.

Lemma tx_cmd_cuts_non_ascii_witness :
  transport Sample.connected = Some (mkTransport [] false)
  /\ forallb in_int32 [50; session_id Sample.connected; 100000001; 0; 0;
                       Z.of_nat (length [233; 116; 233])] = true
  /\ utf8_encode [233; 116; 233] = Ret [xc3; xa9; x74; xc3; xa9]
  /\ Exists (fun ch => 128 <= ch) [233; 116; 233]
  /\ (length [233; 116; 233] < length [xc3; xa9; x74; xc3; xa9])%nat
  /\ @tx_cmd Sample.environment (Member 50) 100000001 0 0
       (PStr [233; 116; 233]) Sample.connected
     = (Ret tt,
        set_transport
          (Some (mkTransport
                   ([] ++ [header 50 0 100000001 0 0 3 ++ [xc3; xa9; x74]])
                   false)) Sample.connected).
Proof.
  assert (H1 : transport Sample.connected = Some (mkTransport [] false))
    by reflexivity.
  assert (H2 : forallb in_int32 [50; session_id Sample.connected; 100000001; 0; 0;
                                 Z.of_nat (length [233; 116; 233])] = true)
    by reflexivity.
  assert (H3 : utf8_encode [233; 116; 233] = Ret [xc3; xa9; x74; xc3; xa9])
    by reflexivity.
  assert (H4 : Exists (fun ch => 128 <= ch) [233; 116; 233])
    by (constructor; lia).
  split; [exact H1 |]. split; [exact H2 |]. split; [exact H3 |].
  split; [exact H4 |].
  exact (@tx_cmd_cuts_non_ascii Sample.environment Sample.connected
           (mkTransport [] false) 50 100000001 0 0 [233; 116; 233]
           [xc3; xa9; x74; xc3; xa9] H1 H2 H3 H4).
Defined.

Lemma room_commands_accept_either_id_witness :
  0 <= 12345 < 100000000
  /\ @sendpm Sample.constants Sample.environment (12345 + 100000000)
       (PStr (str_of "hello")) Sample.connected
     = @sendpm Sample.constants Sample.environment 12345
         (PStr (str_of "hello")) Sample.connected.
Proof.
  assert (H : 0 <= 12345 < 100000000) by lia.
  split; [exact H |].
  exact (proj1 (proj2 (proj2 (proj2
           (@room_commands_accept_either_id Sample.constants Sample.environment
              12345 (PStr (str_of "hello")) Sample.connected H))))).
Defined.

End SendingFacts.

(** ** Queries and their responses *)

Module QueryFacts.
Import Wire Protocol WireFacts ProtocolFacts Client ClientFacts CodecFacts.
Import Queries.

(** Walks through a method, statement by statement; [side] settles
    what an assignment does to the invariant. *)
Ltac through_with special side :=
  repeat first
    [ progress special
    | match goal with
      | |- preserves _ (ret _) => apply preserves_ret
      | |- preserves _ (raise _) => apply preserves_raise
      | |- preserves _ (lift _) => apply preserves_lift
      | |- preserves _ (bind get _) => apply preserves_get_bind; intros ? ?
      | |- preserves _ (bind _ _) => apply preserves_bind; [| intros ?]
      | |- preserves _ (modify _) => apply preserves_modify; solve [side]
      | |- preserves _ (on_models _) => apply preserves_on_models; solve [side]
      | |- preserves _ (for_each _ _) => apply preserves_for_each; intros ?
      | |- preserves _ (if ?b then _ else _) => destruct b
      | |- preserves _ (match ?x with _ => _ end) => destruct x
      end ].

Ltac through side := through_with ltac:(fail) side.

Section WithEnvironment.
Context {K : Constants} {E : Environment}.


(** *** What [_process_packet] leaves alone *)

Section Stable.
Variable I : Client -> Prop.
Hypothesis HI : stable I.
Hypothesis Hemit : forall kind arg, preserves I (emit kind arg).

Ltac stable_side :=
  intros; first
    [ apply (st_session_id HI) | apply (st_uid HI) | apply (st_username HI)
    | apply (st_models HI) | apply (st_stream_cxid HI)
    | apply (st_stream_password HI) | apply (st_stream_vidctx HI)
    | apply (st_completed_models HI) | apply (st_completed_tags HI) ];
  assumption.

Lemma merge_model_preserves (u : pyval) (cr : option bool) (payload : pyval) :
  preserves I (merge_model u cr payload).
Proof. unfold merge_model. through stable_side. Qed.

Lemma merge_model_tags_preserves (u tags : pyval) :
  preserves I (merge_model_tags u tags).
Proof. unfold merge_model_tags. through stable_side. Qed.

Lemma handle_extdata_preserves (reinject : Packet -> M unit) (extdata : pyval) :
  (forall p, preserves I (reinject p)) ->
  preserves I (_handle_extdata reinject extdata).
Proof.
  intros Hr. unfold _handle_extdata. cbv zeta. through stable_side. apply Hr.
Qed.

Lemma process_packet_preserves (reinject : Packet -> M unit) (p : Packet) :
  (forall q, preserves I (reinject q)) ->
  preserves I (_process_packet reinject p).
Proof.
  intros Hr. unfold _process_packet. cbv zeta.
  through_with
    ltac:(idtac;
          match goal with
          | |- preserves _ (merge_model _ _ _) => apply merge_model_preserves
          | |- preserves _ (merge_row _) => unfold merge_row
          | |- preserves _ (merge_bookmark _) => unfold merge_bookmark
          | |- preserves _ (merge_tag_entry _) => unfold merge_tag_entry
          | |- preserves _ (merge_tag_row _) => unfold merge_tag_row
          | |- preserves _ (merge_model_tags _ _) =>
              apply merge_model_tags_preserves
          | |- preserves _ (_handle_extdata _ _) =>
              apply handle_extdata_preserves; exact Hr
          | |- preserves _ (emit _ _) => apply Hemit
          end)
    stable_side.
Qed.

Lemma handle_packet_received_preserves (depth : nat) :
  forall p, preserves I (handle_packet_received depth p).
Proof.
  induction depth as [| depth IH]; intros p; cbn [handle_packet_received].
  - apply preserves_raise.
  - apply preserves_bind; [apply process_packet_preserves, IH |].
    intros q. apply preserves_bind; [apply Hemit |].
    intros _. apply Hemit.
Qed.

End Stable.

(** *** Lists of handlers *)

Lemma same_listener_eq (a b : listener) : same_listener a b = true <-> a = b.
Proof.
  unfold same_listener. destruct a as [qa fa], b as [qb fb]. cbn.
  rewrite andb_true_iff, Z.eqb_eq, Nat.eqb_eq. split.
  - intros [-> ->]. reflexivity.
  - intros H. injection H as -> ->. split; reflexivity.
Qed.

Lemma for_each_app (A : Type) (body : A -> M unit) (l1 l2 : list A) (c : Client) :
  for_each body (l1 ++ l2) c
  = bind (for_each body l1) (fun _ => for_each body l2) c.
Proof.
  revert c. induction l1 as [| x l1 IH]; intros c; cbn [app for_each].
  - reflexivity.
  - unfold bind. destruct (body x c) as [[u | e] c1]; [| reflexivity].
    rewrite IH. reflexivity.
Qed.

Lemma nth_error_replace (A : Type) (l : list A) (ix : nat) (x : A) :
  (ix < length l)%nat ->
  nth_error (firstn ix l ++ x :: skipn (S ix) l) ix = Some x
  /\ forall j, j <> ix ->
       nth_error (firstn ix l ++ x :: skipn (S ix) l) j = nth_error l j.
Proof.
  intros H.
  assert (Hl : length (firstn ix l) = ix) by (rewrite length_firstn; lia).
  split.
  - rewrite nth_error_app2 by lia. rewrite Hl, Nat.sub_diag. reflexivity.
  - intros j Hj. destruct (Nat.lt_ge_cases j ix) as [Hlt | Hge].
    + rewrite nth_error_app1 by lia. rewrite nth_error_firstn.
      replace (j <? ix)%nat with true by (symmetry; apply Nat.ltb_lt; lia).
      reflexivity.
    + rewrite nth_error_app2 by lia. rewrite Hl.
      destruct (j - ix)%nat as [| d] eqn:Ed; [lia |].
      cbn [nth_error]. rewrite nth_error_skipn. f_equal. lia.
Qed.

Lemma remove_first_incl (kind : Z) (l : listener) (ls : list (Z * listener)) :
  forall x, In x (remove_first kind l ls) -> In x ls.
Proof.
  induction ls as [| [k h] r IH]; intros x; cbn [remove_first]; [tauto |].
  destruct ((k =? kind) && same_listener h l).
  - intros H. right. exact H.
  - intros [H | H]; [left; exact H | right; apply IH, H].
Qed.

Lemma remove_first_keeps (kind : Z) (l : listener) (ls : list (Z * listener)) :
  forall x, In x ls -> x <> (kind, l) -> In x (remove_first kind l ls).
Proof.
  induction ls as [| [k h] r IH]; intros x; cbn [remove_first]; [tauto |].
  destruct ((k =? kind) && same_listener h l) eqn:Em.
  - apply andb_true_iff in Em as [Ek Eh].
    apply Z.eqb_eq in Ek. apply same_listener_eq in Eh. subst.
    intros [H | H] Hx; [congruence | exact H].
  - intros [H | H] Hx; [left; exact H | right; apply IH; assumption].
Qed.

Lemma remove_first_nodup (A : Type) (f : Z * listener -> A)
  (kind : Z) (l : listener) (ls : list (Z * listener)) :
  NoDup (map f ls) -> NoDup (map f (remove_first kind l ls)).
Proof.
  induction ls as [| [k h] r IH]; cbn [remove_first map]; [tauto |].
  intros H. inversion H as [| ? ? Hn Hr]; subst.
  destruct ((k =? kind) && same_listener h l); [exact Hr |].
  cbn [map]. constructor; [| apply IH, Hr].
  intros Hin. apply Hn. apply in_map_iff in Hin as (x & Hx & Hi).
  apply in_map_iff. exists x. split; [exact Hx |].
  apply (remove_first_incl _ _ _ _ Hi).
Qed.

Lemma nodup_map_inj (A B : Type) (f : A -> B) (l : list A) (a b : A) :
  NoDup (map f l) -> In a l -> In b l -> f a = f b -> a = b.
Proof.
  induction l as [| x l IH]; cbn [map]; [intros _ [] |].
  intros H. inversion H as [| ? ? Hn Hr]; subst.
  intros [-> | Ha] [-> | Hb] Hf.
  - reflexivity.
  - exfalso. apply Hn. rewrite Hf. apply in_map, Hb.
  - exfalso. apply Hn. rewrite <- Hf. apply in_map, Ha.
  - apply IH; assumption.
Qed.

Lemma remove_first_gone (kind : Z) (l : listener) (ls : list (Z * listener)) :
  NoDup (map (fun kl => query_id (snd kl)) ls) ->
  In (kind, l) ls ->
  forall k h, In (k, h) (remove_first kind l ls) -> query_id h <> query_id l.
Proof.
  induction ls as [| [k0 h0] r IH]; cbn [remove_first map]; [intros _ [] |].
  intros H Hin. inversion H as [| ? ? Hn Hr]; subst. cbn [snd] in Hn.
  destruct ((k0 =? kind) && same_listener h0 l) eqn:Em.
  - apply andb_true_iff in Em as [_ Eh]. apply same_listener_eq in Eh. subst h0.
    intros k h Hi Hq. apply Hn. rewrite <- Hq.
    apply in_map_iff. exists (k, h). split; [reflexivity | exact Hi].
  - assert (Hr' : In (kind, l) r).
    { destruct Hin as [Heq | Hin]; [| exact Hin].
      injection Heq as -> ->. rewrite Z.eqb_refl in Em. cbn [andb] in Em.
      assert (same_listener l l = true) by (apply same_listener_eq; reflexivity).
      congruence. }
    intros k h [Heq | Hi].
    + injection Heq as -> ->. intros Hq. apply Hn. rewrite Hq.
      apply in_map_iff. exists (kind, l). split; [reflexivity | exact Hr'].
    + apply (IH Hr Hr' k h Hi).
Qed.

Lemma nodup_map_filter (A B : Type) (f : A -> B) (g : A -> bool) (l : list A) :
  NoDup (map f l) -> NoDup (map f (filter g l)).
Proof.
  induction l as [| x l IH]; cbn [map filter]; [tauto |].
  intros H. inversion H as [| ? ? Hn Hr]; subst.
  destruct (g x); [| apply IH, Hr].
  cbn [map]. constructor; [| apply IH, Hr].
  intros Hin. apply Hn. apply in_map_iff in Hin as (y & Hy & Hi).
  apply in_map_iff. exists y. split; [exact Hy |].
  apply filter_In in Hi as [Hi _]. exact Hi.
Qed.

(** *** One handler *)

Lemma handler_other (h : listener) (p : Packet) (c : Client) :
  query_id h <> narg1 p -> handler h (Some p) c = (Ret tt, c).
Proof.
  intros H. unfold handler.
  replace (narg1 p =? query_id h) with false
    by (symmetry; apply Z.eqb_neq; congruence).
  reflexivity.
Qed.

Lemma handler_match (l : listener) (p : Packet) (c : Client) :
  narg1 p = query_id l ->
  nth_error (futures c) (future_ix l) = Some Pending ->
  handler l (Some p) c = (Ret tt, completed l p c).
Proof.
  intros Hq Hp. unfold handler. rewrite Hq, Z.eqb_refl.
  unfold completed, answer.
  destruct (Py.is_dict (smessage p)); cbn [negb];
    unfold remove_listener, set_result; unfold bind, modify, get;
    cbn [futures set_listeners]; rewrite Hp; reflexivity.
Qed.

Lemma completed_well_formed (l : listener) (p : Packet) (c : Client) :
  well_formed c ->
  In (FCTYPE_USERNAMELOOKUP, l) (listeners c) ->
  well_formed (completed l p c).
Proof.
  intros [Hk Hp Hi Hf Hb] Hin.
  assert (Hlt : (future_ix l < length (futures c))%nat).
  { apply nth_error_Some. rewrite (Hp _ _ Hin). discriminate. }
  destruct (nth_error_replace (futures c) (Done (answer p)) Hlt) as [_ Hoth].
  split; unfold completed; cbn [listeners futures userQueryId set_futures
                                 set_listeners].
  - intros k h H. apply (Hk k h). apply (remove_first_incl _ _ _ _ H).
  - intros k h H.
    pose proof (remove_first_incl _ _ _ _ H) as H0.
    rewrite Hoth; [apply (Hp k h H0) |].
    intros Hix.
    assert (Heq : (k, h) = (FCTYPE_USERNAMELOOKUP, l)).
    { apply (nodup_map_inj (fun kl => future_ix (snd kl)) (listeners c));
        assumption. }
    injection Heq as -> ->.
    exact (@remove_first_gone _ _ _ Hi Hin _ _ H eq_refl).
  - apply remove_first_nodup, Hi.
  - apply remove_first_nodup, Hf.
  - intros k h H. apply (Hb k h). apply (remove_first_incl _ _ _ _ H).
Qed.

(** *** The handlers of one [emit] *)

Lemma handlers_skip (p : Packet) (hs : list listener) (c : Client) :
  (forall h, In h hs -> query_id h <> narg1 p) ->
  for_each (fun h => handler h (Some p)) hs c = (Ret tt, c).
Proof.
  induction hs as [| h hs IH]; intros H; cbn [for_each]; [reflexivity |].
  unfold bind. rewrite handler_other by (apply H; left; reflexivity).
  apply IH. intros h' Hh. apply H. right. exact Hh.
Qed.

Lemma handlers_keep_well_formed (arg : option Packet) (hs : list listener) :
  forall c,
    well_formed c ->
    NoDup (map query_id hs) ->
    (forall h, In h hs -> In (FCTYPE_USERNAMELOOKUP, h) (listeners c)) ->
    well_formed (snd (for_each (fun h => handler h arg) hs c)).
Proof.
  induction hs as [| h hs IH]; intros c Hwf Hnd Hin; cbn [for_each];
    [exact Hwf |].
  inversion Hnd as [| ? ? Hn Hr]; subst.
  destruct arg as [p |]; [| exact Hwf].
  unfold bind.
  destruct (Z.eq_dec (narg1 p) (query_id h)) as [Hq | Hq].
  - assert (Hh : In (FCTYPE_USERNAMELOOKUP, h) (listeners c))
      by (apply Hin; left; reflexivity).
    rewrite (handler_match h p c Hq (wf_pending Hwf _ _ Hh)).
    apply IH; [apply completed_well_formed; assumption | exact Hr |].
    intros h' Hh'. unfold completed. cbn [listeners set_futures set_listeners].
    apply remove_first_keeps; [apply Hin; right; exact Hh' |].
    intros Heq. injection Heq as ->. apply Hn. apply in_map, Hh'.
  - rewrite handler_other by congruence.
    apply IH; [exact Hwf | exact Hr |].
    intros h' Hh'. apply Hin. right. exact Hh'.
Qed.

Lemma well_formed_frame (c c' : Client) :
  listeners c' = listeners c -> futures c' = futures c ->
  userQueryId c' = userQueryId c ->
  well_formed c -> well_formed c'.
Proof.
  intros HL HF HU [Hk Hp Hi Hf Hb].
  split; rewrite ?HL, ?HF, ?HU; assumption.
Qed.

Lemma well_formed_stable : stable well_formed.
Proof.
  split; intros v c H; apply (@well_formed_frame c); try reflexivity; exact H.
Qed.

Lemma registered_handlers (kind : Z) (c : Client) :
  well_formed c ->
  NoDup (map query_id
           (map snd (filter (fun kl => fst kl =? kind) (listeners c))))
  /\ forall h,
       In h (map snd (filter (fun kl => fst kl =? kind) (listeners c))) ->
       In (FCTYPE_USERNAMELOOKUP, h) (listeners c).
Proof.
  intros Hwf. split.
  - rewrite map_map. apply nodup_map_filter. exact (wf_ids Hwf).
  - intros h Hh. apply in_map_iff in Hh as ([k h'] & Hs & Hi).
    cbn [snd] in Hs. subst h'. apply filter_In in Hi as [Hi _].
    rewrite <- (wf_kind Hwf _ _ Hi). exact Hi.
Qed.

Lemma emit_keeps_well_formed (kind : Z) (arg : option Packet) :
  preserves well_formed (emit kind arg).
Proof.
  intros c Hwf. unfold emit, bind, modify, get.
  set (c1 := set_emitted (emitted c ++ [(kind, arg)]) c).
  assert (Hwf1 : well_formed c1)
    by (apply (@well_formed_frame c); try reflexivity; exact Hwf).
  destruct (registered_handlers kind Hwf1) as [Hnd Hin].
  apply handlers_keep_well_formed; assumption.
Qed.

(** *** [query_user] *)

Lemma query_user_registered (user : pyval) (c : Client) :
  query_user user c
  = match user with
    | PInt z =>
        bind (tx_cmd (Member FCTYPE_USERNAMELOOKUP) 0 (userQueryId c) z (PStr []))
             (fun _ => ret (length (futures c)))
    | PBool b =>
        bind (tx_cmd (Member FCTYPE_USERNAMELOOKUP) 0 (userQueryId c)
                (if b then 1 else 0) (PStr []))
             (fun _ => ret (length (futures c)))
    | PStr _ =>
        bind (tx_cmd (Member FCTYPE_USERNAMELOOKUP) 0 (userQueryId c) 0 user)
             (fun _ => ret (length (futures c)))
    | _ => raise (Exception "Invalid Argument")
    end (registered c).
Proof. destruct user; reflexivity. Qed.

Lemma registered_well_formed (c : Client) :
  well_formed c -> well_formed (registered c).
Proof.
  intros [Hk Hp Hi Hf Hb].
  assert (Hlt : forall k h, In (k, h) (listeners c) ->
                            (future_ix h < length (futures c))%nat).
  { intros k h H. apply nth_error_Some. rewrite (Hp k h H). discriminate. }
  split; unfold registered;
    cbn [listeners futures userQueryId set_listeners set_userQueryId set_futures].
  - intros k h H. apply in_app_or in H as [H | [H | []]]; [apply (Hk k h H) |].
    injection H as <- _. reflexivity.
  - intros k h H. apply in_app_or in H as [H | [H | []]].
    + rewrite nth_error_app1 by (apply (Hlt k h H)). apply (Hp k h H).
    + injection H as _ <-. cbn [future_ix].
      rewrite nth_error_app2 by lia. rewrite Nat.sub_diag. reflexivity.
  - rewrite map_app. cbn [map snd query_id].
    apply NoDup_app; [exact Hi | constructor; [intros [] | constructor] |].
    intros x Hx [Hy | []]. subst x.
    apply in_map_iff in Hx as ([k h] & Hq & Hin). cbn [snd] in Hq.
    pose proof (Hb k h Hin). lia.
  - rewrite map_app. cbn [map snd future_ix].
    apply NoDup_app; [exact Hf | constructor; [intros [] | constructor] |].
    intros x Hx [Hy | []]. subst x.
    apply in_map_iff in Hx as ([k h] & Hq & Hin). cbn [snd] in Hq.
    pose proof (Hlt k h Hin). lia.
  - intros k h H. apply in_app_or in H as [H | [H | []]].
    + pose proof (Hb k h H). lia.
    + injection H as _ <-. cbn [query_id]. lia.
Qed.

Lemma tx_cmd_preserves (I : Client -> Prop)
  (kind : kind_arg) (to a1 a2 : Z) (smsg : pyval) :
  (forall v c, I c -> I (set_transport v c)) ->
  preserves I (tx_cmd kind to a1 a2 smsg).
Proof.
  intros HI. unfold tx_cmd, transport_write.
  through ltac:(intros; apply HI; assumption).
Qed.

Lemma query_user_keeps_well_formed (user : pyval) :
  preserves well_formed (query_user user).
Proof.
  intros c Hwf. rewrite query_user_registered.
  pose proof (registered_well_formed Hwf) as Hr.
  assert (Ht : forall kind to a1 a2 smsg,
             preserves well_formed
               (bind (tx_cmd kind to a1 a2 smsg)
                     (fun _ => ret (length (futures c))))).
  { intros. apply preserves_bind; [| intros _; apply preserves_ret].
    apply tx_cmd_preserves. intros v c0 H0.
    apply (@well_formed_frame c0); try reflexivity; exact H0. }
  destruct user; try exact Hr; apply Ht; exact Hr.
Qed.

Lemma handle_disconnected_keeps_well_formed :
  preserves well_formed handle_disconnected.
Proof.
  unfold handle_disconnected.
  through_with
    ltac:(idtac; match goal with
                 | |- preserves _ (emit _ _) => apply emit_keeps_well_formed
                 end)
    ltac:(intros;
          match goal with
          | H : well_formed ?c |- _ =>
              apply (@well_formed_frame c); try reflexivity; exact H
          end).
Qed.

(** X10: the queries stay in order.  A new client has none; and
    whatever their arguments and their outcome, [query_user],
    [handle_packet_received] and [handle_disconnected] leave every
    registered handler waiting on a pending future of its own, with a
    query id of its own below the class counter.  So no response ever
    completes a future twice. *)
Theorem queries_stay_well_formed :
  (forall user pass all, well_formed (init user pass all))
  /\ (forall user c, well_formed c -> well_formed (snd (query_user user c)))
  /\ (forall depth p c,
        well_formed c -> well_formed (snd (handle_packet_received depth p c)))
  /\ (forall c, well_formed c -> well_formed (snd (handle_disconnected c))).
Proof.
  split; [| split; [| split]].
  - intros user pass all. split; cbn [init listeners map]; try constructor;
      intros k l [].
  - intros user c H. apply (@query_user_keeps_well_formed user c H).
  - intros depth p c H.
    apply (@handle_packet_received_preserves well_formed well_formed_stable
             emit_keeps_well_formed depth p c H).
  - intros c H. apply (@handle_disconnected_keeps_well_formed c H).
Qed.

(** X11: on an open connection [query_user] returns a new pending
    future, takes the value of the class counter as the query id and
    adds one to the counter, registers one more handler, and writes one
    [USERNAMELOOKUP] frame whose first argument is the query id; the
    user id travels as second argument, a user name as payload. *)
Theorem query_user_registers (c : Client) (t : Transport) :
  transport c = Some t ->
  (forall z : Z,
      forallb in_int32 [FCTYPE_USERNAMELOOKUP; session_id c; userQueryId c; z]
      = true ->
      query_user (PInt z) c
      = (Ret (length (futures c)),
         wrote (frame_bytes (mkFrame FCTYPE_USERNAMELOOKUP (session_id c) 0
                               (userQueryId c) z []))
               t (registered c)))
  /\ (forall name : pystr,
        ascii_text name ->
        forallb in_int32 [FCTYPE_USERNAMELOOKUP; session_id c; userQueryId c;
                          Z.of_nat (length name)] = true ->
        query_user (PStr name) c
        = (Ret (length (futures c)),
           wrote (frame_bytes (mkFrame FCTYPE_USERNAMELOOKUP (session_id c) 0
                                 (userQueryId c) 0 (map byte_of_Z name)))
                 t (registered c)))
  /\ nth_error (futures (registered c)) (length (futures c)) = Some Pending
  /\ userQueryId (registered c) = userQueryId c + 1
  /\ listeners (registered c)
     = listeners c ++ [(FCTYPE_USERNAMELOOKUP,
                        mkListener (userQueryId c) (length (futures c)))].
Proof.
  intros Ht.
  assert (Ht' : transport (registered c) = Some t) by exact Ht.
  split; [| split; [| split; [| split]]].
  - intros z Hr. rewrite query_user_registered. unfold bind.
    rewrite (@tx_cmd_ascii E (registered c) t FCTYPE_USERNAMELOOKUP 0
               (userQueryId c) z [] Ht').
    + reflexivity.
    + change (session_id (registered c)) with (session_id c).
      cbn [forallb] in *.
      apply andb_true_iff in Hr as [H1 Hr]. apply andb_true_iff in Hr as [H2 Hr].
      apply andb_true_iff in Hr as [H3 Hr]. apply andb_true_iff in Hr as [H4 _].
      rewrite H1, H2, H3, H4. reflexivity.
    + constructor.
  - intros name Ha Hr. rewrite query_user_registered. unfold bind.
    rewrite (@tx_cmd_ascii E (registered c) t FCTYPE_USERNAMELOOKUP 0
               (userQueryId c) 0 name Ht').
    + reflexivity.
    + change (session_id (registered c)) with (session_id c).
      cbn [forallb] in *.
      apply andb_true_iff in Hr as [H1 Hr]. apply andb_true_iff in Hr as [H2 Hr].
      apply andb_true_iff in Hr as [H3 Hr]. apply andb_true_iff in Hr as [H4 _].
      rewrite H1, H2, H3, H4. reflexivity.
    + exact Ha.
  - unfold registered.
    cbn [futures set_listeners set_userQueryId set_futures].
    rewrite nth_error_app2 by lia. rewrite Nat.sub_diag. reflexivity.
  - reflexivity.
  - reflexivity.
Qed.

(** X12: an argument that is neither an [int] nor a [str] is refused
    with [Exception("Invalid Argument")] only after the future was
    created, the query id taken and the handler registered: nothing is
    sent, and the handler and its pending future stay behind. *)
Theorem query_user_invalid_argument (user : pyval) (c : Client) :
  query_argument user = false ->
  query_user user c = (Raise (Exception "Invalid Argument"), registered c)
  /\ transport (registered c) = transport c
  /\ In (FCTYPE_USERNAMELOOKUP, mkListener (userQueryId c) (length (futures c)))
        (listeners (registered c))
  /\ nth_error (futures (registered c)) (length (futures c)) = Some Pending.
Proof.
  intros H. split; [| split; [reflexivity | split]].
  - rewrite query_user_registered. destruct user; try discriminate; reflexivity.
  - unfold registered. cbn [listeners set_listeners].
    apply in_or_app. right. left. reflexivity.
  - unfold registered.
    cbn [futures set_listeners set_userQueryId set_futures].
    rewrite nth_error_app2 by lia. rewrite Nat.sub_diag. reflexivity.
Qed.

(** *** Responses *)

Lemma member_in (x : Z) (l : list Z) : In x l -> member x l = true.
Proof.
  intros H. unfold member. apply existsb_exists. exists x.
  split; [exact H | apply Z.eqb_refl].
Qed.

Lemma set_models_same (c : Client) : set_models (models c) c = c.
Proof. destruct c. reflexivity. Qed.

(** A detail packet only reaches the registry. *)
Lemma process_detail_state (reinject : Packet -> M unit) (p : Packet)
  (c0 : Client) :
  fctype p <> FCTYPE_LOGIN ->
  In (fctype p) detail_kinds ->
  preserves (fun c' => exists r, c' = set_models r c0)
            (_process_packet reinject p).
Proof.
  intros Hl Hd. unfold _process_packet. cbv zeta.
  replace (fctype p =? FCTYPE_LOGIN) with false
    by (symmetry; apply Z.eqb_neq; exact Hl).
  rewrite (member_in _ _ Hd).
  through_with
    ltac:(idtac; match goal with
                 | |- preserves _ (merge_model _ _ _) => unfold merge_model
                 end)
    ltac:(intros c r [r0 ->]; exists r; reflexivity).
Qed.

Lemma process_detail_value (reinject : Packet -> M unit) (p q : Packet)
  (c c1 : Client) :
  fctype p <> FCTYPE_LOGIN ->
  In (fctype p) detail_kinds ->
  _process_packet reinject p c = (Ret q, c1) ->
  q = processed p.
Proof.
  intros Hl Hd. unfold _process_packet. cbv zeta.
  replace (fctype p =? FCTYPE_LOGIN) with false
    by (symmetry; apply Z.eqb_neq; exact Hl).
  rewrite (member_in _ _ Hd).
  unfold processed, excepted, with_defaults.
  destruct (((fctype p =? FCTYPE_DETAILS) && (nfrom p =? FCTYPE_TOKENINC))
            || ((fctype p =? FCTYPE_ROOMHELPER) && (narg2 p <? 100))
            || ((fctype p =? FCTYPE_JOINCHAN) && (narg2 p =? FCCHAN_PART)));
    cbn [negb]; [intros H; injection H as <- _; reflexivity |].
  destruct (smessage p) as [| | | | | | d];
    try (intros H; injection H as <- _; reflexivity).
  destruct (Py.dict_setdefault d (PStr (str_of "lv")) PNone) as [ul d1].
  cbn [snd].
  destruct (Py.dict_setdefault d1 (PStr (str_of "uid")) PNone) as [ui d2].
  cbn [snd]. unfold bind.
  destruct ((if Py.is_none ui
             then on_models
                    (aboutmodel_uid (with_smessage (PDict d2) p))
             else ret ui) c) as [[v | e] c2]; [| discriminate].
  destruct (negb (Py.is_none v) && negb (Py.eq_int v (-1))
            && (negb (Py.is_none ul) || Py.eq_int ul 4)).
  - destruct (merge_model v (Some (Py.eq_int ul 4))
                (smessage (with_smessage (PDict d2) p)) c2) as [[u | e] c3];
      [| discriminate].
    intros H; injection H as <- _; reflexivity.
  - intros H; injection H as <- _; reflexivity.
Qed.

Lemma processed_header (p : Packet) :
  fctype (processed p) = fctype p /\ narg1 (processed p) = narg1 p.
Proof.
  unfold processed. destruct (excepted p); [split; reflexivity |].
  destruct (smessage p); split; reflexivity.
Qed.

Lemma emit_skips (kind : Z) (p : Packet) (c : Client) :
  (forall k h, In (k, h) (listeners c) -> query_id h <> narg1 p) ->
  emit kind (Some p) c
  = (Ret tt, set_emitted (emitted c ++ [(kind, Some p)]) c).
Proof.
  intros H. unfold emit, bind, modify, get.
  apply handlers_skip. intros h Hh.
  apply in_map_iff in Hh as ([k h'] & Hs & Hi). cbn [snd] in Hs. subst h'.
  apply filter_In in Hi as [Hi _]. apply (H k h Hi).
Qed.

Lemma emit_completes (l : listener) (q : Packet) (c : Client) :
  well_formed c ->
  In (FCTYPE_USERNAMELOOKUP, l) (listeners c) ->
  narg1 q = query_id l ->
  emit FCTYPE_USERNAMELOOKUP (Some q) c
  = (Ret tt,
     completed l q
       (set_emitted (emitted c ++ [(FCTYPE_USERNAMELOOKUP, Some q)]) c)).
Proof.
  intros Hwf Hin Hq. unfold emit, bind, modify, get.
  set (c1 := set_emitted (emitted c ++ [(FCTYPE_USERNAMELOOKUP, Some q)]) c).
  assert (Hwf1 : well_formed c1)
    by (apply (@well_formed_frame c); try reflexivity; exact Hwf).
  destruct (registered_handlers FCTYPE_USERNAMELOOKUP Hwf1) as [Hnd _].
  assert (Hl : In l (map snd (filter (fun kl => fst kl =? FCTYPE_USERNAMELOOKUP)
                                (listeners c1)))).
  { apply in_map_iff. exists (FCTYPE_USERNAMELOOKUP, l).
    split; [reflexivity |]. apply filter_In. split; [exact Hin |].
    apply Z.eqb_refl. }
  destruct (in_split _ _ Hl) as (hs1 & hs2 & Hs). rewrite Hs in *.
  rewrite map_app in Hnd. cbn [map] in Hnd.
  pose proof (NoDup_remove_2 _ _ _ Hnd) as Hno.
  rewrite for_each_app. unfold bind.
  rewrite handlers_skip.
  - cbn [for_each]. unfold bind.
    rewrite (handler_match l q c1 Hq (wf_pending Hwf1 _ _ Hin)).
    apply handlers_skip. intros h Hh Hc. apply Hno.
    apply in_or_app. right. rewrite <- Hq, <- Hc. apply in_map, Hh.
  - intros h Hh Hc. apply Hno.
    apply in_or_app. left. rewrite <- Hq, <- Hc. apply in_map, Hh.
Qed.

(** X13: the response to a query completes its future, once.  When a
    [USERNAMELOOKUP] packet whose first argument is the id of a
    registered query is handled without exception, the future of that
    query holds the payload if it is a dict (as [_process_packet] left
    it, with its [lv] and [uid] defaults) and [None] otherwise; its
    handler is unregistered; no other future and no other handler is
    touched; and the same response handled again completes nothing. *)
Theorem response_completes_query
  (c c' : Client) (l : listener) (p : Packet) (depth : nat) :
  well_formed c ->
  In (FCTYPE_USERNAMELOOKUP, l) (listeners c) ->
  FCTYPE_USERNAMELOOKUP <> FCTYPE_LOGIN ->
  fctype p = FCTYPE_USERNAMELOOKUP ->
  narg1 p = query_id l ->
  handle_packet_received (S depth) p c = (Ret tt, c') ->
  nth_error (futures c') (future_ix l) = Some (Done (answer (processed p)))
  /\ (forall ix, ix <> future_ix l ->
        nth_error (futures c') ix = nth_error (futures c) ix)
  /\ listeners c' = remove_first FCTYPE_USERNAMELOOKUP l (listeners c)
  /\ ~ In (FCTYPE_USERNAMELOOKUP, l) (listeners c')
  /\ well_formed c'
  /\ forall kind,
       emit kind (Some (processed p)) c'
       = (Ret tt, set_emitted (emitted c' ++ [(kind, Some (processed p))]) c').
Proof.
  intros Hwf Hin Hlog Hft Hq Hrun.
  assert (Hwf' : well_formed c').
  { pose proof (@handle_packet_received_preserves well_formed well_formed_stable
                  emit_keeps_well_formed (S depth) p c Hwf) as H.
    rewrite Hrun in H. exact H. }
  assert (Hd : In (fctype p) detail_kinds).
  { rewrite Hft. unfold detail_kinds. do 8 right. left. reflexivity. }
  assert (Hl' : fctype p <> FCTYPE_LOGIN) by (rewrite Hft; exact Hlog).
  cbn [handle_packet_received] in Hrun.
  apply bind_ret_inv in Hrun as (q & c1 & Hproc & Hrun).
  pose proof (process_detail_value _ _ _ Hl' Hd Hproc) as ->.
  assert (Hst : exists r, c1 = set_models r c).
  { pose proof (@process_detail_state (handle_packet_received depth) p c Hl' Hd c)
      as Hst.
    cbv beta in Hst. rewrite Hproc in Hst. apply Hst.
    exists (models c). symmetry. apply set_models_same. }
  destruct Hst as [r ->].
  destruct (processed_header p) as [Hf1 Hn1].
  set (q := processed p) in *.
  assert (Hwf1 : well_formed (set_models r c))
    by (apply (@well_formed_frame c); try reflexivity; exact Hwf).
  apply bind_ret_inv in Hrun as ([] & c2 & Hemit & Hany).
  rewrite Hf1, Hft in Hemit.
  rewrite (@emit_completes l q (set_models r c) Hwf1 Hin
             (eq_trans Hn1 Hq)) in Hemit.
  injection Hemit as <-.
  assert (Hgone : forall k h,
             In (k, h) (remove_first FCTYPE_USERNAMELOOKUP l (listeners c)) ->
             query_id h <> narg1 q).
  { intros k h Hi. rewrite Hn1, Hq.
    exact (@remove_first_gone _ _ _ (wf_ids Hwf) Hin _ _ Hi). }
  rewrite emit_skips in Hany by exact Hgone.
  injection Hany as <-.
  assert (Hlt : (future_ix l < length (futures c))%nat).
  { apply nth_error_Some. rewrite (wf_pending Hwf _ _ Hin). discriminate. }
  destruct (nth_error_replace (futures c) (Done (answer q)) Hlt) as [Hat Hoth].
  split; [exact Hat |]. split; [exact Hoth |]. split; [reflexivity |].
  split; [| split; [exact Hwf' |]].
  - intros Hi. apply (Hgone _ _ Hi). rewrite Hn1, Hq. reflexivity.
  - intros kind. apply emit_skips. exact Hgone.
Qed.

(** X14: a packet whose first argument is the id of no registered
    query completes nothing and removes no handler, under whichever
    kind it is announced: [emit] records it and returns. *)
Theorem unmatched_response_is_ignored (kind : Z) (p : Packet) (c : Client) :
  (forall k h, In (k, h) (listeners c) -> query_id h <> narg1 p) ->
  emit kind (Some p) c
  = (Ret tt, set_emitted (emitted c ++ [(kind, Some p)]) c)
  /\ futures (snd (emit kind (Some p) c)) = futures c
  /\ listeners (snd (emit kind (Some p) c)) = listeners c.
Proof.
  intros H. rewrite (emit_skips kind p c H). repeat split.
Qed.

End WithEnvironment.

Lemma queries_stay_well_formed_witness :
  @well_formed Sample.constants Sample.environment
    (snd (@query_user Sample.constants Sample.environment (PInt 12345)
            (@init Sample.environment (PStr (str_of "guest"))
               (PStr (str_of "guest")) []))).
Proof.
  exact (proj1 (proj2 (@queries_stay_well_formed Sample.constants
                         Sample.environment))
           (PInt 12345) _
           (proj1 (@queries_stay_well_formed Sample.constants Sample.environment)
              (PStr (str_of "guest")) (PStr (str_of "guest")) [])).
Defined.

Lemma query_user_registers_witness :
  transport Sample.connected = Some (mkTransport [] false)
  /\ forallb in_int32 [@FCTYPE_USERNAMELOOKUP Sample.constants;
                       session_id Sample.connected;
                       userQueryId Sample.connected; 12345] = true
  /\ @query_user Sample.constants Sample.environment (PInt 12345) Sample.connected
     = (Ret 0%nat,
        wrote (frame_bytes (mkFrame 10 0 0 20 12345 []))
              (mkTransport [] false)
              (@registered Sample.constants Sample.environment Sample.connected)).
Proof.
  assert (H1 : transport Sample.connected = Some (mkTransport [] false))
    by reflexivity.
  assert (H2 : forallb in_int32 [@FCTYPE_USERNAMELOOKUP Sample.constants;
                                 session_id Sample.connected;
                                 userQueryId Sample.connected; 12345] = true)
    by reflexivity.
  split; [exact H1 |]. split; [exact H2 |].
  exact (proj1 (@query_user_registers Sample.constants Sample.environment
                  Sample.connected (mkTransport [] false) H1) 12345 H2).
Defined.

Lemma query_user_invalid_argument_witness :
  query_argument PNone = false
  /\ @query_user Sample.constants Sample.environment PNone Sample.connected
     = (Raise (Exception "Invalid Argument"),
        @registered Sample.constants Sample.environment Sample.connected).
Proof.
  split; [reflexivity |].
  exact (proj1 (@query_user_invalid_argument Sample.constants Sample.environment
                  PNone Sample.connected eq_refl)).
Defined.

Lemma response_completes_query_witness :
  exists c',
    @handle_packet_received Sample.constants Sample.environment 1
      (mkPacket 10 0 0 20 0
         (PDict [(PStr (str_of "nm"), PStr (str_of "alice"))]))
      (snd (@query_user Sample.constants Sample.environment
              (PStr (str_of "alice")) Sample.connected))
    = (Ret tt, c')
    /\ nth_error (futures c') 0
       = Some (Done (PDict [(PStr (str_of "nm"), PStr (str_of "alice"));
                            (PStr (str_of "lv"), PNone);
                            (PStr (str_of "uid"), PNone)]))
    /\ listeners c' = [].
Proof.
  eexists. split; [vm_compute; reflexivity |].
  assert (Hwf : @well_formed Sample.constants Sample.environment
                  (snd (@query_user Sample.constants Sample.environment
                          (PStr (str_of "alice")) Sample.connected))).
  { apply (@query_user_keeps_well_formed Sample.constants Sample.environment).
    split; cbn; try constructor; intros k l []. }
  match goal with
  | |- nth_error (futures ?c') _ = _ /\ _ =>
      destruct (@response_completes_query Sample.constants Sample.environment
                  (snd (@query_user Sample.constants Sample.environment
                          (PStr (str_of "alice")) Sample.connected))
                  c' (mkListener 20 0)
                  (mkPacket 10 0 0 20 0
                     (PDict [(PStr (str_of "nm"), PStr (str_of "alice"))]))
                  0%nat Hwf)
        as (H1 & _ & H3 & _)
  end.
  - left. reflexivity.
  - discriminate.
  - reflexivity.
  - reflexivity.
  - vm_compute. reflexivity.
  - split; [exact H1 | exact H3].
Defined.

(** A query with id 20 is registered; a response with id 77 arrives. *)
Lemma unmatched_response_is_ignored_witness :
  listeners (snd (@query_user Sample.constants Sample.environment (PInt 12345)
                    Sample.connected))
  = [(10, mkListener 20 0)]
  /\ fst (@emit Sample.constants Sample.environment 10
            (Some (mkPacket 10 0 0 77 0 PNone))
            (snd (@query_user Sample.constants Sample.environment (PInt 12345)
                    Sample.connected)))
     = Ret tt
  /\ futures (snd (@emit Sample.constants Sample.environment 10
                     (Some (mkPacket 10 0 0 77 0 PNone))
                     (snd (@query_user Sample.constants Sample.environment
                             (PInt 12345) Sample.connected))))
     = [Pending]
  /\ listeners (snd (@emit Sample.constants Sample.environment 10
                       (Some (mkPacket 10 0 0 77 0 PNone))
                       (snd (@query_user Sample.constants Sample.environment
                               (PInt 12345) Sample.connected))))
     = [(10, mkListener 20 0)].
Proof.
  set (c := snd (@query_user Sample.constants Sample.environment (PInt 12345)
                   Sample.connected)).
  assert (Hl : listeners c = [(10, mkListener 20 0)]) by reflexivity.
  assert (H : forall k h, In (k, h) (listeners c) ->
                          query_id h <> narg1 (mkPacket 10 0 0 77 0 PNone)).
  { intros k h Hin. rewrite Hl in Hin. destruct Hin as [Heq | []].
    injection Heq as _ <-. discriminate. }
  destruct (@unmatched_response_is_ignored Sample.constants Sample.environment
              10 (mkPacket 10 0 0 77 0 PNone) c H) as (He & Hf & Hls).
  split; [exact Hl |]. split; [rewrite He; reflexivity |].
  split; [rewrite Hf; reflexivity | rewrite Hls; exact Hl].
Defined.

End QueryFacts.

(** ** The teardown *)

Module TeardownFacts.
Import Wire Protocol Client ClientFacts Queries QueryFacts Teardown.

Section WithEnvironment.
Context {K : Constants} {E : Environment}.

Lemma handlers_without_packet (hs : list listener) (c : Client) :
  exists o, for_each (fun h => handler h None) hs c = (o, c).
Proof.
  destruct hs as [| h hs]; cbn [for_each].
  - exists (Ret tt). reflexivity.
  - exists (Raise TypeError). reflexivity.
Qed.

Lemma emit_without_packet (kind : Z) (c : Client) :
  exists o,
    emit kind None c = (o, set_emitted (emitted c ++ [(kind, None)]) c).
Proof.
  unfold emit, bind, modify, get.
  destruct (handlers_without_packet
              (map snd (filter (fun kl => fst kl =? kind)
                          (listeners (set_emitted (emitted c ++ [(kind, None)]) c))))
              (set_emitted (emitted c ++ [(kind, None)]) c)) as [o Ho].
  rewrite Ho. destruct o as [[] | e]; eexists; reflexivity.
Qed.

(** *** Running a method step by step *)

Lemma bind_modify (B : Type) (f : Client -> Client) (k : unit -> M B)
  (c : Client) :
  bind (modify f) k c = k tt (f c).
Proof. reflexivity. Qed.

Lemma bind_get (B : Type) (k : Client -> M B) (c : Client) :
  bind get k c = k c c.
Proof. reflexivity. Qed.

Lemma bind_ret (A B : Type) (a : A) (k : A -> M B) (c : Client) :
  bind (ret a) k c = k a c.
Proof. reflexivity. Qed.

Lemma bind_lift_ret (A B : Type) (a : A) (k : A -> M B) (c : Client) :
  bind (lift (Ret a)) k c = k a c.
Proof. reflexivity. Qed.

Lemma bind_lift_raise (A B : Type) (e : exn) (k : A -> M B) (c : Client) :
  bind (lift (@Raise A e)) k c = (Raise e, c).
Proof. reflexivity. Qed.

Lemma bind_raise (A B : Type) (e : exn) (k : A -> M B) (c : Client) :
  bind (@raise _ A e) k c = (Raise e, c).
Proof. reflexivity. Qed.

Lemma bind_assoc (A B D : Type) (m : M A) (k1 : A -> M B) (k2 : B -> M D)
  (c : Client) :
  bind (bind m k1) k2 c = bind m (fun a => bind (k1 a) k2) c.
Proof.
  unfold bind. destruct (m c) as [[a | e] c1]; reflexivity.
Qed.

Ltac run_steps :=
  repeat first
    [ rewrite bind_assoc
    | rewrite bind_modify
    | rewrite bind_get
    | rewrite bind_ret
    | rewrite bind_lift_ret
    | rewrite bind_lift_raise
    | rewrite bind_raise
    | progress cbv beta ].

(** *** The statements of [handle_disconnected] *)

Lemma run_keepalive (B : Type) (k : unit -> M B) (c : Client) :
  bind (match keepalive c with
        | Some ix =>
            bind (modify (fun c => set_loop (cancel_timer ix (loop c)) c))
                 (fun _ => modify (set_keepalive None))
        | None => ret tt
        end) k c
  = k tt (keepalive_cancelled c).
Proof.
  unfold keepalive_cancelled. destruct (keepalive c); run_steps; reflexivity.
Qed.

Lemma run_guest (B : Type) (k : unit -> M B) (c : Client) :
  nameless_guest c = false ->
  bind (if Py.eq_str (password c) (str_of "guest")
        then lift (py_startswith (username c) (str_of "Guest"))
        else ret false)
       (fun guest : bool =>
          bind (if guest
                then modify (set_username (PStr (str_of "guest")))
                else ret tt) k) c
  = k tt (guest_renamed c).
Proof.
  unfold nameless_guest, guest_renamed, guest_again. intros Hn.
  destruct (Py.eq_str (password c) (str_of "guest")); cbn [andb] in *.
  - destruct (username c); try discriminate Hn.
    unfold py_startswith. run_steps.
    destruct (Py.is_prefix (str_of "Guest") s); run_steps; reflexivity.
  - run_steps. reflexivity.
Qed.

Lemma run_guest_raises (B : Type) (k : bool -> M B) (c : Client) :
  nameless_guest c = true ->
  bind (if Py.eq_str (password c) (str_of "guest")
        then lift (py_startswith (username c) (str_of "Guest"))
        else ret false) k c
  = (Raise AttributeError, c).
Proof.
  unfold nameless_guest. intros Hn.
  destruct (Py.eq_str (password c) (str_of "guest")); [| discriminate Hn].
  destruct (username c); try discriminate Hn; reflexivity.
Qed.

Lemma run_reconnect_or_stop (B : Type) (k : unit -> M B) (c : Client) :
  bind (if negb (_manual_disconnect c)
        then
          bind (modify
                  (fun c0 : Client =>
                     set_printed
                       (printed c0 ++
                        ["Disconnected from MyFreeCams.  Reconnecting in 30 seconds..."%string])
                       c0))
               (fun _ : unit =>
                  modify
                    (fun c0 : Client =>
                       set_loop (call_later 30 CbReconnect (loop c0)) c0))
        else modify loop_stop) k c
  = k tt (reconnect_or_stop c).
Proof.
  unfold reconnect_or_stop.
  destruct (_manual_disconnect c); cbn [negb]; run_steps; reflexivity.
Qed.

Lemma keepalive_cancelled_identity (c : Client) :
  password (keepalive_cancelled c) = password c
  /\ username (keepalive_cancelled c) = username c
  /\ _manual_disconnect (keepalive_cancelled c) = _manual_disconnect c.
Proof.
  unfold keepalive_cancelled. destruct (keepalive c); repeat split.
Qed.

Lemma nameless_guest_cancelled (c : Client) :
  nameless_guest (keepalive_cancelled c) = nameless_guest c.
Proof.
  unfold nameless_guest.
  destruct (keepalive_cancelled_identity c) as (-> & -> & _). reflexivity.
Qed.

(** [handle_disconnected], when the guest test does not raise. *)
Lemma handle_disconnected_run (c : Client) :
  nameless_guest c = false ->
  handle_disconnected c
  = bind (emit FCTYPE_CLIENT_DISCONNECTED None) (fun _ => on_models reset)
         (announce_ready c).
Proof.
  intros Hn. unfold handle_disconnected, announce_ready.
  rewrite bind_get. cbv beta. rewrite run_keepalive. cbv beta.
  rewrite bind_get. cbv beta.
  rewrite run_guest by (rewrite nameless_guest_cancelled; exact Hn).
  cbv beta. rewrite !bind_modify. rewrite bind_get. cbv beta.
  fold (flags_reset (guest_renamed (keepalive_cancelled c))).
  rewrite run_reconnect_or_stop. cbv beta. rewrite bind_modify.
  reflexivity.
Qed.

(** [handle_disconnected], when the guest test raises. *)
Lemma handle_disconnected_fails (c : Client) :
  nameless_guest c = true ->
  handle_disconnected c = (Raise AttributeError, keepalive_cancelled c).
Proof.
  intros Hn. unfold handle_disconnected.
  rewrite bind_get. cbv beta. rewrite run_keepalive. cbv beta.
  rewrite bind_get. cbv beta.
  rewrite run_guest_raises by (rewrite nameless_guest_cancelled; exact Hn).
  reflexivity.
Qed.

Lemma announce_then_reset (c5 : Client) :
  exists o r,
    bind (emit FCTYPE_CLIENT_DISCONNECTED None) (fun _ => on_models reset) c5
    = (o, set_models r
            (set_emitted
               (emitted c5 ++ [(FCTYPE_CLIENT_DISCONNECTED, None)]) c5)).
Proof.
  unfold bind.
  destruct (emit_without_packet FCTYPE_CLIENT_DISCONNECTED c5) as [o Ho].
  rewrite Ho. destruct o as [[] | e].
  - unfold on_models. cbn [models set_emitted].
    destruct (reset (models c5)) as [o r]. exists o, r. reflexivity.
  - exists (Raise e), (models c5). cbn [models set_emitted].
    rewrite <- (set_models_same
                  (set_emitted
                     (emitted c5 ++ [(FCTYPE_CLIENT_DISCONNECTED, None)]) c5))
      at 1.
    reflexivity.
Qed.

(** What [handle_disconnected] leaves: the torn client, with the
    registry as [reset] left it if it was reached. *)
Lemma handle_disconnected_torn (c : Client) :
  nameless_guest c = false ->
  exists o r, handle_disconnected c = (o, set_models r (torn c)).
Proof.
  intros Hn. rewrite (handle_disconnected_run c Hn).
  apply announce_then_reset.
Qed.

(** *** What each statement leaves alone *)

Lemma guest_renamed_frame (c : Client) :
  loop (guest_renamed c) = loop c
  /\ keepalive (guest_renamed c) = keepalive c
  /\ _manual_disconnect (guest_renamed c) = _manual_disconnect c
  /\ printed (guest_renamed c) = printed c
  /\ transport (guest_renamed c) = transport c
  /\ emitted (guest_renamed c) = emitted c.
Proof.
  unfold guest_renamed. destruct (guest_again c); repeat split.
Qed.

Lemma keepalive_cancelled_frame (c : Client) :
  keepalive (keepalive_cancelled c) = None
  /\ stopped (loop (keepalive_cancelled c)) = stopped (loop c)
  /\ printed (keepalive_cancelled c) = printed c
  /\ transport (keepalive_cancelled c) = transport c
  /\ emitted (keepalive_cancelled c) = emitted c
  /\ _completed_models (keepalive_cancelled c) = _completed_models c
  /\ _completed_tags (keepalive_cancelled c) = _completed_tags c.
Proof.
  unfold keepalive_cancelled. destruct (keepalive c) as [ix |] eqn:Ek.
  - cbn [keepalive loop printed transport emitted _completed_models
         _completed_tags set_keepalive set_loop].
    unfold cancel_timer. destruct (nth_error (timers (loop c)) ix);
      repeat split.
  - repeat split. exact Ek.
Qed.

Lemma reconnect_or_stop_frame (c : Client) :
  keepalive (reconnect_or_stop c) = keepalive c
  /\ transport (reconnect_or_stop c) = transport c
  /\ emitted (reconnect_or_stop c) = emitted c
  /\ username (reconnect_or_stop c) = username c.
Proof.
  unfold reconnect_or_stop. destruct (_manual_disconnect c); repeat split.
Qed.

(** The client after [handle_disconnected], when the guest test does
    not raise, attribute by attribute. *)
Lemma after_teardown (c : Client) :
  nameless_guest c = false ->
  loop (snd (handle_disconnected c))
  = loop (reconnect_or_stop (flags_reset (guest_renamed (keepalive_cancelled c))))
  /\ printed (snd (handle_disconnected c))
     = printed (reconnect_or_stop
                  (flags_reset (guest_renamed (keepalive_cancelled c))))
  /\ keepalive (snd (handle_disconnected c)) = None
  /\ _manual_disconnect (snd (handle_disconnected c)) = false
  /\ transport (snd (handle_disconnected c)) = transport c
  /\ emitted (snd (handle_disconnected c))
     = emitted c ++ [(FCTYPE_CLIENT_DISCONNECTED, None)]
  /\ username (snd (handle_disconnected c))
     = username (guest_renamed (keepalive_cancelled c)).
Proof.
  intros Hn. destruct (handle_disconnected_torn c Hn) as (o & r & H).
  rewrite H. cbn [snd]. unfold torn, announce_ready.
  set (c3 := flags_reset (guest_renamed (keepalive_cancelled c))).
  cbn [loop printed keepalive _manual_disconnect transport emitted username
       set_models set_emitted set__manual_disconnect].
  destruct (reconnect_or_stop_frame c3) as (Hk & Ht & He & Hu).
  destruct (guest_renamed_frame (keepalive_cancelled c))
    as (_ & Hk2 & _ & _ & Ht2 & He2).
  destruct (keepalive_cancelled_frame c) as (Hk3 & _ & _ & Ht3 & He3 & _).
  split; [reflexivity |]. split; [reflexivity |].
  split; [rewrite Hk; unfold c3; cbn [keepalive flags_reset set__completed_tags
                                      set__completed_models];
          rewrite Hk2; exact Hk3 |].
  split; [reflexivity |].
  split; [rewrite Ht; unfold c3; cbn [transport flags_reset set__completed_tags
                                      set__completed_models];
          rewrite Ht2; exact Ht3 |].
  split; [rewrite He; unfold c3; cbn [emitted flags_reset set__completed_tags
                                      set__completed_models];
          rewrite He2, He3; reflexivity |].
  rewrite Hu. reflexivity.
Qed.

Lemma loop_before_choice (c : Client) :
  loop (flags_reset (guest_renamed (keepalive_cancelled c)))
  = loop (keepalive_cancelled c)
  /\ _manual_disconnect (flags_reset (guest_renamed (keepalive_cancelled c)))
     = _manual_disconnect c
  /\ printed (flags_reset (guest_renamed (keepalive_cancelled c))) = printed c.
Proof.
  destruct (guest_renamed_frame (keepalive_cancelled c))
    as (Hl & _ & Hm & Hp & _ & _).
  destruct (keepalive_cancelled_identity c) as (_ & _ & Hm2).
  destruct (keepalive_cancelled_frame c) as (_ & _ & Hp2 & _).
  cbn [loop _manual_disconnect printed flags_reset set__completed_tags
       set__completed_models].
  rewrite Hl, Hm, Hm2, Hp, Hp2. repeat split.
Qed.

Lemma cancel_timer_live (ix : nat) (l : EventLoop) (t : timer) :
  In t (timers (cancel_timer ix l)) -> cancelled t = false -> In t (timers l).
Proof.
  unfold cancel_timer. destruct (nth_error (timers l) ix) as [t0 |] eqn:Hnth;
    [| tauto].
  cbn [timers]. intros Hin Hc.
  apply in_app_or in Hin as [Hin | [Heq | Hin]].
  - rewrite <- (firstn_skipn ix (timers l)). apply in_or_app. left. exact Hin.
  - subst t. discriminate Hc.
  - rewrite <- (firstn_skipn (S ix) (timers l)). apply in_or_app. right.
    exact Hin.
Qed.

Lemma keepalive_cancelled_live (c : Client) :
  reconnect_scheduled (keepalive_cancelled c) -> reconnect_scheduled c.
Proof.
  unfold reconnect_scheduled, keepalive_cancelled.
  destruct (keepalive c) as [ix |]; [| tauto].
  cbn [loop set_keepalive set_loop].
  intros (t & Hin & Ha & Hc). exists t.
  split; [apply (cancel_timer_live ix _ _ Hin Hc) | split; assumption].
Qed.

(** X15: after [disconnect()], the teardown stops the event loop and
    schedules nothing: on an open connection [disconnect] closes the
    transport, and when the connection is then lost
    [handle_disconnected] stops the loop, adds no timer (any reconnect
    still scheduled afterwards was scheduled before), prints nothing,
    and leaves [_manual_disconnect] false for the next connection. *)
Theorem manual_disconnect_stops_the_loop (c : Client) (t : Transport) :
  transport c = Some t ->
  nameless_guest c = false ->
  disconnect c = (Ret tt, snd (disconnect c))
  /\ transport (snd (disconnect c)) = Some (mkTransport (written t) true)
  /\ stopped (loop (snd (handle_disconnected (snd (disconnect c))))) = true
  /\ timers (loop (snd (handle_disconnected (snd (disconnect c)))))
     = timers (loop (keepalive_cancelled c))
  /\ (reconnect_scheduled (snd (handle_disconnected (snd (disconnect c)))) ->
      reconnect_scheduled c)
  /\ printed (snd (handle_disconnected (snd (disconnect c)))) = printed c
  /\ _manual_disconnect (snd (handle_disconnected (snd (disconnect c)))) = false.
Proof.
  intros Ht Hn.
  assert (Hd : disconnect c
               = (Ret tt,
                  set_transport (Some (mkTransport (written t) true))
                    (set__manual_disconnect true c))).
  { unfold disconnect, transport_close. run_steps.
    cbn [transport set__manual_disconnect]. rewrite Ht. reflexivity. }
  rewrite Hd. cbn [snd].
  set (c1 := set_transport (Some (mkTransport (written t) true))
               (set__manual_disconnect true c)).
  assert (Hn1 : nameless_guest c1 = false) by exact Hn.
  destruct (after_teardown c1 Hn1) as (Hl & Hp & _ & Hm & _).
  destruct (loop_before_choice c1) as (Hl1 & Hm1 & Hp1).
  assert (Hk : loop (keepalive_cancelled c1) = loop (keepalive_cancelled c)).
  { unfold keepalive_cancelled. change (keepalive c1) with (keepalive c).
    destruct (keepalive c); reflexivity. }
  assert (Hloop : loop (snd (handle_disconnected c1))
                  = mkLoop true (timers (loop (keepalive_cancelled c)))).
  { rewrite Hl. unfold reconnect_or_stop. rewrite Hm1.
    change (_manual_disconnect c1) with true. cbn [negb].
    unfold loop_stop. cbn [loop set_loop]. rewrite Hl1, Hk. reflexivity. }
  split; [reflexivity |]. split; [reflexivity |].
  split; [rewrite Hloop; reflexivity |].
  split; [rewrite Hloop; reflexivity |].
  split; [| split; [| exact Hm]].
  - intros (t0 & Hin & Ha & Hc). apply keepalive_cancelled_live.
    exists t0. rewrite Hloop in Hin. cbn [timers] in Hin.
    split; [exact Hin | split; assumption].
  - rewrite Hp. unfold reconnect_or_stop. rewrite Hm1.
    change (_manual_disconnect c1) with true. cbn [negb].
    unfold loop_stop. cbn [printed set_loop]. rewrite Hp1. reflexivity.
Qed.

(** X16: when the connection is lost and [disconnect()] was not
    called, the teardown schedules exactly one reconnect, 30 seconds
    later, after the timers there were; it does not stop the event
    loop; it prints its message once, announces [CLIENT_DISCONNECTED]
    once, and leaves the transport as it is. *)
Theorem lost_connection_schedules_reconnect (c : Client) :
  _manual_disconnect c = false ->
  nameless_guest c = false ->
  timers (loop (snd (handle_disconnected c)))
  = timers (loop (keepalive_cancelled c)) ++ [mkTimer 30 CbReconnect false]
  /\ stopped (loop (snd (handle_disconnected c))) = stopped (loop c)
  /\ reconnect_scheduled (snd (handle_disconnected c))
  /\ printed (snd (handle_disconnected c))
     = printed c
       ++ ["Disconnected from MyFreeCams.  Reconnecting in 30 seconds..."%string]
  /\ emitted (snd (handle_disconnected c))
     = emitted c ++ [(FCTYPE_CLIENT_DISCONNECTED, None)]
  /\ transport (snd (handle_disconnected c)) = transport c
  /\ _manual_disconnect (snd (handle_disconnected c)) = false.
Proof.
  intros Hm Hn.
  destruct (after_teardown c Hn) as (Hl & Hp & _ & Hm' & Ht & He & _).
  destruct (loop_before_choice c) as (Hl1 & Hm1 & Hp1).
  destruct (keepalive_cancelled_frame c) as (_ & Hs & _).
  assert (Hloop : loop (snd (handle_disconnected c))
                  = call_later 30 CbReconnect (loop (keepalive_cancelled c))).
  { rewrite Hl. unfold reconnect_or_stop. rewrite Hm1, Hm. cbn [negb].
    cbv zeta. cbn [loop set_loop set_printed]. rewrite Hl1. reflexivity. }
  split; [rewrite Hloop; reflexivity |].
  split; [rewrite Hloop; cbn [stopped call_later]; exact Hs |].
  split; [| split; [| split; [exact He | split; [exact Ht | exact Hm']]]].
  - exists (mkTimer 30 CbReconnect false). rewrite Hloop.
    cbn [timers call_later].
    split; [apply in_or_app; right; left; reflexivity | split; reflexivity].
  - rewrite Hp. unfold reconnect_or_stop. rewrite Hm1, Hm. cbn [negb].
    cbv zeta. cbn [printed set_loop set_printed]. rewrite Hp1. reflexivity.
Qed.

Lemma timers_after_teardown (c : Client) :
  keepalive (snd (handle_disconnected c)) = None
  /\ exists extra,
       timers (loop (snd (handle_disconnected c)))
       = timers (loop (keepalive_cancelled c)) ++ extra.
Proof.
  destruct (nameless_guest c) eqn:Hn.
  - rewrite (handle_disconnected_fails c Hn). cbn [snd].
    destruct (keepalive_cancelled_frame c) as (Hk & _).
    split; [exact Hk |]. exists []. rewrite app_nil_r. reflexivity.
  - destruct (after_teardown c Hn) as (Hl & _ & Hk & _).
    split; [exact Hk |]. rewrite Hl.
    destruct (loop_before_choice c) as (Hl1 & _ & _).
    unfold reconnect_or_stop.
    destruct (negb (_manual_disconnect
                      (flags_reset (guest_renamed (keepalive_cancelled c))))).
    + cbv zeta. cbn [loop set_loop set_printed timers call_later].
      rewrite Hl1. eexists. reflexivity.
    + unfold loop_stop. cbn [loop set_loop timers]. rewrite Hl1.
      exists []. rewrite app_nil_r. reflexivity.
Qed.

(** X17: whatever else happens in it, the teardown cancels the
    keepalive timer and forgets it: the timer [self.keepalive] refers
    to is cancelled, [self.keepalive] is [None] afterwards, and no
    other timer that was scheduled is touched. *)
Theorem teardown_cancels_keepalive (c : Client) (ix : nat) (t : timer) :
  keepalive c = Some ix ->
  nth_error (timers (loop c)) ix = Some t ->
  keepalive (snd (handle_disconnected c)) = None
  /\ nth_error (timers (loop (snd (handle_disconnected c)))) ix
     = Some (mkTimer (delay t) (action t) true)
  /\ forall j, j <> ix -> (j < length (timers (loop c)))%nat ->
       nth_error (timers (loop (snd (handle_disconnected c)))) j
       = nth_error (timers (loop c)) j.
Proof.
  intros Hk Ht.
  destruct (timers_after_teardown c) as (Hnone & extra & Hx).
  split; [exact Hnone |]. rewrite Hx.
  assert (Hlt : (ix < length (timers (loop c)))%nat).
  { apply nth_error_Some. rewrite Ht. discriminate. }
  assert (Hc : timers (loop (keepalive_cancelled c))
               = firstn ix (timers (loop c))
                 ++ mkTimer (delay t) (action t) true
                    :: skipn (S ix) (timers (loop c))).
  { unfold keepalive_cancelled. rewrite Hk. cbn [loop set_keepalive set_loop].
    unfold cancel_timer. rewrite Ht. reflexivity. }
  destruct (nth_error_replace (timers (loop c))
              (mkTimer (delay t) (action t) true) Hlt) as [Hat Hoth].
  assert (Hlen : length (timers (loop (keepalive_cancelled c)))
                 = length (timers (loop c))).
  { rewrite Hc, length_app. cbn [length]. rewrite length_firstn, length_skipn.
    lia. }
  split.
  - rewrite nth_error_app1 by lia. rewrite Hc. exact Hat.
  - intros j Hj Hjl. rewrite nth_error_app1 by lia. rewrite Hc.
    apply Hoth, Hj.
Qed.

(** X18: the teardown gives a guest its initial name back: with the
    password ["guest"], a user name that starts with ["Guest"] (the
    name the server assigned at login) becomes ["guest"] again; any
    other name, and any name under another password, is kept. *)
Theorem guest_name_reset (c : Client) (s : pystr) :
  username c = PStr s ->
  username (snd (handle_disconnected c))
  = if Py.eq_str (password c) (str_of "guest")
       && Py.is_prefix (str_of "Guest") s
    then PStr (str_of "guest") else PStr s.
Proof.
  intros Hu.
  assert (Hn : nameless_guest c = false).
  { unfold nameless_guest. rewrite Hu. cbn [Py.is_str negb].
    apply andb_false_r. }
  destruct (after_teardown c Hn) as (_ & _ & _ & _ & _ & _ & Hname).
  rewrite Hname. unfold guest_renamed, guest_again.
  destruct (keepalive_cancelled_identity c) as (-> & -> & _).
  rewrite Hu.
  destruct (Py.eq_str (password c) (str_of "guest")
            && Py.is_prefix (str_of "Guest") s);
    [reflexivity |].
  destruct (keepalive_cancelled_identity c) as (_ & -> & _). exact Hu.
Qed.

(** X19: a guest without a name is not reconnected.  A login response
    without a text payload leaves a user name that is not a [str]; with
    the password ["guest"], [handle_disconnected] then raises
    [AttributeError] at [self.username.startswith], after the keepalive
    was cancelled and before anything else: the flags are not reset, no
    reconnect is scheduled, the loop is not stopped, nothing is
    announced. *)
Theorem nameless_guest_is_not_reconnected :
  (forall (reinject : Packet -> M unit) (p : Packet) (c : Client),
      Py.eq_str (password c) (str_of "guest") = true ->
      fctype p = FCTYPE_LOGIN -> narg1 p = 0 ->
      Py.is_str (smessage p) = false ->
      fst (_process_packet reinject p c) = Ret p
      /\ nameless_guest (snd (_process_packet reinject p c)) = true)
  /\ (forall c : Client,
        nameless_guest c = true ->
        handle_disconnected c = (Raise AttributeError, keepalive_cancelled c)
        /\ stopped (loop (snd (handle_disconnected c))) = stopped (loop c)
        /\ (reconnect_scheduled (snd (handle_disconnected c)) ->
            reconnect_scheduled c)
        /\ emitted (snd (handle_disconnected c)) = emitted c
        /\ _completed_models (snd (handle_disconnected c)) = _completed_models c
        /\ _completed_tags (snd (handle_disconnected c)) = _completed_tags c).
Proof.
  split.
  - intros reinject p c Hp Hf Ha Hs. unfold _process_packet. cbv zeta.
    rewrite Hf, Z.eqb_refl, Ha. cbn [Z.eqb negb]. run_steps.
    unfold ret. cbn [fst snd]. split; [reflexivity |].
    unfold nameless_guest.
    cbn [password username set_username set_uid set_session_id].
    rewrite Hp, Hs. reflexivity.
  - intros c Hn. rewrite (handle_disconnected_fails c Hn). cbn [snd].
    destruct (keepalive_cancelled_frame c) as (_ & Hs & _ & _ & He & Hm & Ht).
    split; [reflexivity |]. split; [exact Hs |].
    split; [apply keepalive_cancelled_live |].
    split; [exact He | split; [exact Hm | exact Ht]].
Qed.

End WithEnvironment.

#[local] Existing Instance Sample.limits.
#[local] Existing Instance Sample.constants.
#[local] Existing Instance Sample.environment.

(** A client whose keepalive timer is scheduled. *)
Lemma manual_disconnect_stops_the_loop_witness :
  transport Sample.connected = Some (mkTransport [] false)
  /\ nameless_guest Sample.connected = false
  /\ stopped (loop (snd (handle_disconnected (snd (disconnect Sample.connected)))))
     = true
  /\ timers (loop (snd (handle_disconnected (snd (disconnect Sample.connected)))))
     = [].
Proof.
  assert (H1 : transport Sample.connected = Some (mkTransport [] false))
    by reflexivity.
  assert (H2 : nameless_guest Sample.connected = false) by reflexivity.
  split; [exact H1 |]. split; [exact H2 |].
  destruct (manual_disconnect_stops_the_loop Sample.connected H1 H2)
    as (_ & _ & H3 & H4 & _).
  split; [exact H3 | exact H4].
Defined.

Lemma lost_connection_schedules_reconnect_witness :
  _manual_disconnect Sample.connected = false
  /\ nameless_guest Sample.connected = false
  /\ timers (loop (snd (handle_disconnected Sample.connected)))
     = [mkTimer 30 CbReconnect false]
  /\ stopped (loop (snd (handle_disconnected Sample.connected))) = false.
Proof.
  assert (H1 : _manual_disconnect Sample.connected = false) by reflexivity.
  assert (H2 : nameless_guest Sample.connected = false) by reflexivity.
  split; [exact H1 |]. split; [exact H2 |].
  destruct (lost_connection_schedules_reconnect Sample.connected H1 H2)
    as (H3 & H4 & _).
  split; [exact H3 | exact H4].
Defined.

Lemma teardown_cancels_keepalive_witness :
  keepalive (set_keepalive (Some 0%nat)
               (set_loop (mkLoop false [mkTimer 120 CbPingLoop false])
                  Sample.connected)) = Some 0%nat
  /\ nth_error (timers (loop (set_keepalive (Some 0%nat)
                                (set_loop (mkLoop false
                                             [mkTimer 120 CbPingLoop false])
                                   Sample.connected)))) 0
     = Some (mkTimer 120 CbPingLoop false)
  /\ keepalive (snd (handle_disconnected
                       (set_keepalive (Some 0%nat)
                          (set_loop (mkLoop false [mkTimer 120 CbPingLoop false])
                             Sample.connected)))) = None
  /\ nth_error (timers (loop (snd (handle_disconnected
                                     (set_keepalive (Some 0%nat)
                                        (set_loop
                                           (mkLoop false
                                              [mkTimer 120 CbPingLoop false])
                                           Sample.connected)))))) 0
     = Some (mkTimer 120 CbPingLoop true).
Proof.
  split; [reflexivity |]. split; [reflexivity |].
  destruct (@teardown_cancels_keepalive Sample.constants Sample.environment
              (set_keepalive (Some 0%nat)
                 (set_loop (mkLoop false [mkTimer 120 CbPingLoop false])
                    Sample.connected))
              0%nat (mkTimer 120 CbPingLoop false) eq_refl eq_refl)
    as (H1 & H2 & _).
  split; [exact H1 | exact H2].
Defined.

Lemma guest_name_reset_witness :
  username (set_username (PStr (str_of "Guest12345")) Sample.connected)
  = PStr (str_of "Guest12345")
  /\ username (snd (handle_disconnected
                      (set_username (PStr (str_of "Guest12345"))
                         Sample.connected)))
     = PStr (str_of "guest").
Proof.
  split; [reflexivity |].
  exact (@guest_name_reset Sample.constants Sample.environment
           (set_username (PStr (str_of "Guest12345")) Sample.connected)
           (str_of "Guest12345") eq_refl).
Defined.

Lemma nameless_guest_is_not_reconnected_witness :
  Py.eq_str (password Sample.connected) (str_of "guest") = true
  /\ nameless_guest
       (snd (_process_packet (fun _ => ret tt) (mkPacket 1 0 77 0 5 PNone)
               Sample.connected)) = true
  /\ fst (handle_disconnected
            (snd (_process_packet (fun _ => ret tt) (mkPacket 1 0 77 0 5 PNone)
                    Sample.connected)))
     = Raise AttributeError
  /\ timers (loop (snd (handle_disconnected
                          (snd (_process_packet (fun _ => ret tt)
                                  (mkPacket 1 0 77 0 5 PNone)
                                  Sample.connected))))) = [].
Proof.
  assert (H0 : Py.eq_str (password Sample.connected) (str_of "guest") = true)
    by reflexivity.
  destruct (proj1 (@nameless_guest_is_not_reconnected Sample.constants Sample.environment) (fun _ => ret tt)
              (mkPacket 1 0 77 0 5 PNone) Sample.connected H0
              eq_refl eq_refl eq_refl) as (_ & H1).
  destruct (proj2 (@nameless_guest_is_not_reconnected Sample.constants Sample.environment) _ H1) as (H2 & _).
  split; [exact H0 |]. split; [exact H1 |].
  rewrite H2. split; reflexivity.
Defined.

End TeardownFacts.

(** ** The packet handler, branch by branch *)

Module PacketFacts.
Import Wire Protocol WireFacts ProtocolFacts Client ClientFacts CodecFacts.
Import Queries QueryFacts Teardown TeardownFacts Packets.

Section WithEnvironment.
Context {Lim : Limits} {K : Constants} {E : Environment}.

Ltac run_steps :=
  repeat first
    [ rewrite bind_assoc
    | rewrite bind_modify
    | rewrite bind_get
    | rewrite bind_ret
    | rewrite bind_lift_ret
    | rewrite bind_lift_raise
    | rewrite bind_raise
    | progress cbv beta ].

(** *** Which branch a packet takes *)

Lemma nodup_before (A : Type) (l1 l2 : list A) (x : A) :
  NoDup (l1 ++ x :: l2) -> ~ In x l1 /\ ~ In x l2.
Proof.
  intros H. pose proof (NoDup_remove_2 _ _ _ H) as Hn.
  split; intros Hi; apply Hn; apply in_or_app; [left | right]; exact Hi.
Qed.

Lemma not_member (x : Z) (l : list Z) : ~ In x l -> member x l = false.
Proof.
  intros H. unfold member. destruct (existsb (Z.eqb x) l) eqn:Ex; [| reflexivity].
  apply existsb_exists in Ex as (y & Hy & Hxy). apply Z.eqb_eq in Hxy. subst y.
  contradiction.
Qed.

Lemma not_in_cons (A : Type) (x a : A) (l : list A) :
  ~ In x (a :: l) -> x <> a /\ ~ In x l.
Proof. intros H. split; [intros ->; apply H; left; reflexivity |
                         intros Hi; apply H; right; exact Hi]. Qed.

Lemma not_in_app (A : Type) (x : A) (l1 l2 : list A) :
  ~ In x (l1 ++ l2) -> ~ In x l1 /\ ~ In x l2.
Proof.
  intros H. split; intros Hi; apply H; apply in_or_app; [left | right]; exact Hi.
Qed.

(** The branches before the one of [BOOKMARKS] are not taken. *)
Lemma to_bookmarks (reinject : Packet -> M unit) (p : Packet) (c : Client) :
  NoDup handled_kinds ->
  fctype p = FCTYPE_BOOKMARKS ->
  _process_packet reinject p c
  = bind (lift (Py.contains_str (str_of "bookmarks") (smessage p)))
      (fun present : bool =>
         if present then
           bind (lift (Py.getitem_str (smessage p) (str_of "bookmarks")))
             (fun bookmarks =>
                match bookmarks with
                | PList l => bind (for_each merge_bookmark l) (fun _ => ret p)
                | _ => ret p
                end)
         else ret p) c.
Proof.
  intros Hd Hk.
  change handled_kinds
    with ((FCTYPE_LOGIN :: detail_kinds ++ [FCTYPE_TAGS])
          ++ FCTYPE_BOOKMARKS
             :: [FCTYPE_METRICS; FCTYPE_EXTDATA; FCTYPE_MANAGELIST; FCTYPE_TKX])
    in Hd.
  apply nodup_before in Hd as [Hb _].
  apply not_in_cons in Hb as [Hl Hb]. apply not_in_app in Hb as [Hdk Ht].
  apply not_in_cons in Ht as [Ht _].
  unfold _process_packet. cbv zeta. rewrite Hk.
  replace (FCTYPE_BOOKMARKS =? FCTYPE_LOGIN) with false
    by (symmetry; apply Z.eqb_neq; exact Hl).
  rewrite (not_member _ _ Hdk).
  replace (FCTYPE_BOOKMARKS =? FCTYPE_TAGS) with false
    by (symmetry; apply Z.eqb_neq; exact Ht).
  rewrite Z.eqb_refl. reflexivity.
Qed.

(** The kinds the packet is tested against before [k], none of which
    it is. *)
Ltac skip_kind H :=
  match goal with
  | |- context [?a =? ?b] =>
      replace (a =? b) with false by (symmetry; apply Z.eqb_neq; exact H)
  end.

Lemma kinds_apart :
  NoDup handled_kinds ->
  (FCTYPE_BOOKMARKS <> FCTYPE_LOGIN /\ ~ In FCTYPE_BOOKMARKS detail_kinds
   /\ FCTYPE_BOOKMARKS <> FCTYPE_TAGS)
  /\ (FCTYPE_MANAGELIST <> FCTYPE_LOGIN /\ ~ In FCTYPE_MANAGELIST detail_kinds
      /\ FCTYPE_MANAGELIST <> FCTYPE_TAGS
      /\ FCTYPE_MANAGELIST <> FCTYPE_BOOKMARKS
      /\ FCTYPE_MANAGELIST <> FCTYPE_METRICS
      /\ FCTYPE_MANAGELIST <> FCTYPE_EXTDATA)
  /\ (FCTYPE_TKX <> FCTYPE_LOGIN /\ ~ In FCTYPE_TKX detail_kinds
      /\ FCTYPE_TKX <> FCTYPE_TAGS
      /\ FCTYPE_TKX <> FCTYPE_BOOKMARKS
      /\ FCTYPE_TKX <> FCTYPE_METRICS
      /\ FCTYPE_TKX <> FCTYPE_EXTDATA
      /\ FCTYPE_TKX <> FCTYPE_MANAGELIST).
Proof.
  intros Hd. split; [| split].
  - change handled_kinds
      with ((FCTYPE_LOGIN :: detail_kinds ++ [FCTYPE_TAGS])
            ++ FCTYPE_BOOKMARKS
               :: [FCTYPE_METRICS; FCTYPE_EXTDATA; FCTYPE_MANAGELIST; FCTYPE_TKX])
      in Hd.
    apply nodup_before in Hd as [Hb _].
    apply not_in_cons in Hb as [Hl Hb]. apply not_in_app in Hb as [Hdk Ht].
    apply not_in_cons in Ht as [Ht _]. auto.
  - change handled_kinds
      with ((FCTYPE_LOGIN :: detail_kinds
             ++ [FCTYPE_TAGS; FCTYPE_BOOKMARKS; FCTYPE_METRICS; FCTYPE_EXTDATA])
            ++ FCTYPE_MANAGELIST :: [FCTYPE_TKX])
      in Hd.
    apply nodup_before in Hd as [Hb _].
    apply not_in_cons in Hb as [Hl Hb]. apply not_in_app in Hb as [Hdk Ht].
    apply not_in_cons in Ht as [H1 Ht]. apply not_in_cons in Ht as [H2 Ht].
    apply not_in_cons in Ht as [H3 Ht]. apply not_in_cons in Ht as [H4 _].
    auto 10.
  - change handled_kinds
      with ((FCTYPE_LOGIN :: detail_kinds
             ++ [FCTYPE_TAGS; FCTYPE_BOOKMARKS; FCTYPE_METRICS; FCTYPE_EXTDATA;
                 FCTYPE_MANAGELIST])
            ++ FCTYPE_TKX :: [])
      in Hd.
    apply nodup_before in Hd as [Hb _].
    apply not_in_cons in Hb as [Hl Hb]. apply not_in_app in Hb as [Hdk Ht].
    apply not_in_cons in Ht as [H1 Ht]. apply not_in_cons in Ht as [H2 Ht].
    apply not_in_cons in Ht as [H3 Ht]. apply not_in_cons in Ht as [H4 Ht].
    apply not_in_cons in Ht as [H5 _].
    auto 10.
Qed.

(** The branch of [MANAGELIST] starts by looking [rdata] up. *)
Lemma to_managelist (reinject : Packet -> M unit) (p : Packet) :
  NoDup handled_kinds ->
  fctype p = FCTYPE_MANAGELIST ->
  exists k,
    forall c,
      _process_packet reinject p c
      = bind (if 0 <? narg2 p
              then lift (Py.contains_str (str_of "rdata") (smessage p))
              else ret false)
          (fun present : bool =>
             if present
             then bind (lift (Py.getitem_str (smessage p) (str_of "rdata"))) k
             else ret p) c.
Proof.
  intros Hd Hk.
  destruct (kinds_apart Hd) as (_ & (H1 & H2 & H3 & H4 & H5 & H6) & _).
  eexists. intros c. unfold _process_packet. cbv zeta. rewrite Hk.
  skip_kind H1. rewrite (not_member _ _ H2).
  skip_kind H3. skip_kind H4. skip_kind H5. skip_kind H6.
  rewrite Z.eqb_refl. reflexivity.
Qed.

(** The branch of [TKX] starts by looking [cxid] up. *)
Lemma to_tkx (reinject : Packet -> M unit) (p : Packet) :
  NoDup handled_kinds ->
  fctype p = FCTYPE_TKX ->
  exists k,
    forall c,
      _process_packet reinject p c
      = bind (lift (Py.contains_str (str_of "cxid") (smessage p))) k c.
Proof.
  intros Hd Hk.
  destruct (kinds_apart Hd) as (_ & _ & (H1 & H2 & H3 & H4 & H5 & H6 & H7)).
  eexists. intros c. unfold _process_packet. cbv zeta. rewrite Hk.
  skip_kind H1. rewrite (not_member _ _ H2).
  skip_kind H3. skip_kind H4. skip_kind H5. skip_kind H6. skip_kind H7.
  rewrite Z.eqb_refl. reflexivity.
Qed.

Lemma looked_up_cases (p : Packet) :
  looked_up p <> None ->
  fctype p = FCTYPE_BOOKMARKS
  \/ (fctype p = FCTYPE_MANAGELIST /\ 0 < narg2 p)
  \/ fctype p = FCTYPE_TKX.
Proof.
  unfold looked_up.
  destruct (Z.eqb_spec (fctype p) FCTYPE_BOOKMARKS) as [H1 | H1];
    [left; exact H1 |].
  destruct (Z.eqb_spec (fctype p) FCTYPE_MANAGELIST) as [H2 | H2];
    cbn [andb].
  - destruct (Z.ltb_spec 0 (narg2 p)) as [H3 | H3];
      [intros _; right; left; split; assumption |].
    destruct (Z.eqb_spec (fctype p) FCTYPE_TKX) as [H4 | H4];
      [intros _; right; right; exact H4 | congruence].
  - destruct (Z.eqb_spec (fctype p) FCTYPE_TKX) as [H4 | H4];
      [intros _; right; right; exact H4 | congruence].
Qed.

(** A packet without payload in a branch that looks a key up. *)
Lemma process_payloadless (reinject : Packet -> M unit) (p : Packet) (c : Client) :
  NoDup handled_kinds ->
  looked_up p <> None ->
  smessage p = PNone ->
  _process_packet reinject p c = (Raise TypeError, c).
Proof.
  intros Hd Hl Hs.
  destruct (looked_up_cases p Hl) as [Hk | [[Hk Ha] | Hk]].
  - rewrite (to_bookmarks reinject p c Hd Hk). rewrite Hs. reflexivity.
  - destruct (to_managelist reinject p Hd Hk) as [k ->].
    replace (0 <? narg2 p) with true by (symmetry; apply Z.ltb_lt; exact Ha).
    rewrite Hs. reflexivity.
  - destruct (to_tkx reinject p Hd Hk) as [k ->]. rewrite Hs. reflexivity.
Qed.

Lemma handle_raises (depth : nat) (p : Packet) (c c' : Client) (e : exn) :
  _process_packet (handle_packet_received depth) p c = (Raise e, c') ->
  handle_packet_received (S depth) p c = (Raise e, c').
Proof.
  intros H. cbn [handle_packet_received]. unfold bind at 1. rewrite H.
  reflexivity.
Qed.

(** X20: a frame without payload whose kind is [BOOKMARKS] or [TKX],
    or [MANAGELIST] with a positive second argument, ends the session:
    the branch tests [key in packet.smessage] on [None], which raises
    [TypeError]; the [except] clause of [data_received] stops the event
    loop, the packet is announced to no listener, and the client is
    otherwise unchanged. *)
Theorem payloadless_packet_stops_the_loop
  (f : Frame) (rest : list byte) (c : Client) (depth fuel : nat) :
  NoDup handled_kinds ->
  valid_frame f = true ->
  f_payload f = [] ->
  looked_up (packet_of f) <> None ->
  Client.data_received (S depth) (S fuel) (frame_bytes f ++ rest)
    {| buffer := []; client := c |}
  = Some {| delivered := [packet_of f];
            caught := Some TypeError;
            after := {| buffer := rest; client := loop_stop c |} |}.
Proof.
  intros Hd Hv Hp Hl.
  unfold Client.data_received, Protocol.data_received. cbn [buffer client app].
  rewrite (@receive_frame Lim Client (handle_packet_received (S depth)) loop_stop
             f rest c fuel Hv)
    by (unfold refusal; rewrite Hp; reflexivity).
  unfold hand_over.
  rewrite (@handle_raises depth (packet_of f) c c TypeError); [reflexivity |].
  apply process_payloadless; [exact Hd | exact Hl |].
  unfold packet_of, payload_value. rewrite Hp. reflexivity.
Qed.

(** X21: a roster or tag list whose JSON was cut ends the session
    when the text that is left still contains [rdata].  The decoder
    keeps the text as payload; [_process_packet] finds ["rdata" in] the
    text, then indexes the text with ["rdata"], which raises
    [TypeError]; the [except] clause of [data_received] stops the event
    loop. *)
Theorem truncated_list_stops_the_loop
  (f : Frame) (text : pystr) (rest : list byte) (c : Client)
  (depth fuel : nat) :
  NoDup handled_kinds ->
  valid_frame f = true ->
  f_kind f = FCTYPE_MANAGELIST ->
  0 < f_arg2 f ->
  f_payload f <> [] ->
  utf8_decode (f_payload f) = Some text ->
  Json.loads text = Json.Invalid ->
  Py.is_substring (str_of "rdata") text = true ->
  Client.data_received (S depth) (S fuel) (frame_bytes f ++ rest)
    {| buffer := []; client := c |}
  = Some {| delivered := [mkPacket (f_kind f) (f_from f) (f_to f) (f_arg1 f)
                            (f_arg2 f) (PStr text)];
            caught := Some TypeError;
            after := {| buffer := rest; client := loop_stop c |} |}.
Proof.
  intros Hd Hv Hk Ha Hne Hu Hj Hsub.
  assert (Hp : packet_of f
               = mkPacket (f_kind f) (f_from f) (f_to f) (f_arg1 f) (f_arg2 f)
                   (PStr text)).
  { unfold packet_of, payload_value. destruct (f_payload f) as [| b bs];
      [congruence |]. rewrite Hu, Hj. reflexivity. }
  assert (Hr : refusal (f_payload f) = None).
  { unfold refusal. destruct (f_payload f) as [| b bs]; [reflexivity |].
    rewrite Hu, Hj. reflexivity. }
  unfold Client.data_received, Protocol.data_received. cbn [buffer client app].
  rewrite (@receive_frame Lim Client (handle_packet_received (S depth)) loop_stop
             f rest c fuel Hv Hr).
  unfold hand_over. rewrite Hp.
  rewrite (@handle_raises depth _ c c TypeError); [reflexivity |].
  destruct (to_managelist (handle_packet_received depth)
              (mkPacket (f_kind f) (f_from f) (f_to f) (f_arg1 f) (f_arg2 f)
                 (PStr text)) Hd Hk) as [k ->].
  cbn [narg2 smessage].
  replace (0 <? f_arg2 f) with true by (symmetry; apply Z.ltb_lt; exact Ha).
  cbn [Py.contains_str]. rewrite Hsub. reflexivity.
Qed.

(** *** The tag list event *)

Lemma handler_preserves (I : Client -> Prop) (h : listener)
  (arg : option Packet) :
  query_blind I -> preserves I (handler h arg).
Proof.
  intros HI. unfold handler, remove_listener, set_result.
  through ltac:(intros; first [apply (qb_listeners HI) | apply (qb_futures HI)];
                assumption).
Qed.

Lemma handlers_preserve (I : Client -> Prop) (arg : option Packet)
  (hs : list listener) :
  query_blind I -> preserves I (for_each (fun h => handler h arg) hs).
Proof.
  intros HI. apply preserves_for_each. intros h.
  apply handler_preserves, HI.
Qed.

Lemma emit_preserves (I : Client -> Prop) (kind : Z) (arg : option Packet) :
  query_blind I ->
  (forall c, I c -> I (set_emitted (emitted c ++ [(kind, arg)]) c)) ->
  preserves I (emit kind arg).
Proof.
  intros HI He c Hc. unfold emit. rewrite bind_modify, bind_get.
  apply handlers_preserve; [exact HI | apply He, Hc].
Qed.

Lemma tags_loaded_blind (b : bool) (n : nat) : query_blind (tags_loaded b n).
Proof. split; intros v c [H1 H2]; split; assumption. Qed.

Lemma count_tags_other (kind : Z) (arg : option Packet) (c : Client) :
  kind <> FCTYPE_CLIENT_TAGSLOADED \/ arg <> None ->
  count_emitted FCTYPE_CLIENT_TAGSLOADED
    (set_emitted (emitted c ++ [(kind, arg)]) c)
  = count_emitted FCTYPE_CLIENT_TAGSLOADED c.
Proof.
  intros H. unfold count_emitted. cbn [emitted set_emitted].
  rewrite filter_app, length_app. cbn [filter fst snd].
  destruct (Z.eqb_spec kind FCTYPE_CLIENT_TAGSLOADED) as [Hk | Hk];
    destruct arg as [p |]; cbn [andb length]; try lia.
  destruct H as [H | H]; congruence.
Qed.

Lemma count_tags_fired (c : Client) :
  count_emitted FCTYPE_CLIENT_TAGSLOADED
    (set_emitted (emitted c ++ [(FCTYPE_CLIENT_TAGSLOADED, None)]) c)
  = S (count_emitted FCTYPE_CLIENT_TAGSLOADED c).
Proof.
  unfold count_emitted. cbn [emitted set_emitted].
  rewrite filter_app, length_app. cbn. lia.
Qed.

Lemma emit_keeps_tags_loaded (b : bool) (n : nat) (kind : Z)
  (arg : option Packet) :
  kind <> FCTYPE_CLIENT_TAGSLOADED \/ arg <> None ->
  preserves (tags_loaded b n) (emit kind arg).
Proof.
  intros H. apply emit_preserves; [apply tags_loaded_blind |].
  intros c [Hb Hn]. split; [exact Hb |].
  rewrite count_tags_other by exact H. exact Hn.
Qed.

Ltac tags_side :=
  intros; match goal with H : tags_loaded _ _ _ |- _ =>
            destruct H; split; assumption end.

(** Once the flag is set, no packet makes [_process_packet] emit the
    tag list event again. *)
Lemma process_packet_keeps_tags_loaded (n : nat)
  (reinject : Packet -> M unit) (p : Packet) :
  (forall q, preserves (tags_loaded true n) (reinject q)) ->
  preserves (tags_loaded true n) (_process_packet reinject p).
Proof.
  intros Hr. unfold _process_packet. cbv zeta.
  through_with
    ltac:(idtac;
          match goal with
          | H : tags_loaded true _ ?c
            |- preserves _ (if negb (_completed_tags ?c) then _ else _) =>
              let Hb := fresh in destruct H as [Hb _]; rewrite Hb; cbn [negb]
          | |- preserves _ (merge_model _ _ _) => unfold merge_model
          | |- preserves _ (merge_row _) => unfold merge_row
          | |- preserves _ (merge_bookmark _) => unfold merge_bookmark
          | |- preserves _ (merge_tag_entry _) => unfold merge_tag_entry
          | |- preserves _ (merge_tag_row _) => unfold merge_tag_row
          | |- preserves _ (merge_model_tags _ _) => unfold merge_model_tags
          | |- preserves _ (_handle_extdata _ _) =>
              unfold _handle_extdata; cbv zeta
          | |- preserves _ (reinject _) => apply Hr
          | |- preserves _ (emit FCTYPE_CLIENT_MODELSLOADED None) =>
              apply emit_keeps_tags_loaded; left; discriminate
          end)
    tags_side.
Qed.

Lemma handle_packet_received_keeps_tags_loaded (n : nat) (depth : nat) :
  forall p, preserves (tags_loaded true n) (handle_packet_received depth p).
Proof.
  induction depth as [| depth IH]; intros p; cbn [handle_packet_received].
  - apply preserves_raise.
  - apply preserves_bind; [apply process_packet_keeps_tags_loaded, IH |].
    intros q. apply preserves_bind.
    + apply emit_keeps_tags_loaded. right. discriminate.
    + intros _. apply emit_keeps_tags_loaded. right. discriminate.
Qed.

(** What [_process_packet] comes to on a tag list. *)
Lemma process_tag_list (reinject : Packet -> M unit) (p : Packet)
  (d tags : Py.dict) (c : Client) :
  NoDup handled_kinds ->
  0 < FCL_TAGS ->
  fctype p = FCTYPE_MANAGELIST ->
  narg2 p = FCL_TAGS ->
  smessage p = PDict d ->
  Py.dict_get d (PStr (str_of "rdata")) = Some (PDict tags) ->
  _process_packet reinject p c =
  bind (for_each merge_tag_row tags)
    (fun _ =>
       bind get (fun c0 =>
         if negb (_completed_tags c0) then
           bind (modify (set__completed_tags true))
             (fun _ => bind (emit FCTYPE_CLIENT_TAGSLOADED None)
                         (fun _ => ret p))
         else ret p)) c.
Proof.
  intros Hd Hpos Hk Ha Hs Hg.
  destruct (kinds_apart Hd) as (_ & (H1 & H2 & H3 & H4 & H5 & H6) & _).
  unfold _process_packet. cbv zeta. rewrite Hk, Ha, Hs.
  skip_kind H1. rewrite (not_member _ _ H2).
  skip_kind H3. skip_kind H4. skip_kind H5. skip_kind H6.
  rewrite Z.eqb_refl.
  replace (0 <? FCL_TAGS) with true by (symmetry; apply Z.ltb_lt; exact Hpos).
  unfold Py.contains_str, Py.getitem_str, Py.dict_mem. rewrite Hg.
  rewrite bind_lift_ret. cbv beta iota. rewrite bind_lift_ret. cbv beta.
  cbn [ListSchema._process_list]. rewrite bind_lift_ret. cbv beta iota.
  rewrite Z.eqb_refl. reflexivity.
Qed.

(** X22: within one connection the tag list event fires once.  A
    [MANAGELIST] packet of type [FCL.TAGS] whose [rdata] is a dict, if
    it is handled without exception while [_completed_tags] is down,
    raises the flag and emits [CLIENT_TAGSLOADED] exactly once; and
    once the flag is up, no packet whatever, handled with whatever
    outcome, emits the event again or lowers the flag. *)
Theorem tags_loaded_fires_once (c : Client) :
  (forall (p : Packet) (d tags : Py.dict) (depth : nat) (c' : Client),
      NoDup handled_kinds ->
      0 < FCL_TAGS ->
      fctype p = FCTYPE_MANAGELIST ->
      narg2 p = FCL_TAGS ->
      smessage p = PDict d ->
      Py.dict_get d (PStr (str_of "rdata")) = Some (PDict tags) ->
      _completed_tags c = false ->
      handle_packet_received (S depth) p c = (Ret tt, c') ->
      _completed_tags c' = true
      /\ count_emitted FCTYPE_CLIENT_TAGSLOADED c'
         = S (count_emitted FCTYPE_CLIENT_TAGSLOADED c))
  /\ (forall (p : Packet) (depth : nat),
         _completed_tags c = true ->
         _completed_tags (snd (handle_packet_received depth p c)) = true
         /\ count_emitted FCTYPE_CLIENT_TAGSLOADED
              (snd (handle_packet_received depth p c))
            = count_emitted FCTYPE_CLIENT_TAGSLOADED c).
Proof.
  split.
  - intros p d tags depth c' Hd Hpos Hk Ha Hs Hg Hc H.
    set (n := count_emitted FCTYPE_CLIENT_TAGSLOADED c).
    assert (Hc0 : tags_loaded false n c) by (split; [exact Hc | reflexivity]).
    cbn [handle_packet_received] in H.
    apply bind_ret_inv in H as (q & c1 & Hp & He).
    rewrite (@process_tag_list _ p d tags c Hd Hpos Hk Ha Hs Hg) in Hp.
    apply bind_ret_inv in Hp as (u & c2 & Hm & Hp).
    assert (Hc2 : tags_loaded false n c2).
    { eapply preserves_at; [| exact Hc0 | exact Hm].
      apply preserves_for_each. intros x. unfold merge_tag_row, merge_model_tags.
      through tags_side. }
    rewrite bind_get in Hp.
    destruct Hc2 as [Hb2 Hn2]. rewrite Hb2 in Hp. cbn [negb] in Hp.
    rewrite bind_modify in Hp.
    apply bind_ret_inv in Hp as (u2 & c4 & Hemit & Hp).
    assert (Hc4 : tags_loaded true (S n) c4).
    { unfold emit in Hemit. rewrite bind_modify, bind_get in Hemit.
      eapply preserves_at;
        [apply (@handlers_preserve (tags_loaded true (S n)) None),
           tags_loaded_blind | | exact Hemit].
      split; [reflexivity |].
      etransitivity;
        [apply (count_tags_fired (set__completed_tags true c2)) |].
      f_equal. exact Hn2. }
    unfold ret in Hp. injection Hp as <- <-.
    change (tags_loaded true (S n) c').
    eapply preserves_at; [| exact Hc4 | exact He].
    apply preserves_bind; [| intros _]; apply emit_keeps_tags_loaded;
      right; discriminate.
  - intros p depth Hc.
    apply (@handle_packet_received_keeps_tags_loaded
             (count_emitted FCTYPE_CLIENT_TAGSLOADED c) depth p c).
    split; [exact Hc | reflexivity].
Qed.

(** *** What is announced *)

Lemma returns_ret (A : Type) (Q : A -> Prop) (a : A) : Q a -> returns Q (ret a).
Proof. intros H c a' c' E0. injection E0 as <- _. exact H. Qed.

Lemma returns_raise (A : Type) (Q : A -> Prop) (e : exn) :
  returns Q (@raise _ A e).
Proof. intros c a c' E0. discriminate E0. Qed.

Lemma returns_bind (A B : Type) (Q : B -> Prop) (m : M A) (k : A -> M B) :
  (forall a, returns Q (k a)) -> returns Q (bind m k).
Proof.
  intros Hk c b c' E0. apply bind_ret_inv in E0 as (a & c1 & _ & E1).
  apply (Hk a c1 b c' E1).
Qed.

Ltac returns_walk :=
  repeat match goal with
         | |- returns _ (ret _) => apply returns_ret; reflexivity
         | |- returns _ (raise _) => apply returns_raise
         | |- returns _ (bind _ _) => apply returns_bind; intros ?
         | |- returns _ (if ?b then _ else _) => destruct b
         | |- returns _ (match ?x with _ => _ end) => destruct x
         end.







(** *** The stream parameters *)

Lemma split_on_absent (sep : Z) (s : pystr) :
  ~ In sep s -> split_on sep s = [s].
Proof.
  induction s as [| ch s IH]; intros H; cbn [split_on]; [reflexivity |].
  destruct (Z.eqb_spec ch sep) as [-> | Hne];
    [exfalso; apply H; left; reflexivity |].
  rewrite IH by (intros Hi; apply H; right; exact Hi). reflexivity.
Qed.

Lemma split_on_first (sep : Z) (a r : pystr) :
  ~ In sep a -> split_on sep (a ++ sep :: r) = a :: split_on sep r.
Proof.
  induction a as [| ch a IH]; intros H; cbn [app split_on].
  - rewrite Z.eqb_refl. reflexivity.
  - destruct (Z.eqb_spec ch sep) as [-> | Hne];
      [exfalso; apply H; left; reflexivity |].
    rewrite IH by (intros Hi; apply H; right; exact Hi). reflexivity.
Qed.

Lemma vidctx_of_cases :
  (forall s, ~ In 47 s -> vidctx_of s = s)
  /\ (forall a b, ~ In 47 a -> ~ In 47 b -> vidctx_of (a ++ 47 :: b) = b)
  /\ (forall a b r, ~ In 47 a -> ~ In 47 b ->
                    vidctx_of (a ++ 47 :: b ++ 47 :: r) = b).
Proof.
  unfold vidctx_of. split; [| split].
  - intros s H. rewrite (@split_on_absent 47 s H). reflexivity.
  - intros a b Ha Hb.
    rewrite (@split_on_first 47 a b Ha), (@split_on_absent 47 b Hb).
    reflexivity.
  - intros a b r Ha Hb.
    rewrite (@split_on_first 47 a (b ++ 47 :: r) Ha),
            (@split_on_first 47 b r Hb).
    reflexivity.
Qed.

(** X24: a [TKX] packet whose payload is a dict with the keys [cxid],
    [tkx] and [ctxenc] sets the three stream parameters:
    [stream_cxid] and [stream_password] to the values of the first two
    keys, [stream_vidctx] to the text between the first and the second
    slash of [ctxenc], or to all of [ctxenc] when it has no slash.
    When one of the keys is missing the client is left as it is.  When
    [ctxenc] is not a [str], [split] raises [AttributeError] after the
    first two parameters were assigned. *)
Theorem tkx_sets_stream (reinject : Packet -> M unit) (p : Packet)
  (d : Py.dict) (c : Client) :
  NoDup handled_kinds ->
  fctype p = FCTYPE_TKX ->
  smessage p = PDict d ->
  (forall v1 v2 s,
      Py.dict_get d (PStr (str_of "cxid")) = Some v1 ->
      Py.dict_get d (PStr (str_of "tkx")) = Some v2 ->
      Py.dict_get d (PStr (str_of "ctxenc")) = Some (PStr s) ->
      _process_packet reinject p c
      = (Ret p,
         set_stream_vidctx (PStr (vidctx_of s))
           (set_stream_password v2 (set_stream_cxid v1 c))))
  /\ (forall v1 v2 v3,
         Py.dict_get d (PStr (str_of "cxid")) = Some v1 ->
         Py.dict_get d (PStr (str_of "tkx")) = Some v2 ->
         Py.dict_get d (PStr (str_of "ctxenc")) = Some v3 ->
         Py.is_str v3 = false ->
         _process_packet reinject p c
         = (Raise AttributeError,
            set_stream_password v2 (set_stream_cxid v1 c)))
  /\ (Py.dict_get d (PStr (str_of "cxid")) = None
      \/ Py.dict_get d (PStr (str_of "tkx")) = None
      \/ Py.dict_get d (PStr (str_of "ctxenc")) = None ->
      _process_packet reinject p c = (Ret p, c))
  /\ (forall s, ~ In 47 s -> vidctx_of s = s)
  /\ (forall a b, ~ In 47 a -> ~ In 47 b -> vidctx_of (a ++ 47 :: b) = b)
  /\ (forall a b r, ~ In 47 a -> ~ In 47 b ->
                    vidctx_of (a ++ 47 :: b ++ 47 :: r) = b).
Proof.
  intros Hd Hk Hs.
  destruct (kinds_apart Hd) as (_ & _ & (H1 & H2 & H3 & H4 & H5 & H6 & H7)).
  assert (Hrun : _process_packet reinject p c
    = bind (lift (Py.contains_str (str_of "cxid") (PDict d)))
        (fun cxid : bool =>
         bind (if cxid then lift (Py.contains_str (str_of "tkx") (PDict d))
               else ret false)
           (fun tkx : bool =>
            bind (if tkx
                  then lift (Py.contains_str (str_of "ctxenc") (PDict d))
                  else ret false)
              (fun ctxenc : bool =>
               if ctxenc then
                 bind (lift (Py.getitem_str (PDict d) (str_of "cxid")))
                   (fun v =>
                    bind (modify (set_stream_cxid v))
                      (fun _ =>
                       bind (lift (Py.getitem_str (PDict d) (str_of "tkx")))
                         (fun v =>
                          bind (modify (set_stream_password v))
                            (fun _ =>
                             bind (lift (Py.getitem_str (PDict d)
                                           (str_of "ctxenc")))
                               (fun v =>
                                bind (lift (py_split_slash v))
                                  (fun parts =>
                                   match parts with
                                   | _ :: part1 :: _ =>
                                       bind (modify
                                               (set_stream_vidctx (PStr part1)))
                                            (fun _ => ret p)
                                   | _ =>
                                       bind (lift (Py.getitem_str (PDict d)
                                                     (str_of "ctxenc")))
                                         (fun v =>
                                          bind (modify (set_stream_vidctx v))
                                               (fun _ => ret p))
                                   end))))))
               else ret p))) c).
  { unfold _process_packet. cbv zeta. rewrite Hk, Hs.
    skip_kind H1. rewrite (not_member _ _ H2).
    skip_kind H3. skip_kind H4. skip_kind H5. skip_kind H6. skip_kind H7.
    rewrite Z.eqb_refl. reflexivity. }
  rewrite Hrun. clear Hrun.
  cbn [Py.contains_str Py.getitem_str]. unfold Py.dict_mem.
  split; [| split; [| split; [| exact vidctx_of_cases]]].
  - intros v1 v2 s G1 G2 G3. rewrite G1, G2, G3. run_steps.
    cbn [py_split_slash]. run_steps. unfold vidctx_of.
    destruct (split_on 47 s) as [| w [| part1 ws]]; run_steps; reflexivity.
  - intros v1 v2 v3 G1 G2 G3 Hn. rewrite G1, G2, G3. run_steps.
    destruct v3; try discriminate Hn; cbn [py_split_slash]; run_steps;
      reflexivity.
  - intros [G | [G | G]].
    + rewrite G. run_steps. reflexivity.
    + destruct (Py.dict_get d (PStr (str_of "cxid"))); run_steps;
        rewrite ?G; run_steps; reflexivity.
    + destruct (Py.dict_get d (PStr (str_of "cxid"))); run_steps;
        [| reflexivity].
      destruct (Py.dict_get d (PStr (str_of "tkx"))); run_steps;
        rewrite ?G; run_steps; reflexivity.
Qed.

(** *** Detail packets and the registry *)

Lemma key_eqb_str (k0 : pyval) (k : pystr) :
  Py.key_eqb k0 (PStr k) = true -> k0 = PStr k.
Proof.
  destruct k0 as [| b | z | f | s | l | d0]; cbn; try discriminate;
    try (destruct f; discriminate).
  intros H. apply ListSchemaFacts.pystr_eqb_eq in H. subst. reflexivity.
Qed.

Lemma dict_get_set_apart (d : Py.dict) (k k' : pystr) (v : pyval) :
  k <> k' ->
  Py.dict_get (Py.dict_set d (PStr k) v) (PStr k') = Py.dict_get d (PStr k').
Proof.
  intros Hne.
  assert (Hf : Py.key_eqb (PStr k) (PStr k') = false)
    by (cbn; apply ListSchemaFacts.pystr_eqb_neq; exact Hne).
  induction d as [| [k0 v0] d IH]; cbn [Py.dict_set Py.dict_get].
  - rewrite Hf. reflexivity.
  - destruct (Py.key_eqb k0 (PStr k)) eqn:Ek; cbn [Py.dict_get].
    + apply key_eqb_str in Ek. subst k0. rewrite Hf. reflexivity.
    + rewrite IH. reflexivity.
Qed.

(** X25: a detail packet reaches the registry only with an id and a
    level.  For a packet of one of the detail kinds (and not one of the
    excepted cases) whose payload is a dict with a [uid] that is not
    [None], when the [uid] is -1 or the payload has no [lv] (or a
    [None] one), [_process_packet] calls neither [Model.get_model] nor
    [merge]: the client, registry included, is left as it is, and the
    packet is passed on with the [lv] default written into its
    payload. *)
Theorem detail_without_level_merges_nothing
  (reinject : Packet -> M unit) (p : Packet) (d : Py.dict) (u : pyval)
  (c : Client) :
  fctype p <> FCTYPE_LOGIN ->
  In (fctype p) detail_kinds ->
  excepted p = false ->
  smessage p = PDict d ->
  Py.dict_get d (PStr (str_of "uid")) = Some u ->
  Py.is_none u = false ->
  Py.eq_int u (-1) = true
  \/ Py.dict_get d (PStr (str_of "lv")) = None
  \/ Py.dict_get d (PStr (str_of "lv")) = Some PNone ->
  _process_packet reinject p c = (Ret (processed p), c)
  /\ smessage (processed p)
     = PDict (snd (Py.dict_setdefault d (PStr (str_of "lv")) PNone)).
Proof.
  intros Hl Hd Hx Hs Hu Hn Hcase.
  assert (Hu1 : Py.dict_get (snd (Py.dict_setdefault d (PStr (str_of "lv")) PNone))
                  (PStr (str_of "uid")) = Some u).
  { unfold Py.dict_setdefault.
    destruct (Py.dict_get d (PStr (str_of "lv"))); cbn [snd]; [exact Hu |].
    rewrite dict_get_set_apart by discriminate. exact Hu. }
  assert (Hp : processed p
               = with_smessage
                   (PDict (snd (Py.dict_setdefault d (PStr (str_of "lv")) PNone)))
                   p).
  { unfold processed. rewrite Hx, Hs. unfold with_defaults.
    unfold Py.dict_setdefault at 1. rewrite Hu1. reflexivity. }
  split; [| rewrite Hp; reflexivity].
  rewrite Hp.
  unfold _process_packet. cbv zeta.
  replace (fctype p =? FCTYPE_LOGIN) with false
    by (symmetry; apply Z.eqb_neq; exact Hl).
  rewrite (member_in _ _ Hd).
  unfold excepted in Hx. rewrite Hx. cbn [negb]. rewrite Hs.
  destruct (Py.dict_setdefault d (PStr (str_of "lv")) PNone) as [ul d1] eqn:E1.
  cbn [snd] in *.
  unfold Py.dict_setdefault at 1. rewrite Hu1.
  rewrite Hn. run_steps.
  assert (Hcond : negb (Py.is_none u) && negb (Py.eq_int u (-1))
                  && (negb (Py.is_none ul) || Py.eq_int ul 4) = false).
  { destruct Hcase as [Hm | Hlv].
    - rewrite Hm. cbn [negb]. rewrite andb_false_r. reflexivity.
    - assert (ul = PNone) as ->.
      { unfold Py.dict_setdefault in E1.
        destruct Hlv as [Hlv | Hlv]; rewrite Hlv in E1; injection E1 as <- _;
          reflexivity. }
      cbn. apply andb_false_r. }
  rewrite Hcond. reflexivity.
Qed.

End WithEnvironment.

#[local] Existing Instance Sample.limits.
#[local] Existing Instance Sample.constants.
#[local] Existing Instance Sample.environment.

Lemma sample_kinds_apart : NoDup (@handled_kinds Sample.constants).
Proof.
  unfold handled_kinds, detail_kinds. cbn.
  repeat (constructor;
          [cbn; intros H;
           repeat (destruct H as [H | H]; [discriminate H |]); exact H |]).
  constructor.
Qed.

Lemma payloadless_packet_stops_the_loop_witness :
  NoDup (@handled_kinds Sample.constants)
  /\ valid_frame (mkFrame 77 0 0 0 0 []) = true
  /\ looked_up (packet_of (mkFrame 77 0 0 0 0 [])) <> None
  /\ Client.data_received 1 1 (frame_bytes (mkFrame 77 0 0 0 0 []) ++ [])
       {| buffer := []; client := Sample.connected |}
     = Some {| delivered := [packet_of (mkFrame 77 0 0 0 0 [])];
               caught := Some TypeError;
               after := {| buffer := [];
                           client := loop_stop Sample.connected |} |}.
Proof.
  assert (H1 : valid_frame (mkFrame 77 0 0 0 0 []) = true) by reflexivity.
  assert (H2 : looked_up (packet_of (mkFrame 77 0 0 0 0 [])) <> None)
    by discriminate.
  split; [exact sample_kinds_apart |]. split; [exact H1 |].
  split; [exact H2 |].
  exact (@payloadless_packet_stops_the_loop Sample.limits Sample.constants
           Sample.environment
           (mkFrame 77 0 0 0 0 []) [] Sample.connected 0%nat 0%nat
           sample_kinds_apart H1 eq_refl H2).
Defined.

(** The text [{"rdata":[[12345,] is what is left of a roster list cut
    after its first number. *)
Lemma truncated_list_stops_the_loop_witness :
  valid_frame (mkFrame 14 0 0 0 12
                 (map byte_of_Z
                    ([123; 34] ++ str_of "rdata" ++ [34; 58; 91; 91]
                     ++ str_of "12345,"))) = true
  /\ Json.loads ([123; 34] ++ str_of "rdata" ++ [34; 58; 91; 91]
                 ++ str_of "12345,") = Json.Invalid
  /\ Py.is_substring (str_of "rdata")
       ([123; 34] ++ str_of "rdata" ++ [34; 58; 91; 91] ++ str_of "12345,")
     = true
  /\ option_map (fun r => (caught r, stopped (loop (client (after r)))))
       (Client.data_received 1 1
          (frame_bytes
             (mkFrame 14 0 0 0 12
                (map byte_of_Z
                   ([123; 34] ++ str_of "rdata" ++ [34; 58; 91; 91]
                    ++ str_of "12345,"))) ++ [])
          {| buffer := []; client := Sample.connected |})
     = Some (Some TypeError, true).
Proof.
  assert (H1 : valid_frame
                 (mkFrame 14 0 0 0 12
                    (map byte_of_Z
                       ([123; 34] ++ str_of "rdata" ++ [34; 58; 91; 91]
                        ++ str_of "12345,"))) = true) by reflexivity.
  assert (H2 : Json.loads ([123; 34] ++ str_of "rdata" ++ [34; 58; 91; 91]
                           ++ str_of "12345,") = Json.Invalid) by reflexivity.
  assert (H3 : Py.is_substring (str_of "rdata")
                 ([123; 34] ++ str_of "rdata" ++ [34; 58; 91; 91]
                  ++ str_of "12345,") = true) by reflexivity.
  split; [exact H1 |]. split; [exact H2 |]. split; [exact H3 |].
  rewrite (@truncated_list_stops_the_loop Sample.limits Sample.constants
             Sample.environment
             (mkFrame 14 0 0 0 12
                (map byte_of_Z
                   ([123; 34] ++ str_of "rdata" ++ [34; 58; 91; 91]
                    ++ str_of "12345,")))
             ([123; 34] ++ str_of "rdata" ++ [34; 58; 91; 91]
              ++ str_of "12345,")
             [] Sample.connected 0%nat 0%nat sample_kinds_apart H1 eq_refl);
    [reflexivity | reflexivity | discriminate | reflexivity | exact H2
     | exact H3].
Defined.

Lemma tags_loaded_fires_once_witness :
  exists c1,
    handle_packet_received 1
      (mkPacket 14 0 0 0 11
         (PDict [(PStr (str_of "rdata"),
                  PDict [(PStr (str_of "5"), PList [PStr (str_of "tag")])])]))
      Sample.connected = (Ret tt, c1)
    /\ _completed_tags c1 = true
    /\ count_emitted FCTYPE_CLIENT_TAGSLOADED c1 = 1%nat
    /\ count_emitted FCTYPE_CLIENT_TAGSLOADED
         (snd (handle_packet_received 1
                 (mkPacket 14 0 0 0 11
                    (PDict [(PStr (str_of "rdata"),
                             PDict [(PStr (str_of "6"),
                                     PList [PStr (str_of "tag")])])]))
                 c1)) = 1%nat.
Proof.
  eexists. split; [vm_compute; reflexivity |].
  match goal with
  | |- _completed_tags ?c1 = true /\ _ =>
      destruct (proj1 (@tags_loaded_fires_once Sample.constants
                         Sample.environment Sample.connected)
                  (mkPacket 14 0 0 0 11
                     (PDict [(PStr (str_of "rdata"),
                              PDict [(PStr (str_of "5"),
                                      PList [PStr (str_of "tag")])])]))
                  [(PStr (str_of "rdata"),
                    PDict [(PStr (str_of "5"), PList [PStr (str_of "tag")])])]
                  [(PStr (str_of "5"), PList [PStr (str_of "tag")])]
                  0%nat c1 sample_kinds_apart)
        as [Hf Hn];
        [reflexivity | reflexivity | reflexivity | reflexivity | reflexivity
         | reflexivity | vm_compute; reflexivity |];
      destruct (proj2 (@tags_loaded_fires_once Sample.constants
                         Sample.environment c1)
                  (mkPacket 14 0 0 0 11
                     (PDict [(PStr (str_of "rdata"),
                              PDict [(PStr (str_of "6"),
                                      PList [PStr (str_of "tag")])])]))
                  1%nat Hf) as [_ Hn2]
  end.
  split; [exact Hf |]. split; [exact Hn |]. rewrite Hn2. exact Hn.
Defined.

Lemma tkx_sets_stream_witness :
  exists c1,
    _process_packet (fun _ => ret tt)
      (mkPacket 30 0 0 0 0
         (PDict [(PStr (str_of "cxid"), PInt 7);
                 (PStr (str_of "tkx"), PStr (str_of "secret"));
                 (PStr (str_of "ctxenc"), PStr (str_of "ab/cde/f"))]))
      Sample.connected = (Ret (mkPacket 30 0 0 0 0
         (PDict [(PStr (str_of "cxid"), PInt 7);
                 (PStr (str_of "tkx"), PStr (str_of "secret"));
                 (PStr (str_of "ctxenc"), PStr (str_of "ab/cde/f"))])), c1)
    /\ stream_cxid c1 = PInt 7
    /\ stream_password c1 = PStr (str_of "secret")
    /\ stream_vidctx c1 = PStr (str_of "cde").
Proof.
  eexists. split.
  - exact (proj1 (@tkx_sets_stream Sample.constants Sample.environment
                    (fun _ => ret tt)
                    (mkPacket 30 0 0 0 0
                       (PDict [(PStr (str_of "cxid"), PInt 7);
                               (PStr (str_of "tkx"), PStr (str_of "secret"));
                               (PStr (str_of "ctxenc"),
                                PStr (str_of "ab/cde/f"))]))
                    _ Sample.connected sample_kinds_apart eq_refl eq_refl)
             (PInt 7) (PStr (str_of "secret")) (str_of "ab/cde/f")
             eq_refl eq_refl eq_refl).
  - repeat split.
Defined.

Lemma detail_without_level_merges_nothing_witness :
  _process_packet (fun _ => ret tt)
    (mkPacket 20 0 0 0 0 (PDict [(PStr (str_of "uid"), PInt 5)]))
    Sample.connected
  = (Ret (mkPacket 20 0 0 0 0
            (PDict [(PStr (str_of "uid"), PInt 5); (PStr (str_of "lv"), PNone)])),
     Sample.connected).
Proof.
  refine (proj1 (@detail_without_level_merges_nothing Sample.constants
                   Sample.environment (fun _ => ret tt)
                   (mkPacket 20 0 0 0 0 (PDict [(PStr (str_of "uid"), PInt 5)]))
                   [(PStr (str_of "uid"), PInt 5)] (PInt 5) Sample.connected
                   _ _ eq_refl eq_refl eq_refl eq_refl _)).
  - discriminate.
  - unfold detail_kinds. cbn. tauto.
  - right. left. reflexivity.
Defined.

End PacketFacts.

(** ** The list decoder: rows it refuses and rows it skips *)

Module ListRowsFacts.
Import Py ListSchema ListSchemaFacts ListRows.

Lemma obind_ret {A} (o : outcome A) : obind o (fun x => Ret x) = o.
Proof. destruct o; reflexivity. Qed.




Lemma build_schema_map_skips (entries : list pyval) :
  build_schema_map (filter is_entry entries) = build_schema_map entries.
Proof.
  induction entries as [| e entries IH]; [reflexivity |].
  cbn [filter build_schema_map].
  destruct e; cbn [is_entry is_dict is_str orb build_schema_map obind app];
    rewrite IH; try reflexivity;
    destruct (build_schema_map entries); reflexivity.
Qed.

Lemma process_records_skips (slots : list path) (rows : list pyval) :
  process_records slots (filter is_row rows) = process_records slots rows.
Proof.
  induction rows as [| r rows IH]; [reflexivity |].
  cbn [filter process_records].
  destruct r; cbn [is_row is_list is_dict orb process_records obind app];
    rewrite IH; try reflexivity;
    destruct (process_records slots rows); reflexivity.
Qed.

(** X27.  [_process_list] passes over what it does not recognise
    without a word: an entry of the schema that is neither a dict nor a
    str adds no slot, and a row that is neither a list nor a dict adds
    nothing to the result, so the outcome is the one for the list with
    those entries and rows taken out (the items after a dropped entry
    move up one slot). *)
Theorem unrecognised_entries_and_rows_are_skipped (entries rows : list pyval) :
  _process_list (PList (PList entries :: rows))
  = _process_list (PList (PList (filter is_entry entries) :: filter is_row rows)).
Proof.
  unfold _process_list. cbn [py_iter obind].
  rewrite build_schema_map_skips.
  destruct (build_schema_map entries) as [slots | e]; [| reflexivity].
  cbn [obind]. rewrite process_records_skips. reflexivity.
Qed.


End ListRowsFacts.


(** ** The keepalive and the connection *)

Module SessionFacts.
Import Wire Protocol WireFacts Client ClientFacts Queries QueryFacts.
Import Teardown TeardownFacts Packets PacketFacts Framing Text Session.

Section WithEnvironment.
Context {K : Constants} {E : Environment} {B : Builtins}.

(** *** Pings the loop has yet to run *)

Lemma tracked_stable (fired : list nat) : stable (tracked fired).
Proof. split; intros v c H; exact H. Qed.

Lemma tracked_blind (fired : list nat) : query_blind (tracked fired).
Proof. split; intros v c H; exact H. Qed.

Lemma quiet_tracked (fired : list nat) (c : Client) :
  quiet fired c -> tracked fired c.
Proof. intros H ix Hp. destruct (H ix Hp). Qed.

Lemma tracked_none_quiet (fired : list nat) (c : Client) :
  tracked fired c -> keepalive c = None -> quiet fired c.
Proof. intros H Hk ix Hp. rewrite (H ix Hp) in Hk. discriminate Hk. Qed.

(** Once the ping [keepalive] holds has run, none is left. *)
Lemma tracked_fired_quiet (fired : list nat) (c : Client) (ix : nat) :
  tracked fired c -> pending_ping fired c ix -> quiet (ix :: fired) c.
Proof.
  intros H Hix j (t & Hn & Ha & Hc & Hf).
  assert (Hj : pending_ping fired c j).
  { exists t. repeat split; try assumption.
    intros Hin. apply Hf. right. exact Hin. }
  pose proof (H ix Hix) as H1. pose proof (H j Hj) as H2.
  rewrite H1 in H2. injection H2 as ->. apply Hf. left. reflexivity.
Qed.

Lemma schedule_ping_tracked (fired : list nat) (c : Client) :
  quiet fired c -> tracked fired (snd (schedule_ping c)).
Proof.
  intros Hq. unfold schedule_ping. rewrite bind_get, !bind_modify.
  cbn [snd modify]. intros j (t & Hn & Ha & Hc & Hf).
  cbn [loop keepalive set_keepalive set_loop timers call_later] in Hn |- *.
  destruct (Nat.lt_ge_cases j (length (timers (loop c)))) as [Hlt | Hge].
  - rewrite nth_error_app1 in Hn by exact Hlt.
    destruct (Hq j). exists t. repeat split; assumption.
  - destruct (Nat.eq_dec j (length (timers (loop c)))) as [-> | Hne];
      [reflexivity |].
    rewrite nth_error_app2 in Hn by exact Hge.
    destruct (j - length (timers (loop c)))%nat as [| [| k]] eqn:Hd;
      [lia | discriminate Hn | discriminate Hn].
Qed.

Lemma tx_cmd_quiet (fired : list nat)
  (kind : kind_arg) (to a1 a2 : Z) (smsg : pyval) :
  preserves (quiet fired) (tx_cmd kind to a1 a2 smsg).
Proof. apply tx_cmd_preserves. intros v c H. exact H. Qed.

Lemma tx_cmd_tracked (fired : list nat)
  (kind : kind_arg) (to a1 a2 : Z) (smsg : pyval) :
  preserves (tracked fired) (tx_cmd kind to a1 a2 smsg).
Proof. apply tx_cmd_preserves. intros v c H. exact H. Qed.

Lemma ping_loop_tracked (fired : list nat) (c : Client) :
  quiet fired c -> tracked fired (snd (_ping_loop c)).
Proof.
  intros Hq. unfold _ping_loop, bind.
  pose proof (@tx_cmd_quiet fired (Member FCTYPE_NULL) 0 0 0 (PStr []) c Hq)
    as Hq1.
  destruct (tx_cmd (Member FCTYPE_NULL) 0 0 0 (PStr []) c) as [[[] | e] c1];
    cbn [snd] in Hq1 |- *.
  - apply schedule_ping_tracked, Hq1.
  - apply quiet_tracked, Hq1.
Qed.

Lemma keepalive_choice_tracked (fired : list nat) :
  preserves (tracked fired)
    (bind get (fun c => match keepalive c with
                        | None => schedule_ping
                        | Some _ => ret tt
                        end)).
Proof.
  intros c H. rewrite bind_get. destruct (keepalive c) eqn:Hk.
  - exact H.
  - apply schedule_ping_tracked, (tracked_none_quiet H Hk).
Qed.

Lemma connect_resume_tracked (fired : list nat) (login : bool)
  (conn : Transport) :
  preserves (tracked fired) (connect_resume login conn).
Proof.
  unfold connect_resume.
  apply preserves_bind; [apply preserves_modify; intros c H; exact H |].
  intros _. apply preserves_bind; [| intros _; apply preserves_ret].
  destruct login; [| apply preserves_ret].
  apply preserves_get_bind. intros c0 _.
  apply preserves_bind; [apply tx_cmd_tracked |].
  intros _. apply keepalive_choice_tracked.
Qed.

Lemma connect_dial_tracked (fired : list nat) (net : Network) (login : bool)
  (sc : pyval) :
  preserves (tracked fired) (connect_dial net login sc).
Proof.
  unfold connect_dial. through ltac:(intros ? Hside; exact Hside).
Qed.

Lemma connect_tracked (fired : list nat) (net : Network) (login : bool)
  (sc : pyval) :
  preserves (tracked fired) (connect net login sc).
Proof.
  unfold connect. apply preserves_bind; [apply connect_dial_tracked |].
  intros conn. apply connect_resume_tracked.
Qed.

(** What the cancelling of the keepalive leaves behind. *)
Lemma keepalive_cancelled_quiet (fired : list nat) (c : Client) :
  tracked fired c -> quiet fired (keepalive_cancelled c).
Proof.
  intros H. unfold keepalive_cancelled.
  destruct (keepalive c) as [k |] eqn:Hk;
    [| apply (tracked_none_quiet H Hk)].
  intros j (t & Hn & Ha & Hc & Hf).
  cbn [loop set_keepalive set_loop] in Hn.
  unfold cancel_timer in Hn.
  destruct (nth_error (timers (loop c)) k) as [t0 |] eqn:Hnth.
  - cbn [timers] in Hn.
    assert (Hlen : (k < length (timers (loop c)))%nat)
      by (apply nth_error_Some; rewrite Hnth; discriminate).
    destruct (@nth_error_replace timer (timers (loop c)) k
                (mkTimer (delay t0) (action t0) true) Hlen) as [Hat Hother].
    destruct (Nat.eq_dec j k) as [-> | Hne].
    + rewrite Hat in Hn. injection Hn as <-. discriminate Hc.
    + rewrite (Hother j Hne) in Hn.
      assert (Hp : pending_ping fired c j)
        by (exists t; repeat split; assumption).
      rewrite (H j Hp) in Hk. injection Hk as Hk. contradiction.
  - assert (Hp : pending_ping fired c j)
      by (exists t; repeat split; assumption).
    rewrite (H j Hp) in Hk. injection Hk as ->.
    rewrite Hnth in Hn. discriminate Hn.
Qed.

(** The teardown adds no ping. *)
Lemma teardown_adds_no_ping (c : Client) :
  exists extra,
    timers (loop (snd (handle_disconnected c)))
    = timers (loop (keepalive_cancelled c)) ++ extra
    /\ Forall (fun t => action t = CbReconnect) extra.
Proof.
  destruct (nameless_guest c) eqn:Hn.
  - rewrite (handle_disconnected_fails c Hn). cbn [snd].
    exists []. rewrite app_nil_r. split; [reflexivity | constructor].
  - destruct (after_teardown c Hn) as (Hl & _).
    rewrite Hl. destruct (loop_before_choice c) as (Hl1 & _ & _).
    unfold reconnect_or_stop.
    destruct (negb (_manual_disconnect
                      (flags_reset (guest_renamed (keepalive_cancelled c))))).
    + cbv zeta. cbn [loop set_loop set_printed timers call_later].
      rewrite Hl1. eexists. split; [reflexivity |].
      constructor; [reflexivity | constructor].
    + unfold loop_stop. cbn [loop set_loop timers]. rewrite Hl1.
      exists []. rewrite app_nil_r. split; [reflexivity | constructor].
Qed.

Lemma handle_disconnected_quiet (fired : list nat) (c : Client) :
  tracked fired c -> quiet fired (snd (handle_disconnected c)).
Proof.
  intros H j (t & Hn & Ha & Hc & Hf).
  destruct (teardown_adds_no_ping c) as (extra & Ht & Hx).
  rewrite Ht in Hn.
  destruct (Nat.lt_ge_cases j (length (timers (loop (keepalive_cancelled c)))))
    as [Hlt | Hge].
  - rewrite nth_error_app1 in Hn by exact Hlt.
    apply (@keepalive_cancelled_quiet fired c H j).
    exists t. repeat split; assumption.
  - rewrite nth_error_app2 in Hn by exact Hge.
    apply nth_error_In in Hn.
    pose proof (proj1 (Forall_forall _ _) Hx _ Hn) as Hr.
    cbv beta in Hr. rewrite Ha in Hr. discriminate Hr.
Qed.

Lemma query_user_tracked (fired : list nat) (user : pyval) :
  preserves (tracked fired) (query_user user).
Proof.
  unfold query_user, on. cbv zeta.
  through_with
    ltac:(idtac;
          match goal with
          | |- preserves _ (tx_cmd _ _ _ _ _) => apply tx_cmd_tracked
          end)
    ltac:(intros ? Hside; exact Hside).
Qed.

Lemma disconnect_tracked (fired : list nat) :
  preserves (tracked fired) disconnect.
Proof.
  unfold disconnect, transport_close. through ltac:(intros ? Hside; exact Hside).
Qed.

Lemma emit_tracked (fired : list nat) (kind : Z) (arg : option Packet) :
  preserves (tracked fired) (emit kind arg).
Proof.
  apply emit_preserves; [apply tracked_blind |]. intros c H. exact H.
Qed.

(** X28.  The client runs one keepalive chain at most: with [fired]
    the timers whose callback has run, every ping timer that was
    neither cancelled nor run is the one [self.keepalive] holds.  This
    is so for a new client and stays so through [connect], the
    reconnect callback, [handle_disconnected], [disconnect],
    [handle_packet_received], [query_user], [tx_cmd] and the stopping
    of the loop; when the loop runs the pending ping, [_ping_loop]
    leaves it so with that timer counted as run; and after
    [handle_disconnected] no ping is left to run at all. *)
Theorem one_keepalive_chain (fired : list nat) :
  (forall user pass all, tracked fired (init user pass all))
  /\ (forall c ix,
        tracked fired c -> pending_ping fired c ix ->
        tracked (ix :: fired) (snd (_ping_loop c)))
  /\ (forall net login sc, preserves (tracked fired) (connect_dial net login sc))
  /\ (forall login conn, preserves (tracked fired) (connect_resume login conn))
  /\ (forall net sc, preserves (tracked fired) (reconnect net sc))
  /\ preserves (tracked fired) handle_disconnected
  /\ (forall c, tracked fired c -> quiet fired (snd (handle_disconnected c)))
  /\ preserves (tracked fired) disconnect
  /\ (forall depth p, preserves (tracked fired) (handle_packet_received depth p))
  /\ (forall user, preserves (tracked fired) (query_user user))
  /\ (forall kind to a1 a2 smsg,
        preserves (tracked fired) (tx_cmd kind to a1 a2 smsg))
  /\ (forall c, tracked fired c -> tracked fired (loop_stop c)).
Proof.
  split.
  { intros user pass all j (t & Hn & _). destruct j; discriminate Hn. }
  split.
  { intros c ix H Hix. apply ping_loop_tracked.
    apply (tracked_fired_quiet H Hix). }
  split; [intros; apply connect_dial_tracked |].
  split; [intros; apply connect_resume_tracked |].
  split.
  { intros net sc. unfold reconnect. apply preserves_get_bind.
    intros c0 _. apply connect_tracked. }
  split.
  { intros c H. apply quiet_tracked, handle_disconnected_quiet, H. }
  split; [intros c H; apply handle_disconnected_quiet, H |].
  split; [apply disconnect_tracked |].
  split.
  { intros depth p.
    apply (@handle_packet_received_preserves K E (tracked fired)
             (tracked_stable fired) (@emit_tracked fired) depth p). }
  split; [intros; apply query_user_tracked |].
  split; [intros; apply tx_cmd_tracked |].
  intros c H. exact H.
Qed.

(** *** The login of a reconnect *)

(** A text command on an open transport, its numbers in range. *)
Lemma tx_cmd_text (ft to a1 a2 : Z) (s : pystr) (body : list byte)
  (t : Transport) (c : Client) :
  forallb in_int32 [ft; session_id c; to; a1; a2; Z.of_nat (length s)] = true ->
  utf8_encode s = Ret body ->
  transport c = Some t ->
  tx_cmd (Member ft) to a1 a2 (PStr s) c
  = (Ret tt,
     set_transport
       (Some (mkTransport
                (written t
                 ++ [header ft (session_id c) to a1 a2 (Z.of_nat (length s))
                     ++ pack_s (length s) body])
                (closing t))) c).
Proof.
  intros Hr Hb Ht. unfold tx_cmd. cbn [Py.is_none py_len py_encode].
  rewrite bind_lift_ret, bind_get. rewrite Hb, bind_lift_ret.
  rewrite pack_ints_be32 by (cbn [forallb]; cbn [forallb] in Hr; exact Hr).
  rewrite bind_lift_ret. unfold transport_write.
  rewrite bind_get, Ht. reflexivity.
Qed.

Lemma pack_s_whole (b : list byte) : pack_s (length b) b = b.
Proof.
  unfold pack_s. rewrite firstn_all, Nat.sub_diag. apply app_nil_r.
Qed.

(** What the teardown leaves of the identity of the client. *)
Lemma teardown_identity (c : Client) :
  nameless_guest c = false ->
  session_id (snd (handle_disconnected c)) = session_id c
  /\ password (snd (handle_disconnected c)) = password c
  /\ _logged_in (snd (handle_disconnected c)) = _logged_in c
  /\ keepalive (snd (handle_disconnected c)) = None.
Proof.
  intros Hn. destruct (after_teardown c Hn) as (_ & _ & Hk & _).
  split; [| split; [| split; [| exact Hk]]];
    destruct (handle_disconnected_torn c Hn) as (o & r & H);
    rewrite H; cbn [snd]; unfold torn, announce_ready, reconnect_or_stop,
      loop_stop, flags_reset, guest_renamed, keepalive_cancelled;
    destruct (keepalive c); destruct (guest_again _);
    destruct (negb _); reflexivity.
Qed.

Lemma set_logged_in_same (c : Client) : set__logged_in (_logged_in c) c = c.
Proof. destruct c. reflexivity. Qed.

(** X29.  The reconnect after a lost connection logs in again under
    the session id of the lost session.  When the callback of the
    reconnect timer runs on the client as [handle_disconnected] left
    it, logged in before, its user name and password being ASCII text
    by then, and the connection is made, [connect] writes one frame to
    the new transport, the [LOGIN] command with the old [session_id]
    in the sender field, 20071025 as first argument and
    [username:password] as text, and starts a new keepalive timer of
    120 seconds; [CLIENT_CONNECTED] is handed to [call_soon] and not
    emitted yet. *)
Theorem reconnect_logs_in_again (net : Network) (sc : pyval)
  (conn : Transport) (user pass : pystr) (c : Client) :
  nameless_guest c = false ->
  _logged_in c = true ->
  username (snd (handle_disconnected c)) = PStr user ->
  password c = PStr pass ->
  ascii_text (login_text user pass) ->
  forallb in_int32 [FCTYPE_LOGIN; session_id c;
                    Z.of_nat (length (login_text user pass))] = true ->
  fst (connect_dial net true sc (snd (handle_disconnected c))) = Ret conn ->
  reconnect net sc (snd (handle_disconnected c))
  = (Ret [SoonEmit FCTYPE_CLIENT_CONNECTED],
     logged_in conn
       (header FCTYPE_LOGIN (session_id c) 0 20071025 0
               (Z.of_nat (length (login_text user pass)))
        ++ map byte_of_Z (login_text user pass))
       (snd (handle_disconnected c)))
  /\ keepalive (snd (handle_disconnected c)) = None
  /\ emitted (snd (reconnect net sc (snd (handle_disconnected c))))
     = emitted (snd (handle_disconnected c)).
Proof.
  intros Hn Hlog Huser Hpass Hascii Hrange Hdial.
  destruct (teardown_identity c Hn) as (Hsid & Hpw & Hli & Hka).
  set (c1 := snd (handle_disconnected c)) in *.
  assert (Hrun : reconnect net sc c1
                 = (Ret [SoonEmit FCTYPE_CLIENT_CONNECTED],
                    logged_in conn
                      (header FCTYPE_LOGIN (session_id c) 0 20071025 0
                              (Z.of_nat (length (login_text user pass)))
                       ++ map byte_of_Z (login_text user pass)) c1)).
  { unfold reconnect. rewrite bind_get. rewrite Hli, Hlog.
    unfold connect.
    assert (Hd : connect_dial net true sc c1 = (Ret conn, c1)).
    { revert Hdial. unfold connect_dial.
      destruct (Py.getitem_str sc (str_of "chat_servers")) as [servers | e];
        [| rewrite bind_lift_raise; discriminate].
      rewrite bind_lift_ret.
      destruct (choice net servers) as [sel | e];
        [| rewrite bind_lift_raise; discriminate].
      rewrite bind_lift_ret, bind_modify.
      rewrite <- Hlog, <- Hli, set_logged_in_same.
      unfold lift. cbn [fst]. intros ->. reflexivity. }
    unfold bind at 1. rewrite Hd.
    unfold connect_resume. rewrite bind_modify, bind_assoc, bind_get.
    cbn [username password set_transport]. 
    rewrite Huser, Hpw, Hpass. cbn [py_str].
    change (user ++ [58] ++ pass) with (login_text user pass).
    rewrite bind_assoc.
    unfold bind at 1.
    rewrite (@tx_cmd_text FCTYPE_LOGIN 0 20071025 0 (login_text user pass)
               (map byte_of_Z (login_text user pass)) conn
               (set_transport (Some conn) c1)).
    - rewrite bind_assoc, bind_get.
      cbn [keepalive set_transport]. rewrite Hka.
      unfold schedule_ping. rewrite bind_assoc, bind_get. cbv beta.
      rewrite bind_assoc, bind_modify. cbv beta. rewrite bind_modify.
      unfold ret.
      assert (Hps : pack_s (length (login_text user pass))
                      (map byte_of_Z (login_text user pass))
                    = map byte_of_Z (login_text user pass)).
      { rewrite <- (length_map byte_of_Z (login_text user pass)).
        apply pack_s_whole. }
      rewrite Hps.
      cbn [session_id set_transport]. rewrite Hsid.
      unfold logged_in. destruct c1. reflexivity.
    - cbn [session_id set_transport]. rewrite Hsid.
      cbn [forallb] in Hrange |- *.
      apply andb_true_iff in Hrange as [H1 Hrange].
      apply andb_true_iff in Hrange as [H2 Hrange].
      rewrite H1, H2, Hrange. reflexivity.
    - apply utf8_encode_ascii, Hascii.
    - reflexivity. }
  split; [exact Hrun |]. split; [exact Hka |].
  rewrite Hrun. reflexivity.
Qed.

End WithEnvironment.

Lemma reconnect_logs_in_again_witness :
  fst (@reconnect Sample.constants Sample.environment SampleSession.builtins
         SampleSession.network SampleSession.config
         (snd (@handle_disconnected Sample.constants Sample.environment
                 SampleSession.guest123)))
  = Ret [SoonEmit FCTYPE_CLIENT_CONNECTED]
  /\ option_map written
       (transport
          (snd (@reconnect Sample.constants Sample.environment
                  SampleSession.builtins
                  SampleSession.network SampleSession.config
                  (snd (@handle_disconnected Sample.constants
                          Sample.environment SampleSession.guest123)))))
     = Some [header (@FCTYPE_LOGIN Sample.constants) 77 0 20071025 0 11
             ++ map byte_of_Z (str_of "guest:guest")].
Proof.
  destruct (@reconnect_logs_in_again Sample.constants Sample.environment
              SampleSession.builtins SampleSession.network
              SampleSession.config (mkTransport [] false)
              (str_of "guest") (str_of "guest") SampleSession.guest123)
    as (Hrun & _ & _).
  - reflexivity.
  - reflexivity.
  - vm_compute. reflexivity.
  - reflexivity.
  - unfold login_text. simpl. repeat constructor; lia.
  - reflexivity.
  - vm_compute. reflexivity.
  - rewrite Hrun. split; reflexivity.
Defined.

End SessionFacts.

(** ** The stream address *)

Module StreamsFacts.
Import Py Client ClientFacts QueryFacts TeardownFacts Packets PacketFacts.
Import Text Streams.

Section WithEnvironment.
Context {K : Constants} {E : Environment} {B : Builtins} {A : Attributes}.

(** A call into the registry that reads and leaves it as it is. *)
Lemma bind_read (X Y : Type) (f : registry -> outcome X * registry) (x : X)
  (k : X -> M Y) (c : Client) :
  f (models c) = (Ret x, models c) ->
  bind (on_models f) k c = k x c.
Proof.
  intros H. unfold bind, on_models. rewrite H, set_models_same. reflexivity.
Qed.

Lemma dict_mem_get (d : dict) (k v : pyval) :
  dict_get d k = Some v -> dict_mem d k = true.
Proof. intros H. unfold dict_mem. rewrite H. reflexivity. Qed.

(** Every address [get_hls_url] returns is laid out by the second
    [format]. *)
Lemma get_hls_url_returns (sc : pyval) (nonce : pystr) (arg : model_arg) :
  returns (fun r => match r with
                    | Url u =>
                        exists videoserv roomprefix roomId,
                          u = nxserver_url videoserv roomprefix roomId nonce
                    | _ => True
                    end)
          (get_hls_url sc nonce arg).
Proof.
  unfold get_hls_url. cbv beta iota zeta.
  repeat match goal with
         | |- returns _ (ret (Url _)) =>
             apply returns_ret; eexists _, _, _; reflexivity
         | |- returns _ (ret _) => apply returns_ret; exact I
         | |- returns _ (raise _) => apply returns_raise
         | |- returns _ (bind _ _) => apply returns_bind; intros ?
         | |- returns _ (if ?b then _ else _) => destruct b
         | |- returns _ (match ?x with _ => _ end) => destruct x
         end.
Qed.

(** X30.  [get_hls_url] never gives the address of the newer video
    servers.  Every address it returns is the NxServer one of the
    second [format]; and when the model is in free chat and the server
    list names the model's [camserv] under ["ngvideo_servers"], the
    call raises [UnboundLocalError], [roomprefix] being assigned in
    the other branch only, and leaves the client and the registry as
    they were. *)
Theorem ngvideo_address_is_never_returned
  (scd session servers : dict) (nonce : pystr) (m : model)
  (camserv vs u roomId videoserv : pyval) (c : Client) :
  bestsession m (models c) = (Ret (PDict session), models c) ->
  model_uid m (models c) = (Ret u, models c) ->
  dict_get session (PStr (str_of "camserv")) = Some camserv ->
  dict_get session (PStr (str_of "vs")) = Some vs ->
  eq_int vs STATE_FreeChat = true ->
  toroomid_val u = Ret roomId ->
  dict_get scd (PStr (str_of "ngvideo_servers")) = Some (PDict servers) ->
  dict_get servers (PStr (py_str camserv)) = Some videoserv ->
  get_hls_url (PDict scd) nonce (ByModel m) c
  = (Ret (Unbound "roomprefix"), c)
  /\ forall sc' nonce' arg c0 c1 address,
       get_hls_url sc' nonce' arg c0 = (Ret (Url address), c1) ->
       exists videoserv' roomprefix roomId',
         address = nxserver_url videoserv' roomprefix roomId' nonce'.
Proof.
  intros Hs Hu Hcam Hvs Hfree Hroom Hng Hlisted. split.
  - unfold get_hls_url. cbv beta iota zeta.
    rewrite bind_ret. cbv beta iota.
    rewrite (bind_read _ _ _ Hs). cbv beta.
    cbn [contains_str]. rewrite (dict_mem_get _ _ Hcam).
    rewrite bind_lift_ret. cbv beta. cbn [negb is_none].
    rewrite bind_assoc, (bind_read _ _ _ Hs). cbv beta.
    cbn [getitem_str]. rewrite Hvs.
    rewrite bind_assoc, bind_lift_ret. cbv beta.
    rewrite bind_ret. cbv beta. rewrite Hfree. cbn [negb].
    rewrite (bind_read _ _ _ Hs). cbv beta.
    cbn [getitem_str]. rewrite Hcam. rewrite bind_lift_ret. cbv beta.
    rewrite (bind_read _ _ _ Hu). cbv beta.
    rewrite Hroom, bind_lift_ret. cbv beta.
    rewrite (dict_mem_get _ _ Hng), bind_lift_ret. cbv beta iota.
    rewrite bind_assoc. rewrite Hng, bind_lift_ret. cbv beta.
    cbn [contains_str]. rewrite (dict_mem_get _ _ Hlisted).
    rewrite bind_lift_ret. cbv beta iota.
    rewrite bind_lift_ret. cbv beta.
    cbn [getitem_str]. rewrite Hlisted, bind_lift_ret. cbv beta.
    rewrite bind_get. reflexivity.
  - intros sc' nonce' arg c0 c1 address Hret.
    apply (@get_hls_url_returns sc' nonce' arg c0 (Url address) c1 Hret).
Qed.

End WithEnvironment.

Lemma ngvideo_address_is_never_returned_witness :
  @get_hls_url Sample.environment SampleSession.builtins
    SampleSession.attributes SampleSession.config (str_of "0.5")
    (ByModel (PInt 42 : @model Sample.environment)) SampleSession.watching
  = (Ret (Unbound "roomprefix"), SampleSession.watching).
Proof.
  apply (@ngvideo_address_is_never_returned Sample.environment
           SampleSession.builtins SampleSession.attributes
           [(PStr (str_of "chat_servers"), PList [PStr (str_of "xchat20")]);
            (PStr (str_of "ngvideo_servers"),
             PDict [(PStr (str_of "1545"), PStr (str_of "video545"))])]
           [(PStr (str_of "camserv"), PInt 1545); (PStr (str_of "vs"), PInt 0)]
           [(PStr (str_of "1545"), PStr (str_of "video545"))]
           (str_of "0.5") (PInt 42) (PInt 1545) (PInt 0) (PInt 42)
           (PInt 100000042) (PStr (str_of "video545")) SampleSession.watching);
    reflexivity.
Defined.

End StreamsFacts.
